(** * iDDS: the ORM repositories for Processings and Transforms and the
      ATLAS stage-in work, embedded from the Python sources

    - [lib/idds/orm/processings.py]      -> [Module Processings]
    - [lib/idds/orm/transforms.py]       -> [Module Transforms]
    - [lib/idds/atlas/workflow/atlasstageinwork.py] -> [Module StageIn]

    Python exceptions are values of [exn]; a call that may raise returns a
    [result].  Database tables are lists of rows in table order, Python
    dicts with string keys are [gmap string _], dicts whose iteration order
    matters are association lists in insertion order.  Timestamps are
    integers (a clock reading [now] is passed to every operation that calls
    [datetime.datetime.utcnow()]). *)

From stdpp Require Import gmap strings list sorting.

Local Open Scope Z_scope.

(** ** Python exceptions and results *)

Inductive exn :=
  (* builtins *)
  | KeyError | IndexError | TypeError | AttributeError | UnboundLocalError
  (* idds.common.exceptions *)
  | IDDSException | ProcessNotFound | NoObject | DuplicatedObject | DatabaseException
  (* sqlalchemy *)
  | NoResultFound | IntegrityError | DatabaseError
  (* rucio.common.exception *)
  | RucioCannotAuthenticate | RucioDuplicateRule | RucioRuleNotFound | RucioException.

#[global] Instance exn_eq_dec : EqDecision exn.
Proof. solve_decision. Defined.

Inductive result (A : Type) :=
  | Ok (a : A)
  | Raise (e : exn).
Arguments Ok {A} a.
Arguments Raise {A} e.

(** Sequencing: the first exception raised ends the computation
    ([x ← r; k] below is stdpp's notation for [mbind]). *)
#[global] Instance result_ret : MRet result := fun _ a => Ok a.
#[global] Instance result_bind : MBind result := fun _ _ k r =>
  match r with
  | Ok a => k a
  | Raise e => Raise e
  end.

(** Python truthiness of an optional integer argument: [None] and [0] are
    falsy ([if period:], [if bulk_size:]). *)
Definition truthy_Z (o : option Z) : bool :=
  match o with
  | Some z => negb (z =? 0)
  | None => false
  end.

Definition truthy_nat (o : option nat) : bool :=
  match o with
  | Some n => negb (Nat.eqb n 0)
  | None => false
  end.

(** [None] and the empty string are falsy ([if submitter:]). *)
Definition truthy_string (o : option string) : bool :=
  match o with
  | Some s => negb (bool_decide (s = EmptyString))
  | None => false
  end.

(** ** SQLAlchemy query results

    [Query.first()] returns the first row or [None]; [Query.all()] returns
    the list of rows.  Neither raises [NoResultFound] (only [Query.one()]
    does). *)

Definition query_first {A} (rows : list A) : result (option A) := Ok (head rows).
Definition query_all {A} (rows : list A) : result (list A) := Ok rows.

(** [except sqlalchemy.orm.exc.NoResultFound: raise exceptions.NoObject(..)]
    followed by [except Exception as error: raise error]. *)
Definition except_NoResultFound {A} (r : result A) : result A :=
  match r with
  | Raise NoResultFound => Raise NoObject
  | other => other
  end.

(** [except IntegrityError: raise DuplicatedObject] followed by
    [except DatabaseError: raise DatabaseException] (the add functions). *)
Definition except_IntegrityError {A} (r : result A) : result A :=
  match r with
  | Raise IntegrityError => Raise DuplicatedObject
  | Raise DatabaseError => Raise DatabaseException
  | other => other
  end.

(** ** idds.common.constants

    [idds.common.constants] is not among the sources; the enumerations
    below have the members the data model of the spec lists and the
    sources use. *)

(** Modelled from the spec: [ProcessingStatus]. *)
Module ProcessingStatus.
Inductive t :=
  | New | Submitting | Submitted | Running | Finished | Failed | Lost | Cancelled.
#[global] Instance eq_dec : EqDecision t.
Proof. solve_decision. Defined.
End ProcessingStatus.

(** Modelled from the spec: [ProcessingLocking]; the sources name [Idle] and [Locking]. *)
Module ProcessingLocking.
Inductive t := Idle | Locking.
#[global] Instance eq_dec : EqDecision t.
Proof. solve_decision. Defined.
End ProcessingLocking.

(** Modelled from the spec: [GranularityType]. *)
Module GranularityType.
Inductive t := File | Event.
#[global] Instance eq_dec : EqDecision t.
Proof. solve_decision. Defined.
End GranularityType.

(** Modelled from the spec: [TransformStatus]. *)
Module TransformStatus.
Inductive t :=
  | New | Transforming | Finished | SubFinished | Failed | Lost
  | Cancelled | ToCancel | Suspended.
#[global] Instance eq_dec : EqDecision t.
Proof. solve_decision. Defined.
End TransformStatus.

(** Modelled from the spec: [TransformLocking]; the sources name [Idle] and [Locking]. *)
Module TransformLocking.
Inductive t := Idle | Locking.
#[global] Instance eq_dec : EqDecision t.
Proof. solve_decision. Defined.
End TransformLocking.

(** Modelled from the spec: [TransformType]. *)
Module TransformType.
(** Only [StageIn] is named by the sources; the other transform types
    are kept by their numeric code. *)
Inductive t := StageIn | OtherType (code : Z).
End TransformType.

(** Modelled from the spec: [ContentStatus]; [name] is the [.name] of a member. *)
Module ContentStatus.
Inductive t := New | Processing | Available | Failed | Lost | Mapped.
#[global] Instance eq_dec : EqDecision t.
Proof. solve_decision. Defined.
Definition name (s : t) : string :=
  match s with
  | New => "New" | Processing => "Processing" | Available => "Available"
  | Failed => "Failed" | Lost => "Lost" | Mapped => "Mapped"
  end.
End ContentStatus.

(** Modelled from the spec: [ContentType]. *)
Module ContentType.
Inductive t := File | Event.
End ContentType.

(** Modelled from the spec: [CollectionStatus]. *)
Module CollectionStatus.
Inductive t := Open | Closed | SubClosed | Failed | Deleted.
#[global] Instance eq_dec : EqDecision t.
Proof. solve_decision. Defined.
End CollectionStatus.

(** Modelled from the spec: [WorkStatus]: the members [syn_work_status] assigns
    (Finished, SubFinished, Failed) and, for a work that is not rolled up yet,
    those of a transform in progress. *)
Module WorkStatus.
Inductive t := New | Transforming | Finished | SubFinished | Failed.
#[global] Instance eq_dec : EqDecision t.
Proof. solve_decision. Defined.
End WorkStatus.

(** ** idds.orm.processings *)

Module Processings.

(** Modelled from the spec: [models.Processing] (idds.orm.base.models is
    not among the sources).  One field per column of the Processing
    entity of the data model; the JSON columns are kept as their
    serialised text, nullable columns are options. *)
Record Processing := {
  processing_id : Z;
  transform_id : Z;
  status : ProcessingStatus.t;
  substatus : ProcessingStatus.t;
  locking : ProcessingLocking.t;
  submitter : option string;
  granularity : option Z;
  granularity_type : GranularityType.t;
  expired_at : option Z;
  updated_at : Z;
  next_poll_at : Z;
  finished_at : option Z;
  processing_metadata : option string;
  output_metadata : option string
}.

(** The processings table with its primary-key sequence. *)
Record Table := {
  rows : list Processing;
  next_id : Z
}.

Definition empty : Table := {| rows := []; next_id := 1 |}.

(** Every stored key was drawn from the sequence. *)
Definition table_wf (tbl : Table) : Prop :=
  Forall (fun r => processing_id r < next_id tbl) (rows tbl).

(** [create_processing]: the row object before it is saved; the key and
    the timestamps are filled in by [save]. *)
Definition create_processing (transform_id : Z) (status : ProcessingStatus.t)
    (locking : ProcessingLocking.t) (submitter : option string) (granularity : option Z)
    (granularity_type : GranularityType.t) (expired_at : option Z)
    (processing_metadata : option string) (substatus : ProcessingStatus.t)
    (output_metadata : option string) : Processing :=
  {| processing_id := 0;
     transform_id := transform_id; status := status; substatus := substatus;
     locking := locking; submitter := submitter; granularity := granularity;
     granularity_type := granularity_type; expired_at := expired_at;
     updated_at := 0; next_poll_at := 0; finished_at := None;
     processing_metadata := processing_metadata;
     output_metadata := output_metadata |}.

(** Modelled from the spec: [new_processing.save(session=session)].  The
    row receives the next key of the sequence and the column defaults
    ([updated_at] and [next_poll_at] are the time of the insert,
    [finished_at] is NULL); a key that is already stored violates the
    primary key. *)
Definition save (now : Z) (p : Processing) (tbl : Table) : result (Processing * Table) :=
  let id := next_id tbl in
  if bool_decide (id ∈ processing_id <$> rows tbl) then Raise IntegrityError
  else
    let row :=
      {| processing_id := id;
         transform_id := transform_id p; status := status p; substatus := substatus p;
         locking := locking p; submitter := submitter p; granularity := granularity p;
         granularity_type := granularity_type p; expired_at := expired_at p;
         updated_at := now; next_poll_at := now; finished_at := None;
         processing_metadata := processing_metadata p;
         output_metadata := output_metadata p |} in
    Ok (row, {| rows := rows tbl ++ [row]; next_id := id + 1 |}).

(** [add_processing]; it has no [substatus] argument, so
    [create_processing] is called with its default [ProcessingStatus.New]. *)
Definition add_processing (now : Z) (transform_id : Z) (status : ProcessingStatus.t)
    (locking : ProcessingLocking.t) (submitter : option string) (granularity : option Z)
    (granularity_type : GranularityType.t) (expired_at : option Z)
    (processing_metadata : option string) (output_metadata : option string)
    (session : Table) : result (Z * Table) :=
  except_IntegrityError
    (let new_processing :=
       create_processing transform_id status locking submitter granularity
         granularity_type expired_at processing_metadata ProcessingStatus.New output_metadata in
     '(saved, session') ← save now new_processing session;
     Ok (processing_id saved, session')).

(** Modelled from the spec: [to_dict()] and [to_dict_json()] of the row
    (idds.orm.base.models is not among the sources): the columns of the
    row, tagged with the rendering that was asked for. *)
Inductive Rendered :=
  | to_dict (r : Processing)
  | to_dict_json (r : Processing).

Definition render (to_json : bool) (r : Processing) : Rendered :=
  if to_json then to_dict_json r else to_dict r.

(** [get_processing]: [None] (here [Ok None]) when [first()] finds no row. *)
Definition get_processing (processing_id0 : Z) (to_json : bool) (session : Table)
    : result (option Rendered) :=
  except_NoResultFound
    (let query := List.filter (fun r => bool_decide (processing_id r = processing_id0))
                              (rows session) in
     ret ← query_first query;
     match ret with
     | None => Ok None
     | Some r => Ok (Some (render to_json r))
     end).

(** The ordering of [order_by(asc(models.Processing.updated_at))]. *)
Definition updated_at_asc (r1 r2 : Processing) : Prop :=
  updated_at r1 <= updated_at r2.

#[global] Instance updated_at_asc_dec : RelDecision updated_at_asc.
Proof. intros r1 r2. unfold updated_at_asc. apply _. Defined.

(** [get_processings_by_status].  A single status is passed as a
    one-element list.  Rows tied on [updated_at] come out in the order
    the merge sort leaves them (SQL leaves it open). *)
Definition get_processings_by_status (now : Z) (status0 : list ProcessingStatus.t)
    (period : option Z) (locking0 : bool) (bulk_size : option nat)
    (submitter0 : option string) (to_json : bool) (session : Table)
    : result (list Rendered) :=
  except_NoResultFound
    (let status1 := match status0 with
                    | [s] => [s; s]
                    | _ => status0
                    end in
     let query := List.filter (fun r => bool_decide (status r ∈ status1))
                              (rows session) in
     let query := List.filter (fun r => bool_decide (next_poll_at r < now)) query in
     let query :=
       if truthy_Z period
       then List.filter (fun r => bool_decide (updated_at r < now - default 0 period)) query
       else query in
     let query :=
       if locking0
       then List.filter (fun r => bool_decide (locking r = ProcessingLocking.Idle)) query
       else query in
     let query :=
       if truthy_string submitter0
       then List.filter (fun r => bool_decide (submitter r = submitter0)) query
       else query in
     let query := merge_sort updated_at_asc query in
     let query :=
       if truthy_nat bulk_size then take (default 0%nat bulk_size) query else query in
     tmp ← query_all query;
     Ok (List.map (render to_json) tmp)).

(** The rows a call selects, as a predicate: a period of 0, like no
    period, filters nothing, and so does an empty submitter. *)
Definition selected (now : Z) (status0 : list ProcessingStatus.t) (period : option Z)
    (locking0 : bool) (submitter0 : option string) (r : Processing) : Prop :=
  status r ∈ status0
  /\ next_poll_at r < now
  /\ (if locking0 then locking r = ProcessingLocking.Idle else True)
  /\ match period with
     | Some seconds => seconds = 0 \/ updated_at r < now - seconds
     | None => True
     end
  /\ match submitter0 with
     | Some s => s = EmptyString \/ submitter r = Some s
     | None => True
     end.

#[global] Instance selected_dec now status0 period locking0 submitter0 r :
  Decision (selected now status0 period locking0 submitter0 r).
Proof.
  unfold selected. destruct locking0, period, submitter0; apply _.
Defined.

(** The value under ['status'] in the [parameters] of
    [update_processing]: the enum member [s] or its number [s.value],
    which the column stores as the same status.  A number that is the
    value of no member is not a status; distinct members have distinct
    values, so a number is given by the member it belongs to. *)
Inductive StatusArg :=
  | Member (s : ProcessingStatus.t)
  | Value (s : ProcessingStatus.t).

#[global] Instance StatusArg_eq_dec : EqDecision StatusArg.
Proof. solve_decision. Defined.

Definition status_of (a : StatusArg) : ProcessingStatus.t :=
  match a with
  | Member s => s
  | Value s => s
  end.

(** Python's [==] between an enum member and a number is false. *)
Definition StatusArg_eqb (a b : StatusArg) : bool :=
  match a, b with
  | Member s, Member t => bool_decide (s = t)
  | Value s, Value t => bool_decide (s = t)
  | _, _ => false
  end.

(** The [parameters] dictionary of [update_processing]: one optional
    entry per column that can be assigned ([None]: the key is absent).
    For a nullable column the entry itself is an option. *)
Record Parameters := {
  p_transform_id : option Z;
  p_status : option StatusArg;
  p_substatus : option ProcessingStatus.t;
  p_locking : option ProcessingLocking.t;
  p_submitter : option (option string);
  p_granularity : option (option Z);
  p_granularity_type : option GranularityType.t;
  p_expired_at : option (option Z);
  p_updated_at : option Z;
  p_next_poll_at : option Z;
  p_finished_at : option (option Z);
  p_processing_metadata : option (option string);
  p_output_metadata : option (option string)
}.

(** [{'status': a}]. *)
Definition status_parameters (a : StatusArg) : Parameters :=
  {| p_transform_id := None; p_status := Some a; p_substatus := None; p_locking := None;
     p_submitter := None; p_granularity := None; p_granularity_type := None;
     p_expired_at := None; p_updated_at := None; p_next_poll_at := None;
     p_finished_at := None; p_processing_metadata := None; p_output_metadata := None |}.

Definition set_updated_at (v : Z) (p : Parameters) : Parameters :=
  {| p_transform_id := p_transform_id p; p_status := p_status p;
     p_substatus := p_substatus p; p_locking := p_locking p;
     p_submitter := p_submitter p; p_granularity := p_granularity p;
     p_granularity_type := p_granularity_type p; p_expired_at := p_expired_at p;
     p_updated_at := Some v; p_next_poll_at := p_next_poll_at p;
     p_finished_at := p_finished_at p;
     p_processing_metadata := p_processing_metadata p;
     p_output_metadata := p_output_metadata p |}.

Definition set_finished_at (v : Z) (p : Parameters) : Parameters :=
  {| p_transform_id := p_transform_id p; p_status := p_status p;
     p_substatus := p_substatus p; p_locking := p_locking p;
     p_submitter := p_submitter p; p_granularity := p_granularity p;
     p_granularity_type := p_granularity_type p; p_expired_at := p_expired_at p;
     p_updated_at := p_updated_at p; p_next_poll_at := p_next_poll_at p;
     p_finished_at := Some (Some v);
     p_processing_metadata := p_processing_metadata p;
     p_output_metadata := p_output_metadata p |}.

(** ['status' in parameters and parameters['status'] in
    [Finished, Failed, Lost]]: the list holds the members only. *)
Definition carries_terminal_status (p : Parameters) : bool :=
  match p_status p with
  | Some a => existsb (StatusArg_eqb a)
                [Member ProcessingStatus.Finished; Member ProcessingStatus.Failed;
                 Member ProcessingStatus.Lost]
  | None => false
  end.

(** [Query.update(parameters)] on one row: the named columns are
    assigned, the others keep their value. *)
Definition assign (p : Parameters) (r : Processing) : Processing :=
  {| processing_id := processing_id r;
     transform_id := default (transform_id r) (p_transform_id p);
     status := default (status r) (status_of <$> p_status p);
     substatus := default (substatus r) (p_substatus p);
     locking := default (locking r) (p_locking p);
     submitter := default (submitter r) (p_submitter p);
     granularity := default (granularity r) (p_granularity p);
     granularity_type := default (granularity_type r) (p_granularity_type p);
     expired_at := default (expired_at r) (p_expired_at p);
     updated_at := default (updated_at r) (p_updated_at p);
     next_poll_at := default (next_poll_at r) (p_next_poll_at p);
     finished_at := default (finished_at r) (p_finished_at p);
     processing_metadata := default (processing_metadata r) (p_processing_metadata p);
     output_metadata := default (output_metadata r) (p_output_metadata p) |}.

(** The dictionary as [update_processing] passes it on to the query. *)
Definition stamped (now : Z) (parameters : Parameters) : Parameters :=
  let parameters := set_updated_at now parameters in
  if carries_terminal_status parameters then set_finished_at now parameters
  else parameters.

(** [update_processing]; updating matches zero or more rows and never
    raises [NoResultFound]. *)
Definition update_processing (now : Z) (processing_id0 : Z) (parameters : Parameters)
    (session : Table) : result Table :=
  except_NoResultFound
    (let parameters := stamped now parameters in
     Ok {| rows := List.map (fun r => if bool_decide (processing_id r = processing_id0)
                                      then assign parameters r else r)
                            (rows session);
           next_id := next_id session |}).

(** The ordering of [order_by(asc(models.Processing.processing_id))]. *)
Definition processing_id_asc (r1 r2 : Processing) : Prop :=
  processing_id r1 <= processing_id r2.

#[global] Instance processing_id_asc_dec : RelDecision processing_id_asc.
Proof. intros r1 r2. unfold processing_id_asc. apply _. Defined.

(** [get_processings_by_transform_id]; the argument defaults to [None],
    which equals no stored [transform_id]. *)
Definition get_processings_by_transform_id (transform_id0 : option Z) (to_json : bool)
    (session : Table) : result (list Rendered) :=
  except_NoResultFound
    (let query := List.filter (fun r => bool_decide (Some (transform_id r) = transform_id0))
                              (rows session) in
     let query := merge_sort processing_id_asc query in
     ret ← query_all query;
     match ret with
     | [] => Ok []
     | _ => Ok (List.map (render to_json) ret)
     end).

(** [delete_processing]: the rows with the key are removed; the sequence
    is not wound back. *)
Definition delete_processing (processing_id0 : option Z) (session : Table) : result Table :=
  except_NoResultFound
    (Ok {| rows := List.filter
                     (fun r => negb (bool_decide (Some (processing_id r) = processing_id0)))
                     (rows session);
           next_id := next_id session |}).

(** Modelled from the spec: the number 0 that [clean_locking] writes into
    [locking] is the value of [Idle] (the reaper "resets locking=Idle");
    the numeric values are in idds.common.constants, not among the
    sources. *)
Definition locking_of_0 : ProcessingLocking.t := ProcessingLocking.Idle.

(** [{'locking': l}] and [{'next_poll_at': t}]. *)
Definition locking_parameters (l : ProcessingLocking.t) : Parameters :=
  {| p_transform_id := None; p_status := None; p_substatus := None; p_locking := Some l;
     p_submitter := None; p_granularity := None; p_granularity_type := None;
     p_expired_at := None; p_updated_at := None; p_next_poll_at := None;
     p_finished_at := None; p_processing_metadata := None; p_output_metadata := None |}.

Definition next_poll_at_parameters (t : Z) : Parameters :=
  {| p_transform_id := None; p_status := None; p_substatus := None; p_locking := None;
     p_submitter := None; p_granularity := None; p_granularity_type := None;
     p_expired_at := None; p_updated_at := None; p_next_poll_at := Some t;
     p_finished_at := None; p_processing_metadata := None; p_output_metadata := None |}.

(** [clean_locking]; [time_period] defaults to 3600.  It has no [try]. *)
Definition clean_locking (now : Z) (time_period : Z) (session : Table) : result Table :=
  let params := locking_parameters locking_of_0 in
  Ok {| rows := List.map
                  (fun r => if bool_decide (locking r = ProcessingLocking.Locking)
                               && bool_decide (updated_at r < now - time_period)
                            then assign params r else r)
                  (rows session);
        next_id := next_id session |}.

(** [clean_next_poll_at]; a single status is passed as a one-element
    list. *)
Definition clean_next_poll_at (now : Z) (status0 : list ProcessingStatus.t)
    (session : Table) : result Table :=
  let status1 := match status0 with
                 | [s] => [s; s]
                 | _ => status0
                 end in
  let params := next_poll_at_parameters now in
  Ok {| rows := List.map
                  (fun r => if bool_decide (status r ∈ status1) then assign params r else r)
                  (rows session);
        next_id := next_id session |}.

End Processings.

(** ** idds.orm.transforms *)

Module Transforms.

(** Modelled from the spec: [models.Transform] (idds.orm.base.models is
    not among the sources), one field per column of the Transform entity
    of the data model. *)
Record Transform := {
  transform_id : Z;
  transform_type : TransformType.t;
  transform_tag : option string;
  priority : Z;
  status : TransformStatus.t;
  substatus : TransformStatus.t;
  locking : TransformLocking.t;
  retries : Z;
  expired_at : option Z;
  updated_at : Z;
  next_poll_at : Z;
  finished_at : option Z;
  transform_metadata : option string
}.

Inductive Rendered :=
  | to_dict (r : Transform)
  | to_dict_json (r : Transform).

Definition render (to_json : bool) (r : Transform) : Rendered :=
  if to_json then to_dict_json r else to_dict r.

(** [get_transform]: [None] (here [Ok None]) when [first()] finds no row. *)
Definition get_transform (transform_id0 : Z) (to_json : bool) (session : list Transform)
    : result (option Rendered) :=
  except_NoResultFound
    (let query := List.filter (fun r => bool_decide (transform_id r = transform_id0))
                              session in
     ret ← query_first query;
     match ret with
     | None => Ok None
     | Some r => Ok (Some (render to_json r))
     end).

(** The ordering of
    [order_by(asc(models.Transform.updated_at)).order_by(desc(models.Transform.priority))]:
    [ORDER BY updated_at ASC, priority DESC]. *)
Definition updated_at_asc_priority_desc (r1 r2 : Transform) : Prop :=
  updated_at r1 < updated_at r2
  \/ (updated_at r1 = updated_at r2 /\ priority r2 <= priority r1).

#[global] Instance updated_at_asc_priority_desc_dec :
  RelDecision updated_at_asc_priority_desc.
Proof. intros r1 r2. unfold updated_at_asc_priority_desc. apply _. Defined.

(** [get_transforms_by_status].  A single status is passed as a
    one-element list.  Rows tied on both sort keys come out in the order
    the merge sort leaves them (SQL leaves it open). *)
Definition get_transforms_by_status (now : Z) (status0 : list TransformStatus.t)
    (period : option Z) (locking0 : bool) (bulk_size : option nat)
    (to_json : bool) (session : list Transform) : result (list Rendered) :=
  except_NoResultFound
    (let status1 := match status0 with
                    | [s] => [s; s]
                    | _ => status0
                    end in
     let query := List.filter (fun r => bool_decide (status r ∈ status1)) session in
     let query := List.filter (fun r => bool_decide (next_poll_at r < now)) query in
     let query :=
       if truthy_Z period
       then List.filter (fun r => bool_decide (updated_at r < now - default 0 period)) query
       else query in
     let query :=
       if locking0
       then List.filter (fun r => bool_decide (locking r = TransformLocking.Idle)) query
       else query in
     let query := merge_sort updated_at_asc_priority_desc query in
     let query :=
       if truthy_nat bulk_size then take (default 0%nat bulk_size) query else query in
     tmp ← query_all query;
     Ok (List.map (render to_json) tmp)).

(** The rows a call selects, as a predicate: a period of 0, like no
    period, filters nothing. *)
Definition selected (now : Z) (status0 : list TransformStatus.t) (period : option Z)
    (locking0 : bool) (r : Transform) : Prop :=
  status r ∈ status0
  /\ next_poll_at r < now
  /\ (if locking0 then locking r = TransformLocking.Idle else True)
  /\ match period with
     | Some seconds => seconds = 0 \/ updated_at r < now - seconds
     | None => True
     end.

#[global] Instance selected_dec now status0 period locking0 r :
  Decision (selected now status0 period locking0 r).
Proof.
  unfold selected. destruct locking0, period; apply _.
Defined.

(** The value under ['status'] in the [parameters] of [update_transform]:
    the enum member [s] or its number [s.value].  A number that is the
    value of no member is not a status; distinct members have distinct
    values, so a number is given by the member it belongs to. *)
Inductive StatusArg :=
  | Member (s : TransformStatus.t)
  | Value (s : TransformStatus.t).

Definition status_of (a : StatusArg) : TransformStatus.t :=
  match a with
  | Member s => s
  | Value s => s
  end.

(** Python's [==] between an enum member and a number is false. *)
Definition StatusArg_eqb (a b : StatusArg) : bool :=
  match a, b with
  | Member s, Member t => bool_decide (s = t)
  | Value s, Value t => bool_decide (s = t)
  | _, _ => false
  end.

Record Parameters := {
  p_transform_type : option TransformType.t;
  p_transform_tag : option (option string);
  p_priority : option Z;
  p_status : option StatusArg;
  p_substatus : option TransformStatus.t;
  p_locking : option TransformLocking.t;
  p_retries : option Z;
  p_expired_at : option (option Z);
  p_updated_at : option Z;
  p_next_poll_at : option Z;
  p_finished_at : option (option Z);
  p_transform_metadata : option (option string)
}.

(** [{'status': a}]. *)
Definition status_parameters (a : StatusArg) : Parameters :=
  {| p_transform_type := None; p_transform_tag := None; p_priority := None;
     p_status := Some a; p_substatus := None; p_locking := None; p_retries := None;
     p_expired_at := None; p_updated_at := None; p_next_poll_at := None;
     p_finished_at := None; p_transform_metadata := None |}.

Definition set_updated_at (v : Z) (p : Parameters) : Parameters :=
  {| p_transform_type := p_transform_type p; p_transform_tag := p_transform_tag p;
     p_priority := p_priority p; p_status := p_status p; p_substatus := p_substatus p;
     p_locking := p_locking p; p_retries := p_retries p; p_expired_at := p_expired_at p;
     p_updated_at := Some v; p_next_poll_at := p_next_poll_at p;
     p_finished_at := p_finished_at p;
     p_transform_metadata := p_transform_metadata p |}.

Definition set_finished_at (v : Z) (p : Parameters) : Parameters :=
  {| p_transform_type := p_transform_type p; p_transform_tag := p_transform_tag p;
     p_priority := p_priority p; p_status := p_status p; p_substatus := p_substatus p;
     p_locking := p_locking p; p_retries := p_retries p; p_expired_at := p_expired_at p;
     p_updated_at := p_updated_at p; p_next_poll_at := p_next_poll_at p;
     p_finished_at := Some (Some v);
     p_transform_metadata := p_transform_metadata p |}.

(** ['status' in parameters and parameters['status'] in
    [Finished, Finished.value, Failed, Failed.value]]. *)
Definition carries_terminal_status (p : Parameters) : bool :=
  match p_status p with
  | Some a => existsb (StatusArg_eqb a)
                [Member TransformStatus.Finished; Value TransformStatus.Finished;
                 Member TransformStatus.Failed; Value TransformStatus.Failed]
  | None => false
  end.

Definition assign (p : Parameters) (r : Transform) : Transform :=
  {| transform_id := transform_id r;
     transform_type := default (transform_type r) (p_transform_type p);
     transform_tag := default (transform_tag r) (p_transform_tag p);
     priority := default (priority r) (p_priority p);
     status := default (status r) (status_of <$> p_status p);
     substatus := default (substatus r) (p_substatus p);
     locking := default (locking r) (p_locking p);
     retries := default (retries r) (p_retries p);
     expired_at := default (expired_at r) (p_expired_at p);
     updated_at := default (updated_at r) (p_updated_at p);
     next_poll_at := default (next_poll_at r) (p_next_poll_at p);
     finished_at := default (finished_at r) (p_finished_at p);
     transform_metadata := default (transform_metadata r) (p_transform_metadata p) |}.

Definition stamped (now : Z) (parameters : Parameters) : Parameters :=
  let parameters := set_updated_at now parameters in
  if carries_terminal_status parameters then set_finished_at now parameters
  else parameters.

(** [update_transform]. *)
Definition update_transform (now : Z) (transform_id0 : Z) (parameters : Parameters)
    (session : list Transform) : result (list Transform) :=
  except_NoResultFound
    (let parameters := stamped now parameters in
     Ok (List.map (fun r => if bool_decide (transform_id r = transform_id0)
                            then assign parameters r else r)
                  session)).

(** Modelled from the spec: the junction rows [models.Req2transform] and
    [models.Workprogress2transform] and the columns of [models.Request]
    the queries read (idds.orm.base.models is not among the sources). *)
Record Req2transform := {
  r2t_request_id : Z;
  r2t_transform_id : Z
}.

Record Workprogress2transform := {
  wp2t_workprogress_id : Z;
  wp2t_transform_id : Z
}.

Record Request := {
  request_id : Z;
  workload_id : option Z
}.

#[global] Instance Req2transform_eq_dec : EqDecision Req2transform.
Proof. solve_decision. Defined.
#[global] Instance Workprogress2transform_eq_dec : EqDecision Workprogress2transform.
Proof. solve_decision. Defined.

(** The tables the functions of this module read and write, with the
    primary-key sequence of the transforms. *)
Record Session := {
  transforms : list Transform;
  transform_id_seq : Z;
  req2transforms : list Req2transform;
  wp2transforms : list Workprogress2transform;
  requests : list Request
}.

Definition empty : Session :=
  {| transforms := []; transform_id_seq := 1; req2transforms := [];
     wp2transforms := []; requests := [] |}.

(** Every transform key in the session, stored or referred to by a
    junction row, was drawn from the sequence. *)
Definition session_wf (session : Session) : Prop :=
  Forall (fun r => transform_id r < transform_id_seq session) (transforms session)
  /\ Forall (fun l => r2t_transform_id l < transform_id_seq session)
            (req2transforms session)
  /\ Forall (fun l => wp2t_transform_id l < transform_id_seq session)
            (wp2transforms session).

(** [create_transform]: the values the row object is built from; key,
    [substatus] and timestamps are not among them. *)
Record NewTransform := {
  n_transform_type : TransformType.t;
  n_transform_tag : option string;
  n_priority : Z;
  n_status : TransformStatus.t;
  n_locking : TransformLocking.t;
  n_retries : Z;
  n_expired_at : option Z;
  n_transform_metadata : option string
}.

Definition create_transform (transform_type0 : TransformType.t)
    (transform_tag0 : option string) (priority0 : Z) (status0 : TransformStatus.t)
    (locking0 : TransformLocking.t) (retries0 : Z) (expired_at0 : option Z)
    (transform_metadata0 : option string) : NewTransform :=
  {| n_transform_type := transform_type0; n_transform_tag := transform_tag0;
     n_priority := priority0; n_status := status0; n_locking := locking0;
     n_retries := retries0; n_expired_at := expired_at0;
     n_transform_metadata := transform_metadata0 |}.

(** Modelled from the spec: [new_transform.save(session=session)].  The
    row receives the next key of the sequence and the column defaults:
    [updated_at] and [next_poll_at] are the time of the insert,
    [finished_at] is NULL, and [substatus], which [create_transform] does
    not set, is the default [substatus_default] the models declare.  A key
    that is already stored violates the primary key. *)
Definition save_transform (substatus_default : TransformStatus.t) (now : Z)
    (n : NewTransform) (session : Session) : result (Transform * Session) :=
  let id := transform_id_seq session in
  if bool_decide (id ∈ transform_id <$> transforms session) then Raise IntegrityError
  else
    let row :=
      {| transform_id := id;
         transform_type := n_transform_type n; transform_tag := n_transform_tag n;
         priority := n_priority n; status := n_status n;
         substatus := substatus_default; locking := n_locking n;
         retries := n_retries n; expired_at := n_expired_at n;
         updated_at := now; next_poll_at := now; finished_at := None;
         transform_metadata := n_transform_metadata n |} in
    Ok (row, {| transforms := transforms session ++ [row];
                transform_id_seq := id + 1;
                req2transforms := req2transforms session;
                wp2transforms := wp2transforms session;
                requests := requests session |}).

(** [save] of a junction row to a request.  The constraints of the table
    are declared by the models, which are not among the sources, so they
    are a parameter: [accepts row rows] tells whether the table holding
    [rows] admits [row]; an insert it does not admit raises
    [IntegrityError]. *)
Definition save_req2transform (accepts : Req2transform -> list Req2transform -> bool)
    (row : Req2transform) (session : Session) : result Session :=
  if accepts row (req2transforms session)
  then Ok {| transforms := transforms session;
             transform_id_seq := transform_id_seq session;
             req2transforms := req2transforms session ++ [row];
             wp2transforms := wp2transforms session;
             requests := requests session |}
  else Raise IntegrityError.

(** [save] of a junction row to a workprogress: a row that is stored
    already is not stored twice.  [add_transform] links a transform under
    the key it has just drawn, for which no row is stored. *)
Definition save_wp2transform (row : Workprogress2transform) (session : Session)
    : result Session :=
  if bool_decide (row ∈ wp2transforms session) then Raise IntegrityError
  else Ok {| transforms := transforms session;
             transform_id_seq := transform_id_seq session;
             req2transforms := req2transforms session;
             wp2transforms := wp2transforms session ++ [row];
             requests := requests session |}.

(** [add_transform]; a failed call leaves the session as it was (the
    transaction is rolled back). *)
Definition add_transform (substatus_default : TransformStatus.t) (now : Z)
    (transform_type0 : TransformType.t) (transform_tag0 : option string) (priority0 : Z)
    (status0 : TransformStatus.t) (locking0 : TransformLocking.t) (retries0 : Z)
    (expired_at0 : option Z) (transform_metadata0 : option string)
    (workprogress_id : option Z) (session : Session) : result (Z * Session) :=
  except_IntegrityError
    (let new_transform :=
       create_transform transform_type0 transform_tag0 priority0 status0 locking0
         retries0 expired_at0 transform_metadata0 in
     '(saved, session) ← save_transform substatus_default now new_transform session;
     let transform_id1 := transform_id saved in
     session ←
       (if truthy_Z workprogress_id
        then save_wp2transform
               {| wp2t_workprogress_id := default 0 workprogress_id;
                  wp2t_transform_id := transform_id1 |} session
        else Ok session);
     Ok (transform_id1, session)).

(** [add_req2transform] and [add_wp2transform]. *)
Definition add_req2transform (accepts : Req2transform -> list Req2transform -> bool)
    (request_id0 transform_id0 : Z) (session : Session) : result Session :=
  except_IntegrityError
    (save_req2transform accepts {| r2t_request_id := request_id0;
                                   r2t_transform_id := transform_id0 |} session).

Definition add_wp2transform (workprogress_id0 transform_id0 : Z) (session : Session)
    : result Session :=
  except_IntegrityError
    (save_wp2transform {| wp2t_workprogress_id := workprogress_id0;
                          wp2t_transform_id := transform_id0 |} session).

(** The query over [Req2transform.transform_id] that [get_transform_ids]
    and [get_transforms] build: joined with the requests of the workload
    when a workload is given, then filtered by request and by transform.
    The join yields a junction row once per request row it matches. *)
Definition linked (request_id0 workload_id0 transform_id0 : option Z) (session : Session)
    : list Req2transform :=
  let query :=
    if truthy_Z workload_id0
    then flat_map
           (fun l => List.map (fun _ => l)
                       (List.filter
                          (fun q => bool_decide (r2t_request_id l = request_id q)
                                    && bool_decide (workload_id q = workload_id0))
                          (requests session)))
           (req2transforms session)
    else req2transforms session in
  let query :=
    if truthy_Z request_id0
    then List.filter (fun l => bool_decide (Some (r2t_request_id l) = request_id0)) query
    else query in
  if truthy_Z transform_id0
  then List.filter (fun l => bool_decide (Some (r2t_transform_id l) = transform_id0)) query
  else query.

(** [get_transform_ids]; its argument [workprogress_id] is not used.  The
    query has no [ORDER BY]: the ids come here in the order of the stored
    rows, which the code does not promise. *)
Definition get_transform_ids (workprogress_id request_id0 workload_id0 transform_id0 : option Z)
    (session : Session) : result (list Z) :=
  except_NoResultFound
    (tmp ← query_all (linked request_id0 workload_id0 transform_id0 session);
     Ok (List.map r2t_transform_id tmp)).

(** [get_transforms]: the transforms joined with that query, a transform
    once per junction row that names it; this query has no [ORDER BY]
    either. *)
Definition get_transforms (request_id0 workload_id0 transform_id0 : option Z)
    (to_json : bool) (session : Session) : result (list Rendered) :=
  except_NoResultFound
    (let subquery := linked request_id0 workload_id0 transform_id0 session in
     let query :=
       flat_map
         (fun t => List.map (fun _ => t)
                     (List.filter (fun l => bool_decide (r2t_transform_id l = transform_id t))
                                  subquery))
         (transforms session) in
     tmp ← query_all query;
     Ok (List.map (render to_json) tmp)).

(** [delete_transform]: the junction rows to requests go first, then the
    transform. *)
Definition delete_transform (transform_id0 : option Z) (session : Session) : result Session :=
  except_NoResultFound
    (Ok {| transforms :=
             List.filter (fun r => negb (bool_decide (Some (transform_id r) = transform_id0)))
                         (transforms session);
           transform_id_seq := transform_id_seq session;
           req2transforms :=
             List.filter
               (fun l => negb (bool_decide (Some (r2t_transform_id l) = transform_id0)))
               (req2transforms session);
           wp2transforms := wp2transforms session;
           requests := requests session |}).

(** Modelled from the spec: the number 0 that [clean_locking] writes into
    [locking] is the value of [Idle]. *)
Definition locking_of_0 : TransformLocking.t := TransformLocking.Idle.

(** [{'locking': l}] and [{'next_poll_at': t}]. *)
Definition locking_parameters (l : TransformLocking.t) : Parameters :=
  {| p_transform_type := None; p_transform_tag := None; p_priority := None;
     p_status := None; p_substatus := None; p_locking := Some l; p_retries := None;
     p_expired_at := None; p_updated_at := None; p_next_poll_at := None;
     p_finished_at := None; p_transform_metadata := None |}.

Definition next_poll_at_parameters (t : Z) : Parameters :=
  {| p_transform_type := None; p_transform_tag := None; p_priority := None;
     p_status := None; p_substatus := None; p_locking := None; p_retries := None;
     p_expired_at := None; p_updated_at := None; p_next_poll_at := Some t;
     p_finished_at := None; p_transform_metadata := None |}.

(** [clean_locking]; [time_period] defaults to 3600. *)
Definition clean_locking (now : Z) (time_period : Z) (session : list Transform)
    : result (list Transform) :=
  let params := locking_parameters locking_of_0 in
  Ok (List.map
        (fun r => if bool_decide (locking r = TransformLocking.Locking)
                     && bool_decide (updated_at r < now - time_period)
                  then assign params r else r)
        session).

(** [clean_next_poll_at]. *)
Definition clean_next_poll_at (now : Z) (status0 : list TransformStatus.t)
    (session : list Transform) : result (list Transform) :=
  let status1 := match status0 with
                 | [s] => [s; s]
                 | _ => status0
                 end in
  let params := next_poll_at_parameters now in
  Ok (List.map
        (fun r => if bool_decide (status r ∈ status1) then assign params r else r)
        session).

End Transforms.

(** ** idds.atlas.workflow.atlasstageinwork *)

Module StageIn.

(** *** Python values the work handles *)

(** A subscript: an integer or a string. *)
Inductive PyKey :=
  | IntKey (i : Z)
  | StrKey (s : string).

(** [l[i]] on a list, for [i >= 0]. *)
Definition list_getitem {A} (l : list A) (i : nat) : result A :=
  match l !! i with
  | Some a => Ok a
  | None => Raise IndexError
  end.

(** [d[k]] on a dict with string keys. *)
Definition dict_getitem {A} (d : gmap string A) (k : string) : result A :=
  match d !! k with
  | Some a => Ok a
  | None => Raise KeyError
  end.

(** [d[k]] on a dict with integer keys, kept in insertion order: no
    integer key equals a string. *)
Definition int_dict_getitem {A} (d : list (Z * A)) (k : PyKey) : result A :=
  match k with
  | IntKey i =>
      match List.find (fun e => bool_decide (e.1 = i)) d with
      | Some e => Ok e.2
      | None => Raise KeyError
      end
  | StrKey _ => Raise KeyError
  end.

(** [s[k]] on a [str]: string indices must be integers. *)
Definition str_getitem (s : string) (k : PyKey) : result string :=
  match k with
  | IntKey i =>
      let len := Z.of_nat (String.length s) in
      let pos := if bool_decide (0 <= i) then i else len + i in
      match (if bool_decide (0 <= pos) then String.get (Z.to_nat pos) s else None) with
      | Some c => Ok (String c EmptyString)
      | None => Raise IndexError
      end
  | StrKey _ => Raise TypeError
  end.

(** A value stored in the replica-status dict: a [ContentStatus] member,
    or a dict from strings to members. *)
Inductive PyValue :=
  | PyStatus (s : ContentStatus.t)
  | PyDict (d : gmap string ContentStatus.t).

(** [v[k]]: an enum member is not subscriptable. *)
Definition value_getitem (v : PyValue) (k : string) : result ContentStatus.t :=
  match v with
  | PyStatus _ => Raise TypeError
  | PyDict d => dict_getitem d k
  end.

(** *** Contents, collections, maps *)

Record ContentMetadata := {
  events : option Z;
  primary : option bool     (* [None]: no 'primary' key *)
}.

(** A content dict.  [content_id], [status] and [substatus] are absent
    ([None]) on the dicts [get_input_contents] builds and present on
    registered contents. *)
Record Content := {
  coll_id : Z;
  scope : string;
  name : string;
  bytes : Z;
  adler32 : string;
  min_id : Z;
  max_id : option Z;
  content_type : ContentType.t;
  content_metadata : ContentMetadata;
  content_id : option Z;
  status : option ContentStatus.t;
  substatus : option ContentStatus.t
}.

Definition set_coll_id (v : Z) (c : Content) : Content :=
  {| coll_id := v; scope := scope c; name := name c; bytes := bytes c;
     adler32 := adler32 c; min_id := min_id c; max_id := max_id c;
     content_type := content_type c; content_metadata := content_metadata c;
     content_id := content_id c; status := status c; substatus := substatus c |}.

Definition set_substatus (v : ContentStatus.t) (c : Content) : Content :=
  {| coll_id := coll_id c; scope := scope c; name := name c; bytes := bytes c;
     adler32 := adler32 c; min_id := min_id c; max_id := max_id c;
     content_type := content_type c; content_metadata := content_metadata c;
     content_id := content_id c; status := status c; substatus := Some v |}.

(** [d[k]] for a key that may be absent from a content dict. *)
Definition content_getitem {A} (field : option A) : result A :=
  match field with
  | Some a => Ok a
  | None => Raise KeyError
  end.

(** [ip['scope'] + ":" + ip['name']], also ['%s:%s' % (scope, name)]. *)
Definition scope_name (sc nm : string) : string := sc +:+ ":" +:+ nm.

Record IOMap := {
  inputs : list Content;
  outputs : list Content
}.

(** The input/output map table: map_id -> {inputs, outputs}. *)
Definition MapTable : Type := list (Z * IOMap).

Record Collection := {
  coll_scope : string;
  coll_name : string;
  coll_coll_id : Z;
  coll_status : CollectionStatus.t
}.

(** *** The work *)

Record ProcessingMetadata := {
  internal_id : string;
  pm_src_rse : option string;
  pm_dest_rse : option string;
  pm_life_time : Z;
  pm_rule_id : option (option string)  (* [None]: no 'rule_id' key;
                                          [Some None]: the key holds [None] *)
}.

Record Processing := {
  processing_metadata : ProcessingMetadata;
  processing_id : option Z             (* [None]: no 'processing_id' key *)
}.

Record Work := {
  collections : gmap string Collection;
  primary_input_collection : string;   (* the collection's internal id *)
  other_input_collections : list string;
  output_collections : list string;
  max_waiting_time : Z;
  src_rse : option string;
  dest_rse : option string;
  life_time : Z;
  lifetime : option Z;                 (* the attribute [self.lifetime] that
                                          [create_rule] reads; [__init__] sets
                                          [life_time] only, [None]: not set *)
  rule_id : option string;
  processings : gmap string Processing;
  active_processings : list string;
  new_inputs_flag : bool;
  work_status : WorkStatus.t;
  status_statistics : gmap string Z
}.

Definition with_processings (ps : gmap string Processing) (act : list string)
    (w : Work) : Work :=
  {| collections := collections w;
     primary_input_collection := primary_input_collection w;
     other_input_collections := other_input_collections w;
     output_collections := output_collections w;
     max_waiting_time := max_waiting_time w;
     src_rse := src_rse w; dest_rse := dest_rse w; life_time := life_time w;
     lifetime := lifetime w; rule_id := rule_id w;
     processings := ps; active_processings := act;
     new_inputs_flag := new_inputs_flag w; work_status := work_status w;
     status_statistics := status_statistics w |}.

(** Modelled from the spec: [Work.set_has_new_inputs] and
    [Work.has_new_inputs] of the base class (idds.workflow.work is not
    among the sources): the flag the mapping step clears. *)
Definition set_has_new_inputs (b : bool) (w : Work) : Work :=
  {| collections := collections w;
     primary_input_collection := primary_input_collection w;
     other_input_collections := other_input_collections w;
     output_collections := output_collections w;
     max_waiting_time := max_waiting_time w;
     src_rse := src_rse w; dest_rse := dest_rse w; life_time := life_time w;
     lifetime := lifetime w; rule_id := rule_id w;
     processings := processings w; active_processings := active_processings w;
     new_inputs_flag := b; work_status := work_status w;
     status_statistics := status_statistics w |}.

Definition has_new_inputs (w : Work) : bool := new_inputs_flag w.

Definition set_status (s : WorkStatus.t) (w : Work) : Work :=
  {| collections := collections w;
     primary_input_collection := primary_input_collection w;
     other_input_collections := other_input_collections w;
     output_collections := output_collections w;
     max_waiting_time := max_waiting_time w;
     src_rse := src_rse w; dest_rse := dest_rse w; life_time := life_time w;
     lifetime := lifetime w; rule_id := rule_id w;
     processings := processings w; active_processings := active_processings w;
     new_inputs_flag := new_inputs_flag w; work_status := s;
     status_statistics := status_statistics w |}.

Definition set_status_statistics (st : gmap string Z) (w : Work) : Work :=
  {| collections := collections w;
     primary_input_collection := primary_input_collection w;
     other_input_collections := other_input_collections w;
     output_collections := output_collections w;
     max_waiting_time := max_waiting_time w;
     src_rse := src_rse w; dest_rse := dest_rse w; life_time := life_time w;
     lifetime := lifetime w; rule_id := rule_id w;
     processings := processings w; active_processings := active_processings w;
     new_inputs_flag := new_inputs_flag w; work_status := work_status w;
     status_statistics := st |}.

(** [ATLASStageinWork.__init__] for a work whose collections the base
    class has registered.  It assigns [life_time] and no [lifetime]:
    [base_lifetime] is that attribute when the base class provides one,
    and [None] for the work as this constructor leaves it. *)
Definition init (colls : gmap string Collection) (primary : string)
    (others outs : list string) (max_waiting_time0 : Z)
    (src dest : option string) (rule : option string) (base_lifetime : option Z)
    : Work :=
  {| collections := colls; primary_input_collection := primary;
     other_input_collections := others; output_collections := outs;
     max_waiting_time := max_waiting_time0;
     src_rse := src; dest_rse := dest; life_time := max_waiting_time0;
     lifetime := base_lifetime; rule_id := rule;
     processings := ∅; active_processings := [];
     new_inputs_flag := true; work_status := WorkStatus.New;
     status_statistics := ∅ |}.

(** *** The Rucio client

    What the replication service answers is given by the client record;
    each request the work sends is appended to a log. *)

Record RucioFile := {
  file_scope : string;
  file_name : string;
  file_bytes : Z;
  file_adler32 : string;
  file_events : option Z
}.

Record AddRuleRequest := {
  dids : list (string * string);
  copies : Z;
  rse_expression : option string;
  source_replica_expression : option string;
  req_lifetime : Z;
  locked : bool;
  grouping : string;
  ask_approval : bool
}.

(** [add_replication_rule] returns a rule id or a list of rule ids. *)
Inductive RuleIds :=
  | OneRuleId (id : string)
  | RuleIdList (ids : list string).

Record DidRule := {
  rule_id_ : string;                   (* rule['id'] *)
  rule_account : string;
  rule_rse_expression : string
}.

Record ReplicationRule := {
  rule_state : string;
  locks_ok_cnt : Z
}.

Record ReplicaLock := {
  lock_scope : string;
  lock_name : string;
  lock_state : string
}.

Record RucioClient := {
  account : string;
  list_files : string -> string -> result (list RucioFile);
  add_replication_rule : AddRuleRequest -> result RuleIds;
  list_did_rules : string -> string -> result (list DidRule);
  get_replication_rule : option string -> result ReplicationRule;
  list_replica_locks : option string -> result (list ReplicaLock)
}.

Inductive Call :=
  | ListFiles (sc nm : string)
  | AddReplicationRule (req : AddRuleRequest)
  | ListDidRules (sc nm : string)
  | GetReplicationRule (id : option string)
  | ListReplicaLocks (id : option string).

(** A method of the work: it may raise, and it extends the log of
    requests sent to Rucio. *)
Definition M (A : Type) : Type := list Call -> result A * list Call.

#[global] Instance M_ret : MRet M := fun _ a log => (Ok a, log).
#[global] Instance M_bind : MBind M := fun _ _ k m log =>
  match m log with
  | (Ok a, log') => k a log'
  | (Raise e, log') => (Raise e, log')
  end.

Definition lift {A} (r : result A) : M A := fun log => (r, log).

Definition request {A} (c : Call) (answer : result A) : M A :=
  fun log => (answer, log ++ [c]).

(** [try: body except Exception as ex: handler(ex)]. *)
Definition try_except {A} (body : M A) (handler : exn -> M A) : M A :=
  fun log =>
    match body log with
    | (Ok a, log') => (Ok a, log')
    | (Raise e, log') => handler e log'
    end.

(** [get_rucio_client]; [None] is a service that refuses the
    credentials: [RucioClient()] raises [CannotAuthenticate], which is
    re-raised as [IDDSException]. *)
Definition get_rucio_client (rucio : option RucioClient) : M RucioClient :=
  try_except
    (lift (match rucio with
           | Some client => Ok client
           | None => Raise RucioCannotAuthenticate
           end))
    (fun error => match error with
                  | RucioCannotAuthenticate => lift (Raise IDDSException)
                  | other => lift (Raise other)
                  end).

(** [get_input_contents]: every failure is re-raised as [IDDSException]. *)
Definition get_input_contents (self : Work) (rucio : option RucioClient)
    : M (list Content) :=
  try_except
    (rucio_client ← get_rucio_client rucio;
     coll ← lift (dict_getitem (collections self) (primary_input_collection self));
     files ← request (ListFiles (coll_scope coll) (coll_name coll))
                     (list_files rucio_client (coll_scope coll) (coll_name coll));
     mret (List.map
             (fun file =>
                {| coll_id := coll_coll_id coll;
                   scope := file_scope file;
                   name := file_name file;
                   bytes := file_bytes file;
                   adler32 := file_adler32 file;
                   min_id := 0;
                   max_id := file_events file;
                   content_type := ContentType.File;
                   content_metadata := {| events := file_events file; primary := None |};
                   content_id := None; status := None; substatus := None |})
             files))
    (fun ex => lift (Raise IDDSException)).

(** The inner loop of [get_mapped_inputs]: the last input flagged
    ['primary'] replaces the first input. *)
Definition primary_of (first : Content) (inputs0 : list Content) : Content :=
  foldl (fun primary_input ip =>
           match primary (content_metadata ip) with
           | Some true => ip
           | _ => primary_input
           end)
        first inputs0.

Fixpoint get_mapped_inputs (mapped_input_output_maps : MapTable) : result (list Content) :=
  match mapped_input_output_maps with
  | [] => Ok []
  | (map_id, m) :: rest =>
      primary_input ← list_getitem (inputs m) 0;
      let primary_input := primary_of primary_input (inputs m) in
      ret ← get_mapped_inputs rest;
      Ok (primary_input :: ret)
  end.

(** The loop that fills [new_input_output_maps], from [next_key] on. *)
Fixpoint new_maps (self : Work) (next_key : Z) (new_inputs : list Content)
    : result MapTable :=
  match new_inputs with
  | [] => Ok []
  | ip :: rest =>
      out_coll_id ← list_getitem (output_collections self) 0;
      out_coll ← dict_getitem (collections self) out_coll_id;
      let out_ip := set_coll_id (coll_coll_id out_coll) ip in
      more ← new_maps self (next_key + 1) rest;
      Ok ((next_key, {| inputs := [ip]; outputs := [out_ip] |}) :: more)
  end.

(** [max(mapped_keys) + 1], or 1 for an empty table. *)
Definition next_map_key (mapped_input_output_maps : MapTable) : Z :=
  match mapped_input_output_maps.*1 with
  | [] => 1
  | k :: ks => foldl Z.max k ks + 1
  end.

(** [get_new_input_output_maps]: the work (its flag may be cleared) and
    the new maps. *)
Definition get_new_input_output_maps (self : Work) (rucio : option RucioClient)
    (mapped_input_output_maps : MapTable) : M (Work * MapTable) :=
  inputs0 ← get_input_contents self rucio;
  mapped_inputs ← lift (get_mapped_inputs mapped_input_output_maps);
  let mapped_inputs_scope_name :=
    List.map (fun ip => scope_name (scope ip) (name ip)) mapped_inputs in
  let new_inputs :=
    List.filter (fun ip => negb (bool_decide (scope_name (scope ip) (name ip)
                                                ∈ mapped_inputs_scope_name)))
                inputs0 in
  let otherwise : M (Work * MapTable) :=
    new_input_output_maps ←
      lift (new_maps self (next_map_key mapped_input_output_maps) new_inputs);
    mret (self, new_input_output_maps) in
  match new_inputs with
  | [] =>
      coll ← lift (dict_getitem (collections self) (primary_input_collection self));
      if bool_decide (coll_status coll ∈ [CollectionStatus.Closed])
      then mret (set_has_new_inputs false self, [])
      else otherwise
  | _ => otherwise
  end.

(** *** Processings and the replication rule *)

(** Modelled from the spec: [Work.add_processing_to_processings] of the
    base class (idds.workflow.work is not among the sources): the
    processing is stored under its [internal_id], the key by which
    [self.processings] is read. *)
Definition add_processing_to_processings (proc : Processing) (self : Work) : Work :=
  with_processings
    (<[internal_id (processing_metadata proc) := proc]> (processings self))
    (active_processings self) self.

(** [create_processing]; [uuid1] is the string [str(uuid.uuid1())]
    yields. *)
Definition create_processing (self : Work) (uuid1 : string)
    (input_output_maps : MapTable) : Work :=
  let proc :=
    {| processing_metadata :=
         {| internal_id := uuid1;
            pm_src_rse := src_rse self;
            pm_dest_rse := dest_rse self;
            pm_life_time := life_time self;
            pm_rule_id := Some (rule_id self) |};
       processing_id := None |} in
  let self := add_processing_to_processings proc self in
  with_processings (processings self)
    (active_processings self ++ [internal_id (processing_metadata proc)]) self.

(** The [for rule in rules] loop of [create_rule]: the id of the first
    rule of the client's account on the destination. *)
Definition first_own_rule (rucio_client : RucioClient) (self : Work)
    (rules : list DidRule) : option string :=
  rule_id_ <$>
    List.find (fun rule => bool_decide (rule_account rule = account rucio_client)
                           && bool_decide (Some (rule_rse_expression rule) = dest_rse self))
              rules.

(** The arguments of [add_replication_rule] in [create_rule]. *)
Definition request_of (self : Work) (ds_did : string * string) (lifetime0 : Z)
    : AddRuleRequest :=
  {| dids := [ds_did];
     copies := 1;
     rse_expression := dest_rse self;
     source_replica_expression := src_rse self;
     req_lifetime := lifetime0;
     locked := false;
     grouping := "DATASET";
     ask_approval := false |}.

(** [create_rule].  The handler of [DuplicateRule] subscripts
    [self.primary_input_collection], the internal id, where the [try]
    body subscripts [self.collections[self.primary_input_collection]];
    what it raises leaves [create_rule], as the other handler belongs to
    the same [try]. *)
Definition create_rule (self : Work) (rucio : option RucioClient) : M (option string) :=
  try_except
    (rucio_client ← get_rucio_client rucio;
     coll ← lift (dict_getitem (collections self) (primary_input_collection self));
     let ds_did := (coll_scope coll, coll_name coll) in
     lifetime0 ← lift (match lifetime self with
                       | Some v => Ok v
                       | None => Raise AttributeError
                       end);
     let req := request_of self ds_did lifetime0 in
     rule_id0 ← request (AddReplicationRule req) (add_replication_rule rucio_client req);
     rule_id0 ← lift (match rule_id0 with
                      | RuleIdList ids => list_getitem ids 0
                      | OneRuleId id => Ok id
                      end);
     mret (Some rule_id0))
    (fun ex =>
       match ex with
       | RucioDuplicateRule =>
           rucio_client ← lift (match rucio with
                                | Some client => Ok client
                                | None => Raise UnboundLocalError
                                end);
           sc ← lift (str_getitem (primary_input_collection self) (StrKey "scope"));
           nm ← lift (str_getitem (primary_input_collection self) (StrKey "name"));
           rules ← request (ListDidRules sc nm) (list_did_rules rucio_client sc nm);
           mret (first_own_rule rucio_client self rules)
       | _ => mret None
       end).

Definition set_rule_id (v : option string) (p : Processing) : Processing :=
  {| processing_metadata :=
       {| internal_id := internal_id (processing_metadata p);
          pm_src_rse := pm_src_rse (processing_metadata p);
          pm_dest_rse := pm_dest_rse (processing_metadata p);
          pm_life_time := pm_life_time (processing_metadata p);
          pm_rule_id := Some v |};
     processing_id := processing_id p |}.

(** [submit_processing]: the test is on the presence of the key
    ['rule_id'], not on its value. *)
Definition submit_processing (self : Work) (rucio : option RucioClient) : M Work :=
  match active_processings self with
  | [] => mret self
  | active :: _ =>
      p ← lift (dict_getitem (processings self) active);
      match pm_rule_id (processing_metadata p) with
      | Some _ => mret self
      | None =>
          rule_id0 ← create_rule self rucio;
          mret (with_processings (<[active := set_rule_id rule_id0 p]> (processings self))
                                 (active_processings self) self)
      end
  end.

(** The [for lock in locks] loop of [poll_rule]. *)
Definition replicas_status (locks : list ReplicaLock) : gmap string PyValue :=
  foldl (fun replicases_status lock =>
           let key := scope_name (lock_scope lock) (lock_name lock) in
           if bool_decide (lock_state lock = "OK"%string)
           then <[key := PyStatus ContentStatus.Available]> replicases_status
           else replicases_status)
        ∅ locks.

(** [poll_rule] (and [poll_processing], which calls it). *)
Definition poll_rule (self : Work) (rucio : option RucioClient)
    : M (Processing * string * gmap string PyValue) :=
  try_except
    (active ← lift (list_getitem (active_processings self) 0);
     p ← lift (dict_getitem (processings self) active);
     rule_id0 ← lift (content_getitem (pm_rule_id (processing_metadata p)));
     rucio_client ← get_rucio_client rucio;
     rule ← request (GetReplicationRule rule_id0)
                    (get_replication_rule rucio_client rule_id0);
     replicases_status ←
       (if bool_decide (locks_ok_cnt rule > 0)
        then locks ← request (ListReplicaLocks rule_id0)
                             (list_replica_locks rucio_client rule_id0);
             mret (replicas_status locks)
        else mret ∅);
     mret (p, rule_state rule, replicases_status))
    (fun ex =>
       match ex with
       | RucioRuleNotFound => lift (Raise ProcessNotFound)
       | other => lift (Raise other)
       end).

Definition poll_processing := poll_rule.

(** An entry of [updated_contents]. *)
Record UpdatedContent := {
  uc_content_id : Z;
  uc_substatus : ContentStatus.t
}.

(** A non-empty [update_processing]:
    [{'processing_id': .., 'parameters': {'status': ..}}]. *)
Record UpdateProcessing := {
  up_processing_id : Z;
  up_status : ProcessingStatus.t
}.

(** The counters [content_substatus] and the list [updated_contents]. *)
Record PollState := {
  updated_contents : list UpdatedContent;
  finished : Z;
  unfinished : Z
}.

(** The body of [for content in outputs]: the content as the loop leaves
    it (its substatus is assigned in place) and the new counters. *)
Definition poll_content (rep_status : gmap string PyValue) (content : Content)
    (st : PollState) : result (Content * PollState) :=
  let key := scope_name (scope content) (name content) in
  '(content, updated) ←
    match rep_status !! key with
    | Some v =>
        current ← content_getitem (substatus content);
        reported ← value_getitem v "substatus";
        if bool_decide (current ≠ reported)
        then
          cid ← content_getitem (content_id content);
          Ok (set_substatus reported content,
              updated_contents st ++ [{| uc_content_id := cid; uc_substatus := reported |}])
        else Ok (content, updated_contents st)
    | None => Ok (content, updated_contents st)
    end;
  current ← content_getitem (substatus content);
  if bool_decide (current = ContentStatus.Available)
  then Ok (content, {| updated_contents := updated;
                       finished := finished st + 1; unfinished := unfinished st |})
  else Ok (content, {| updated_contents := updated;
                       finished := finished st; unfinished := unfinished st + 1 |}).

Fixpoint poll_outputs (rep_status : gmap string PyValue) (outputs0 : list Content)
    (st : PollState) : result (list Content * PollState) :=
  match outputs0 with
  | [] => Ok ([], st)
  | content :: rest =>
      '(content, st) ← poll_content rep_status content st;
      '(rest, st) ← poll_outputs rep_status rest st;
      Ok (content :: rest, st)
  end.

Fixpoint poll_maps (rep_status : gmap string PyValue) (input_output_maps : MapTable)
    (st : PollState) : result (MapTable * PollState) :=
  match input_output_maps with
  | [] => Ok ([], st)
  | (map_id, m) :: rest =>
      '(outs, st) ← poll_outputs rep_status (outputs m) st;
      '(rest, st) ← poll_maps rep_status rest st;
      Ok ((map_id, {| inputs := inputs m; outputs := outs |}) :: rest, st)
  end.

(** [poll_processing_updates]: [(update_processing, updated_contents)]
    and the map table with the substatus assignments made on the way
    ([None] stands for the empty [update_processing]). *)
Definition poll_processing_updates (self : Work) (rucio : option RucioClient)
    (input_output_maps : MapTable)
    : M (option UpdateProcessing * list UpdatedContent * MapTable) :=
  '(processing, rule_state0, rep_status) ← poll_processing self rucio;
  '(maps, st) ← lift (poll_maps rep_status input_output_maps
                        {| updated_contents := []; finished := 0; unfinished := 0 |});
  if bool_decide (rule_state0 = "OK"%string)
     && bool_decide (finished st > 0) && bool_decide (unfinished st = 0)
  then
    pid ← lift (content_getitem (processing_id processing));
    mret (Some {| up_processing_id := pid; up_status := ProcessingStatus.Finished |},
          updated_contents st, maps)
  else mret (None, updated_contents st, maps).

(** *** Rollup of the work status *)

(** The body of [for content in outputs] in [get_status_statistics]. *)
Fixpoint count_statuses (outputs0 : list Content) (status_statistics0 : gmap string Z)
    : result (gmap string Z) :=
  match outputs0 with
  | [] => Ok status_statistics0
  | content :: rest =>
      st ← content_getitem (status content);
      let key := ContentStatus.name st in
      let status_statistics0 :=
        match status_statistics0 !! key with
        | Some _ => status_statistics0
        | None => <[key := 0]> status_statistics0
        end in
      count_statuses rest (<[key := default 0 (status_statistics0 !! key) + 1]>
                             status_statistics0)
  end.

(** The loop of [get_status_statistics] over the keys [map_ids] still to
    visit: each round subscripts the table with the string ['map_id'],
    not with the loop variable. *)
Fixpoint status_statistics_loop (registered_input_output_maps : MapTable)
    (map_ids : list Z) (status_statistics0 : gmap string Z) : result (gmap string Z) :=
  match map_ids with
  | [] => Ok status_statistics0
  | map_id :: rest =>
      m ← int_dict_getitem registered_input_output_maps (StrKey "map_id");
      status_statistics0 ← count_statuses (outputs m) status_statistics0;
      status_statistics_loop registered_input_output_maps rest status_statistics0
  end.

Definition get_status_statistics (self : Work) (registered_input_output_maps : MapTable)
    : result (Work * gmap string Z) :=
  status_statistics0 ←
    status_statistics_loop registered_input_output_maps
      (registered_input_output_maps.*1) ∅;
  Ok (set_status_statistics status_statistics0 self, status_statistics0).

(** [syn_work_status]. *)
Definition syn_work_status (self : Work) (registered_input_output_maps : MapTable)
    : result Work :=
  '(self, _) ← get_status_statistics self registered_input_output_maps;
  match active_processings self with
  | [] =>
      if negb (has_new_inputs self)
      then
        let keys := dom (status_statistics self) in
        if bool_decide (ContentStatus.name ContentStatus.New ∈ keys)
           || bool_decide (ContentStatus.name ContentStatus.Processing ∈ keys)
        then Ok self
        else if bool_decide (size keys = 1%nat)
             then if bool_decide (ContentStatus.name ContentStatus.Available ∈ keys)
                  then Ok (set_status WorkStatus.Finished self)
                  else Ok (set_status WorkStatus.Failed self)
             else Ok (set_status WorkStatus.SubFinished self)
      else Ok self
  | _ => Ok self
  end.

(** The counters [content_substatus] of [poll_processing_updates] after
    outputs that are only counted: [finished] grows by the outputs whose
    substatus is Available, [unfinished] by the others. *)
Definition counted (outs : list Content) (st : PollState) : PollState :=
  {| updated_contents := updated_contents st;
     finished :=
       finished st
       + Z.of_nat (length (filter (fun c => substatus c = Some ContentStatus.Available) outs));
     unfinished :=
       unfinished st
       + Z.of_nat (length (filter (fun c => substatus c <> Some ContentStatus.Available)
                                  outs)) |}.

(** [get_processing]: the first active processing, or [None]. *)
Definition get_processing (self : Work) (input_output_maps : MapTable)
    : result (option Processing) :=
  match active_processings self with
  | [] => Ok None
  | active :: _ =>
      p ← dict_getitem (processings self) active;
      Ok (Some p)
  end.

End StageIn.

(** ** Concrete tables and scenarios *)

Module Scenario.

(** A processing that is due at time 10. *)
Definition due_processing : Processings.Processing :=
  {| Processings.processing_id := 1;
     Processings.transform_id := 7;
     Processings.status := ProcessingStatus.New;
     Processings.substatus := ProcessingStatus.New;
     Processings.locking := ProcessingLocking.Idle;
     Processings.submitter := None;
     Processings.granularity := None;
     Processings.granularity_type := GranularityType.File;
     Processings.expired_at := None;
     Processings.updated_at := 5;
     Processings.next_poll_at := 5;
     Processings.finished_at := None;
     Processings.processing_metadata := None;
     Processings.output_metadata := None |}.

Definition one_processing : Processings.Table :=
  {| Processings.rows := [due_processing]; Processings.next_id := 2 |}.

(** A transform in progress. *)
Definition transforming : Transforms.Transform :=
  {| Transforms.transform_id := 3;
     Transforms.transform_type := TransformType.StageIn;
     Transforms.transform_tag := None;
     Transforms.priority := 0;
     Transforms.status := TransformStatus.Transforming;
     Transforms.substatus := TransformStatus.Transforming;
     Transforms.locking := TransformLocking.Idle;
     Transforms.retries := 0;
     Transforms.expired_at := None;
     Transforms.updated_at := 5;
     Transforms.next_poll_at := 5;
     Transforms.finished_at := None;
     Transforms.transform_metadata := None |}.

(** The stage-in of scenario S1: dataset [u:ds1] with three files, from
    [SRC] to [DST]. *)
Definition ds1 : StageIn.Collection :=
  {| StageIn.coll_scope := "u"; StageIn.coll_name := "ds1";
     StageIn.coll_coll_id := 1; StageIn.coll_status := CollectionStatus.Open |}.

Definition ds1_closed : StageIn.Collection :=
  {| StageIn.coll_scope := "u"; StageIn.coll_name := "ds1";
     StageIn.coll_coll_id := 1; StageIn.coll_status := CollectionStatus.Closed |}.

Definition ds1_out : StageIn.Collection :=
  {| StageIn.coll_scope := "u"; StageIn.coll_name := "ds1.out";
     StageIn.coll_coll_id := 2; StageIn.coll_status := CollectionStatus.Open |}.

(** The work as [__init__] leaves it: [life_time] is set, the attribute
    [lifetime] is not. *)
Definition work_on (primary : StageIn.Collection) (rule : option string) : StageIn.Work :=
  StageIn.init {[ "c-in"%string := primary; "c-out"%string := ds1_out ]}
    "c-in" [] ["c-out"%string] 604800 (Some "SRC"%string) (Some "DST"%string)
    rule None.

Definition work : StageIn.Work := work_on ds1 None.

Definition file (nm : string) : StageIn.RucioFile :=
  {| StageIn.file_scope := "u"; StageIn.file_name := nm; StageIn.file_bytes := 1024;
     StageIn.file_adler32 := "0a1b2c3d"; StageIn.file_events := Some 10 |}.

Definition lock (nm : string) : StageIn.ReplicaLock :=
  {| StageIn.lock_scope := "u"; StageIn.lock_name := nm; StageIn.lock_state := "OK" |}.

(** A service that lists [files], answers [add_replication_rule] with
    [add_rule] and [list_did_rules] with [rules]; the rule it is polled
    for is in state [OK] with the three locks [OK]. *)
Definition rucio_with (files : list StageIn.RucioFile)
    (add_rule : result StageIn.RuleIds) (rules : list StageIn.DidRule)
    : StageIn.RucioClient :=
  {| StageIn.account := "carrier";
     StageIn.list_files := fun _ _ => Ok files;
     StageIn.add_replication_rule := fun _ => add_rule;
     StageIn.list_did_rules := fun _ _ => Ok rules;
     StageIn.get_replication_rule :=
       fun _ => Ok {| StageIn.rule_state := "OK"; StageIn.locks_ok_cnt := 3 |};
     StageIn.list_replica_locks := fun _ => Ok [lock "f1"; lock "f2"; lock "f3"] |}.

(** The service of S1: the rule is created as [R]. *)
Definition rucio : StageIn.RucioClient :=
  rucio_with [file "f1"; file "f2"; file "f3"] (Ok (StageIn.OneRuleId "R")) [].

(** Scenario S2: the rule exists already, as [R0] of the same account
    on [DST]. *)
Definition rucio_duplicate : StageIn.RucioClient :=
  rucio_with [file "f1"; file "f2"; file "f3"] (Raise RucioDuplicateRule)
    [{| StageIn.rule_id_ := "R0"; StageIn.rule_account := "carrier";
        StageIn.rule_rse_expression := "DST" |}].

(** The same work with an attribute [lifetime] of 604800 s, which
    [__init__] does not give it, and the request [create_rule] sends for
    it. *)
Definition work_with_lifetime : StageIn.Work :=
  StageIn.init {[ "c-in"%string := ds1; "c-out"%string := ds1_out ]}
    "c-in" [] ["c-out"%string] 604800 (Some "SRC"%string) (Some "DST"%string)
    None (Some 604800).

Definition rule_request : StageIn.AddRuleRequest :=
  {| StageIn.dids := [("u", "ds1")]%string; StageIn.copies := 1;
     StageIn.rse_expression := Some "DST"%string;
     StageIn.source_replica_expression := Some "SRC"%string;
     StageIn.req_lifetime := 604800; StageIn.locked := false;
     StageIn.grouping := "DATASET"; StageIn.ask_approval := false |}.

(** A registered content of collection [coll] for file [nm]. *)
Definition content (coll id : Z) (nm : string) (st : ContentStatus.t) : StageIn.Content :=
  {| StageIn.coll_id := coll; StageIn.scope := "u"; StageIn.name := nm;
     StageIn.bytes := 1024; StageIn.adler32 := "0a1b2c3d";
     StageIn.min_id := 0; StageIn.max_id := Some 10;
     StageIn.content_type := ContentType.File;
     StageIn.content_metadata := {| StageIn.events := Some 10; StageIn.primary := None |};
     StageIn.content_id := Some id; StageIn.status := Some st;
     StageIn.substatus := Some st |}.

Definition map_of (id : Z) (nm : string) (st : ContentStatus.t) : Z * StageIn.IOMap :=
  (id, {| StageIn.inputs := [content 1 id nm st];
          StageIn.outputs := [content 2 (id + 10) nm st] |}).

(** The registered maps of S1 with every output in status [st]. *)
Definition maps (st : ContentStatus.t) : StageIn.MapTable :=
  [map_of 1 "f1" st; map_of 2 "f2" st; map_of 3 "f3" st].

(** A discovered file as [get_input_contents] renders it. *)
Definition discovered (nm : string) : StageIn.Content :=
  {| StageIn.coll_id := 1; StageIn.scope := "u"; StageIn.name := nm;
     StageIn.bytes := 1024; StageIn.adler32 := "0a1b2c3d";
     StageIn.min_id := 0; StageIn.max_id := Some 10;
     StageIn.content_type := ContentType.File;
     StageIn.content_metadata := {| StageIn.events := Some 10; StageIn.primary := None |};
     StageIn.content_id := None; StageIn.status := None; StageIn.substatus := None |}.

(** The output content of a new map for the discovered file [nm]: the
    same file in the output collection [u:ds1.out], whose [coll_id] is
    2. *)
Definition staged (nm : string) : StageIn.Content :=
  {| StageIn.coll_id := 2; StageIn.scope := "u"; StageIn.name := nm;
     StageIn.bytes := 1024; StageIn.adler32 := "0a1b2c3d";
     StageIn.min_id := 0; StageIn.max_id := Some 10;
     StageIn.content_type := ContentType.File;
     StageIn.content_metadata := {| StageIn.events := Some 10; StageIn.primary := None |};
     StageIn.content_id := None; StageIn.status := None; StageIn.substatus := None |}.

(** A processing whose metadata has no ['rule_id'] key, and the work of S1
    with it as its active processing. *)
Definition unsubmitted : StageIn.Processing :=
  {| StageIn.processing_metadata :=
       {| StageIn.internal_id := "p-0"; StageIn.pm_src_rse := Some "SRC"%string;
          StageIn.pm_dest_rse := Some "DST"%string; StageIn.pm_life_time := 604800;
          StageIn.pm_rule_id := None |};
     StageIn.processing_id := Some 9 |}.

Definition work_unsubmitted : StageIn.Work :=
  StageIn.with_processings {[ "p-0"%string := unsubmitted ]} ["p-0"%string] work.

(** The same processing once the rule [R] is recorded. *)
Definition work_submitted : StageIn.Work :=
  StageIn.with_processings
    {[ "p-0"%string := StageIn.set_rule_id (Some "R"%string) unsubmitted ]}
    ["p-0"%string] work.

(** A service whose rule [R] is still replicating, with no lock [OK]. *)
Definition rucio_replicating : StageIn.RucioClient :=
  {| StageIn.account := "carrier";
     StageIn.list_files := fun _ _ => Ok [file "f1"; file "f2"; file "f3"];
     StageIn.add_replication_rule := fun _ => Ok (StageIn.OneRuleId "R");
     StageIn.list_did_rules := fun _ _ => Ok [];
     StageIn.get_replication_rule :=
       fun _ => Ok {| StageIn.rule_state := "REPLICATING"; StageIn.locks_ok_cnt := 0 |};
     StageIn.list_replica_locks := fun _ => Ok [] |}.

End Scenario.

(** * Properties of the repositories *)

Section processings_facts.
Import Processings.

Lemma filter_bool_decide {A} (P : A -> Prop) `{!forall x, Decision (P x)} (l : list A) :
  List.filter (fun x => bool_decide (P x)) l = filter P l.
Proof.
  induction l as [|x l IH]; [done|].
  cbn [List.filter]. rewrite filter_cons, IH.
  case_bool_decide; by case_decide.
Qed.

Lemma filter_none {A} (P : A -> Prop) `{!forall x, Decision (P x)} (l : list A) :
  Forall (fun x => ~ P x) l -> filter P l = [].
Proof.
  induction 1 as [|x l Hx _ IH]; [done|].
  by rewrite filter_cons_False.
Qed.

Lemma get_processing_first (id : Z) (to_json : bool) (session : Table) :
  get_processing id to_json session
  = Ok (render to_json <$> head (filter (fun r => processing_id r = id) (rows session))).
Proof.
  unfold get_processing. rewrite filter_bool_decide. cbn.
  by destruct (head _).
Qed.

(** Whatever the table holds, [get_processing] returns: a row, or [None]
    when the key is not stored. *)
Lemma get_processing_no_row (id : Z) (to_json : bool) (session : Table) :
  id ∉ processing_id <$> rows session ->
  get_processing id to_json session = Ok None.
Proof.
  intros Hid. rewrite get_processing_first.
  rewrite filter_none; [done|].
  apply Forall_forall. intros r Hr Heq.
  apply Hid, list_elem_of_fmap. eauto.
Qed.

Lemma save_fresh (now : Z) (p : Processing) (session : Table) :
  table_wf session ->
  exists row, save now p session
              = Ok (row, {| rows := rows session ++ [row]; next_id := next_id session + 1 |})
              /\ processing_id row = next_id session.
Proof.
  intros Hwf. unfold save. rewrite bool_decide_eq_false_2; [eauto|].
  intros (r & Hr & Hin)%list_elem_of_fmap.
  unfold table_wf in Hwf. rewrite Forall_forall in Hwf.
  specialize (Hwf r Hin). lia.
Qed.

Lemma save_wf (now : Z) (p row : Processing) (session session' : Table) :
  table_wf session -> save now p session = Ok (row, session') -> table_wf session'.
Proof.
  intros Hwf Hsave. destruct (save_fresh now p session Hwf) as (row' & Heq & Hid).
  rewrite Heq in Hsave. injection Hsave as <- <-.
  unfold table_wf in *. cbn. apply Forall_app. split.
  - eapply Forall_impl; [exact Hwf|]. cbn. intros; lia.
  - constructor; [lia | constructor].
Qed.

(** C9.  Round trip: on a table whose keys were drawn from its sequence,
    [add_processing] returns an id, and [get_processing] on that id
    yields the row that was added: [transform_id], [status], [locking],
    [submitter], [granularity], [granularity_type], [expired_at],
    [processing_metadata] and [output_metadata] are the arguments of
    [add_processing], [substatus] is the [ProcessingStatus.New] that
    [create_processing] gave the record; only the key and the
    timestamps are the table's. *)
Theorem add_processing_get_processing (now transform_id0 : Z)
    (status0 : ProcessingStatus.t) (locking0 : ProcessingLocking.t)
    (submitter0 : option string) (granularity0 : option Z)
    (granularity_type0 : GranularityType.t) (expired_at0 : option Z)
    (processing_metadata0 output_metadata0 : option string) (session : Table) :
  table_wf session ->
  exists (id : Z) (session' : Table) (r : Processing),
    add_processing now transform_id0 status0 locking0 submitter0 granularity0
      granularity_type0 expired_at0 processing_metadata0 output_metadata0 session
    = Ok (id, session')
    /\ get_processing id false session' = Ok (Some (to_dict r))
    /\ processing_id r = id
    /\ transform_id r = transform_id0
    /\ status r = status0
    /\ substatus r = ProcessingStatus.New
    /\ locking r = locking0
    /\ submitter r = submitter0
    /\ granularity r = granularity0
    /\ granularity_type r = granularity_type0
    /\ expired_at r = expired_at0
    /\ processing_metadata r = processing_metadata0
    /\ output_metadata r = output_metadata0.
Proof.
  intros Hwf. unfold add_processing.
  set (p := create_processing _ _ _ _ _ _ _ _ _ _).
  destruct (save_fresh now p session Hwf) as (row & Hsave & Hid).
  pose proof Hsave as Hrow. unfold save in Hrow.
  destruct (bool_decide _); [discriminate|]. injection Hrow as Hrow.
  exists (next_id session), {| rows := rows session ++ [row]; next_id := next_id session + 1 |}, row.
  split; [by rewrite Hsave; cbn; rewrite Hid|].
  split.
  - rewrite get_processing_first. cbn [rows].
    rewrite filter_app, filter_none.
    + by rewrite filter_cons_True.
    + eapply Forall_impl; [exact Hwf|]. cbn. intros; lia.
  - subst row. cbn. by repeat split.
Qed.

Lemma add_processing_get_processing_witness :
  exists (id : Z) (session' : Table) (r : Processing),
    add_processing 100 7 ProcessingStatus.Submitting ProcessingLocking.Idle
      (Some "carrier"%string) (Some 1) GranularityType.File (Some 500)
      (Some "{}"%string) None empty
    = Ok (id, session')
    /\ get_processing id false session' = Ok (Some (to_dict r))
    /\ processing_id r = id
    /\ transform_id r = 7
    /\ status r = ProcessingStatus.Submitting
    /\ substatus r = ProcessingStatus.New
    /\ locking r = ProcessingLocking.Idle
    /\ submitter r = Some "carrier"%string
    /\ granularity r = Some 1
    /\ granularity_type r = GranularityType.File
    /\ expired_at r = Some 500
    /\ processing_metadata r = Some "{}"%string
    /\ output_metadata r = None.
Proof.
  apply (add_processing_get_processing 100 7 ProcessingStatus.Submitting
           ProcessingLocking.Idle (Some "carrier"%string) (Some 1) GranularityType.File
           (Some 500) (Some "{}"%string) None empty).
  unfold table_wf. simpl. constructor.
Defined.

End processings_facts.

Section lookup_facts.

Lemma get_transform_first (id : Z) (to_json : bool) (session : list Transforms.Transform) :
  Transforms.get_transform id to_json session
  = Ok (Transforms.render to_json
          <$> head (filter (fun r => Transforms.transform_id r = id) session)).
Proof.
  unfold Transforms.get_transform. rewrite filter_bool_decide. cbn.
  by destruct (head _).
Qed.

Lemma get_transform_no_row (id : Z) (to_json : bool) (session : list Transforms.Transform) :
  id ∉ Transforms.transform_id <$> session ->
  Transforms.get_transform id to_json session = Ok None.
Proof.
  intros Hid. rewrite get_transform_first.
  rewrite filter_none; [done|].
  apply Forall_forall. intros r Hr Heq.
  apply Hid, list_elem_of_fmap. eauto.
Qed.

(** C8.  [get_processing] and [get_transform] never raise: on every
    table they return a value, and when no row has the id that value is
    [None], not the [NoObject] their docstrings announce. *)
Theorem get_without_row_returns_None :
  (forall (id : Z) (to_json : bool) (session : Processings.Table),
     exists o,
       Processings.get_processing id to_json session = Ok o
       /\ (id ∉ Processings.processing_id <$> Processings.rows session -> o = None))
  /\ (forall (id : Z) (to_json : bool) (session : list Transforms.Transform),
        exists o,
          Transforms.get_transform id to_json session = Ok o
          /\ (id ∉ Transforms.transform_id <$> session -> o = None)).
Proof.
  split.
  - intros id to_json session. rewrite get_processing_first.
    eexists. split; [reflexivity|]. intros Hid.
    pose proof (get_processing_no_row id to_json session Hid) as Hnone.
    rewrite get_processing_first in Hnone. by injection Hnone.
  - intros id to_json session. rewrite get_transform_first.
    eexists. split; [reflexivity|]. intros Hid.
    pose proof (get_transform_no_row id to_json session Hid) as Hnone.
    rewrite get_transform_first in Hnone. by injection Hnone.
Qed.

(** On the empty tables every lookup is [None]. *)
Example get_on_empty_tables :
  Processings.get_processing 1 false Processings.empty = Ok None
  /\ Transforms.get_transform 1 false [] = Ok None.
Proof. done. Qed.

End lookup_facts.

Section update_facts.

(** The membership test of [update_processing], on the caller's
    dictionary: only a status given as a member passes it. *)
Lemma processing_carries_terminal_status (now : Z) (p : Processings.Parameters) :
  Processings.carries_terminal_status (Processings.set_updated_at now p)
  = bool_decide (Processings.p_status p
                 ∈ [Some (Processings.Member ProcessingStatus.Finished);
                    Some (Processings.Member ProcessingStatus.Failed);
                    Some (Processings.Member ProcessingStatus.Lost)]).
Proof.
  unfold Processings.carries_terminal_status. cbn.
  destruct (Processings.p_status p) as [[[]|[]]|]; by vm_compute.
Qed.

(** The membership test of [update_transform]: a member and its value
    are treated alike. *)
Lemma transform_carries_terminal_status (now : Z) (p : Transforms.Parameters) :
  Transforms.carries_terminal_status (Transforms.set_updated_at now p)
  = bool_decide (Transforms.status_of <$> Transforms.p_status p
                 ∈ [Some TransformStatus.Finished; Some TransformStatus.Failed]).
Proof.
  unfold Transforms.carries_terminal_status. cbn.
  destruct (Transforms.p_status p) as [[[]|[]]|]; by vm_compute.
Qed.

(** What the two updates assign.  [update_processing] and
    [update_transform] succeed on every table and touch only the rows
    with the given id.  On such a row [updated_at] becomes [now],
    whatever the parameters say; [finished_at] becomes [now] exactly
    when the parameters carry a status that passes the membership test
    of the function: the member Finished, Failed or Lost (processing),
    respectively Finished or Failed given as member or as value
    (transform); it is otherwise assigned only if the parameters name
    it.  Every other column takes the value the parameters name for it
    and keeps its own when they name none. *)
Lemma update_stamps_and_keeps :
  (forall (now id : Z) (p : Processings.Parameters) (session : Processings.Table),
    exists session',
      Processings.update_processing now id p session = Ok session'
      /\ Processings.next_id session' = Processings.next_id session
      /\ forall (i : nat) (r : Processings.Processing),
           Processings.rows session !! i = Some r ->
           exists r',
             Processings.rows session' !! i = Some r'
             /\ Processings.processing_id r' = Processings.processing_id r
             /\ (Processings.processing_id r <> id -> r' = r)
             /\ (Processings.processing_id r = id ->
                 Processings.updated_at r' = now
                 /\ Processings.finished_at r'
                    = (if decide (Processings.p_status p
                                  ∈ [Some (Processings.Member ProcessingStatus.Finished);
                                     Some (Processings.Member ProcessingStatus.Failed);
                                     Some (Processings.Member ProcessingStatus.Lost)])
                       then Some now
                       else default (Processings.finished_at r) (Processings.p_finished_at p))
                 /\ Processings.transform_id r'
                    = default (Processings.transform_id r) (Processings.p_transform_id p)
                 /\ Processings.status r'
                    = default (Processings.status r)
                              (Processings.status_of <$> Processings.p_status p)
                 /\ Processings.substatus r'
                    = default (Processings.substatus r) (Processings.p_substatus p)
                 /\ Processings.locking r'
                    = default (Processings.locking r) (Processings.p_locking p)
                 /\ Processings.submitter r'
                    = default (Processings.submitter r) (Processings.p_submitter p)
                 /\ Processings.granularity r'
                    = default (Processings.granularity r) (Processings.p_granularity p)
                 /\ Processings.granularity_type r'
                    = default (Processings.granularity_type r)
                              (Processings.p_granularity_type p)
                 /\ Processings.expired_at r'
                    = default (Processings.expired_at r) (Processings.p_expired_at p)
                 /\ Processings.next_poll_at r'
                    = default (Processings.next_poll_at r) (Processings.p_next_poll_at p)
                 /\ Processings.processing_metadata r'
                    = default (Processings.processing_metadata r)
                              (Processings.p_processing_metadata p)
                 /\ Processings.output_metadata r'
                    = default (Processings.output_metadata r)
                              (Processings.p_output_metadata p)))
  /\ (forall (now id : Z) (p : Transforms.Parameters)
             (session : list Transforms.Transform),
       exists session',
         Transforms.update_transform now id p session = Ok session'
         /\ forall (i : nat) (r : Transforms.Transform),
              session !! i = Some r ->
              exists r',
                session' !! i = Some r'
                /\ Transforms.transform_id r' = Transforms.transform_id r
                /\ (Transforms.transform_id r <> id -> r' = r)
                /\ (Transforms.transform_id r = id ->
                    Transforms.updated_at r' = now
                    /\ Transforms.finished_at r'
                       = (if decide (Transforms.status_of <$> Transforms.p_status p
                                     ∈ [Some TransformStatus.Finished;
                                        Some TransformStatus.Failed])
                          then Some now
                          else default (Transforms.finished_at r) (Transforms.p_finished_at p))
                    /\ Transforms.transform_type r'
                       = default (Transforms.transform_type r) (Transforms.p_transform_type p)
                    /\ Transforms.transform_tag r'
                       = default (Transforms.transform_tag r) (Transforms.p_transform_tag p)
                    /\ Transforms.priority r'
                       = default (Transforms.priority r) (Transforms.p_priority p)
                    /\ Transforms.status r'
                       = default (Transforms.status r)
                                 (Transforms.status_of <$> Transforms.p_status p)
                    /\ Transforms.substatus r'
                       = default (Transforms.substatus r) (Transforms.p_substatus p)
                    /\ Transforms.locking r'
                       = default (Transforms.locking r) (Transforms.p_locking p)
                    /\ Transforms.retries r'
                       = default (Transforms.retries r) (Transforms.p_retries p)
                    /\ Transforms.expired_at r'
                       = default (Transforms.expired_at r) (Transforms.p_expired_at p)
                    /\ Transforms.next_poll_at r'
                       = default (Transforms.next_poll_at r) (Transforms.p_next_poll_at p)
                    /\ Transforms.transform_metadata r'
                       = default (Transforms.transform_metadata r)
                                 (Transforms.p_transform_metadata p))).
Proof.
  split.
  - intros now id p session.
    eexists. split; [reflexivity|]. split; [reflexivity|].
    intros i r Hr. cbn [Processings.rows].
    eexists. split; [by rewrite list_lookup_fmap, Hr|].
    case_bool_decide as Hid.
    + split; [done|]. split; [done|]. intros _.
      unfold Processings.stamped. rewrite processing_carries_terminal_status.
      destruct (decide _) as [Hin|Hin].
      * rewrite bool_decide_eq_true_2 by done. cbn. by repeat split.
      * rewrite bool_decide_eq_false_2 by done. cbn. by repeat split.
    + split; [done|]. split; [done|]. intros ?. done.
  - intros now id p session.
    eexists. split; [reflexivity|].
    intros i r Hr.
    eexists. split; [by rewrite list_lookup_fmap, Hr|].
    case_bool_decide as Hid.
    + split; [done|]. split; [done|]. intros _.
      unfold Transforms.stamped. rewrite transform_carries_terminal_status.
      destruct (decide _) as [Hin|Hin].
      * rewrite bool_decide_eq_true_2 by done. cbn. by repeat split.
      * rewrite bool_decide_eq_false_2 by done. cbn. by repeat split.
    + split; [done|]. split; [done|]. intros ?. done.
Qed.

(** C10.  A status given to [update_processing] by its number
    ([ProcessingStatus.Finished.value] and the like) is stored, and
    [updated_at] becomes [now], but [finished_at] keeps its value, also
    for Finished, Failed and Lost: the membership test lists the members
    only.  Given as a member, the same status stamps [finished_at] when
    it is Finished, Failed or Lost; [update_transform] lists members and
    values, and stamps for Finished and Failed however they are given.
    So the due processing of the scenario, reported Finished by value at
    time 20, is Finished without [finished_at]. *)
Theorem update_processing_status_by_value :
  (forall (now id : Z) (s : ProcessingStatus.t) (session : Processings.Table),
    exists session',
      Processings.update_processing now id
        (Processings.status_parameters (Processings.Value s)) session = Ok session'
      /\ forall (i : nat) (r : Processings.Processing),
           Processings.rows session !! i = Some r ->
           Processings.processing_id r = id ->
           exists r',
             Processings.rows session' !! i = Some r'
             /\ Processings.status r' = s
             /\ Processings.updated_at r' = now
             /\ Processings.finished_at r' = Processings.finished_at r)
  /\ (forall (now id : Z) (s : ProcessingStatus.t) (session : Processings.Table),
       exists session',
         Processings.update_processing now id
           (Processings.status_parameters (Processings.Member s)) session = Ok session'
         /\ forall (i : nat) (r : Processings.Processing),
              Processings.rows session !! i = Some r ->
              Processings.processing_id r = id ->
              exists r',
                Processings.rows session' !! i = Some r'
                /\ Processings.status r' = s
                /\ Processings.updated_at r' = now
                /\ Processings.finished_at r'
                   = (if bool_decide (s ∈ [ProcessingStatus.Finished;
                                           ProcessingStatus.Failed;
                                           ProcessingStatus.Lost])
                      then Some now else Processings.finished_at r))
  /\ (forall (now id : Z) (a : Transforms.StatusArg) (session : list Transforms.Transform),
       exists session',
         Transforms.update_transform now id (Transforms.status_parameters a) session
         = Ok session'
         /\ forall (i : nat) (r : Transforms.Transform),
              session !! i = Some r ->
              Transforms.transform_id r = id ->
              exists r',
                session' !! i = Some r'
                /\ Transforms.status r' = Transforms.status_of a
                /\ Transforms.updated_at r' = now
                /\ Transforms.finished_at r'
                   = (if bool_decide (Transforms.status_of a
                                      ∈ [TransformStatus.Finished; TransformStatus.Failed])
                      then Some now else Transforms.finished_at r))
  /\ (exists r,
        Processings.finished_at <$> Processings.rows Scenario.one_processing = [None]
        /\ Processings.update_processing 20 1
             (Processings.status_parameters (Processings.Value ProcessingStatus.Finished))
             Scenario.one_processing
           = Ok {| Processings.rows := [r]; Processings.next_id := 2 |}
        /\ Processings.status r = ProcessingStatus.Finished
        /\ Processings.updated_at r = 20
        /\ Processings.finished_at r = None).
Proof.
  split_and!.
  - intros now id s session. eexists. split; [reflexivity|].
    intros i r Hr Hid. cbn [Processings.rows].
    eexists. split; [by rewrite list_lookup_fmap, Hr|].
    rewrite bool_decide_eq_true_2 by done. by destruct s.
  - intros now id s session. eexists. split; [reflexivity|].
    intros i r Hr Hid. cbn [Processings.rows].
    eexists. split; [by rewrite list_lookup_fmap, Hr|].
    rewrite bool_decide_eq_true_2 by done. by destruct s.
  - intros now id a session. eexists. split; [reflexivity|].
    intros i r Hr Hid.
    eexists. split; [by rewrite list_lookup_fmap, Hr|].
    rewrite bool_decide_eq_true_2 by done. by destruct a as [[]|[]].
  - eexists. by vm_compute.
Qed.

(** A Transform moved to SubFinished, Lost or Cancelled is not stamped. *)
Example update_transform_not_stamped (s : TransformStatus.t) :
  s ∈ [TransformStatus.SubFinished; TransformStatus.Lost; TransformStatus.Cancelled] ->
  Transforms.carries_terminal_status
    (Transforms.set_updated_at 10 (Transforms.status_parameters (Transforms.Member s)))
  = false.
Proof.
  rewrite !elem_of_cons, elem_of_nil. intros [->|[->|[->|[]]]]; by vm_compute.
Qed.

(** The due processing, reported Finished at time 20; then a transform
    row reported SubFinished. *)
Example update_processing_finished :
  exists r,
    Processings.update_processing 20 1
      (Processings.status_parameters (Processings.Member ProcessingStatus.Finished))
      Scenario.one_processing
    = Ok {| Processings.rows := [r]; Processings.next_id := 2 |}
    /\ Processings.status r = ProcessingStatus.Finished
    /\ Processings.updated_at r = 20
    /\ Processings.finished_at r = Some 20
    /\ Processings.next_poll_at r = 5.
Proof. eexists. by vm_compute. Qed.

Example update_transform_subfinished :
  exists r,
    Transforms.update_transform 20 3
      (Transforms.status_parameters (Transforms.Member TransformStatus.SubFinished))
      [Scenario.transforming]
    = Ok [r]
    /\ Transforms.status r = TransformStatus.SubFinished
    /\ Transforms.updated_at r = 20
    /\ Transforms.finished_at r = None.
Proof. eexists. by vm_compute. Qed.

End update_facts.

Section due_work_facts.

(** Doubling a one-element status list changes no membership. *)
Lemma elem_of_doubled_singleton {A} (l : list A) (x : A) :
  x ∈ match l with
      | [s] => [s; s]
      | _ => l
      end
  <-> x ∈ l.
Proof.
  destruct l as [|s [|]]; [done| |done].
  rewrite !elem_of_cons, elem_of_nil. tauto.
Qed.

Lemma truthy_Z_Some (z : Z) : truthy_Z (Some z) = bool_decide (z <> 0).
Proof.
  cbn. destruct (Z.eqb_spec z 0); symmetry;
    [by apply bool_decide_eq_false_2; intros [] | by apply bool_decide_eq_true_2].
Qed.

Lemma truthy_nat_Some (n : nat) : truthy_nat (Some n) = bool_decide (n <> 0%nat).
Proof. by destruct n. Qed.

Lemma truthy_string_Some (s : string) :
  truthy_string (Some s) = bool_decide (s <> EmptyString).
Proof.
  cbn. case_bool_decide; symmetry;
    [by apply bool_decide_eq_false_2; intros [] | by apply bool_decide_eq_true_2].
Qed.

#[local] Instance updated_at_asc_total : Total Processings.updated_at_asc.
Proof. intros r1 r2. unfold Processings.updated_at_asc. lia. Qed.

#[local] Instance updated_at_asc_trans : Transitive Processings.updated_at_asc.
Proof. intros r1 r2 r3. unfold Processings.updated_at_asc. lia. Qed.

#[local] Instance updated_at_asc_priority_desc_total :
  Total Transforms.updated_at_asc_priority_desc.
Proof. intros r1 r2. unfold Transforms.updated_at_asc_priority_desc. lia. Qed.

#[local] Instance updated_at_asc_priority_desc_trans :
  Transitive Transforms.updated_at_asc_priority_desc.
Proof. intros r1 r2 r3. unfold Transforms.updated_at_asc_priority_desc. lia. Qed.

(** [query.limit(bulk_size)] under [if bulk_size:]. *)
Lemma limit_cut {A} (sorted : list A) (bulk_size : option nat) :
  exists rest,
    (if truthy_nat bulk_size then take (default 0%nat bulk_size) sorted else sorted)
    ++ rest = sorted
    /\ (bulk_size = None \/ bulk_size = Some 0%nat -> rest = [])
    /\ (forall n, bulk_size = Some n -> n <> 0%nat ->
        length (if truthy_nat bulk_size
                then take (default 0%nat bulk_size) sorted else sorted)
        = (n `min` length sorted)%nat).
Proof.
  destruct bulk_size as [[|n]|].
  - exists []. cbn. rewrite app_nil_r. split; [done|]. split; [done|].
    by intros ? [= <-] ?.
  - exists (drop (S n) sorted). cbn [truthy_nat Nat.eqb negb default].
    rewrite take_drop. split; [done|]. split.
    + by intros [|].
    + intros ? [= <-] _. apply length_take.
  - exists []. cbn. rewrite app_nil_r. split; [done|]. split; [done|].
    by intros ? [=].
Qed.

(** The filters of [get_processings_by_status], before the ordering. *)
Lemma processings_query (now : Z) (status0 : list ProcessingStatus.t)
    (period : option Z) (locking0 : bool) (submitter0 : option string)
    (rows0 : list Processings.Processing) :
  (let status1 := match status0 with
                  | [s] => [s; s]
                  | _ => status0
                  end in
   let query := List.filter (fun r => bool_decide (Processings.status r ∈ status1)) rows0 in
   let query := List.filter (fun r => bool_decide (Processings.next_poll_at r < now)) query in
   let query :=
     if truthy_Z period
     then List.filter (fun r => bool_decide (Processings.updated_at r
                                             < now - default 0 period)) query
     else query in
   let query :=
     if locking0
     then List.filter (fun r => bool_decide (Processings.locking r
                                             = ProcessingLocking.Idle)) query
     else query in
   if truthy_string submitter0
   then List.filter (fun r => bool_decide (Processings.submitter r = submitter0)) query
   else query)
  = filter (Processings.selected now status0 period locking0 submitter0) rows0.
Proof.
  cbv zeta.
  destruct period as [seconds|], locking0, submitter0 as [s|];
    rewrite ?truthy_Z_Some, ?truthy_string_Some;
    repeat case_bool_decide;
    cbn [truthy_Z truthy_string default];
    rewrite !filter_bool_decide, ?list_filter_filter;
    apply list_filter_iff; intros r; unfold Processings.selected;
    rewrite elem_of_doubled_singleton; tauto.
Qed.

Lemma transforms_query (now : Z) (status0 : list TransformStatus.t)
    (period : option Z) (locking0 : bool) (rows0 : list Transforms.Transform) :
  (let status1 := match status0 with
                  | [s] => [s; s]
                  | _ => status0
                  end in
   let query := List.filter (fun r => bool_decide (Transforms.status r ∈ status1)) rows0 in
   let query := List.filter (fun r => bool_decide (Transforms.next_poll_at r < now)) query in
   let query :=
     if truthy_Z period
     then List.filter (fun r => bool_decide (Transforms.updated_at r
                                             < now - default 0 period)) query
     else query in
   if locking0
   then List.filter (fun r => bool_decide (Transforms.locking r
                                           = TransformLocking.Idle)) query
   else query)
  = filter (Transforms.selected now status0 period locking0) rows0.
Proof.
  cbv zeta.
  destruct period as [seconds|], locking0;
    rewrite ?truthy_Z_Some;
    repeat case_bool_decide;
    cbn [truthy_Z default];
    rewrite !filter_bool_decide, ?list_filter_filter;
    apply list_filter_iff; intros r; unfold Transforms.selected;
    rewrite elem_of_doubled_singleton; tauto.
Qed.

(** C7, as the code has it.  Both queries return, in the order of
    [updated_at] ascending (for transforms: then [priority] descending),
    the rows whose status is among the requested ones, whose
    [next_poll_at] is before [now], whose [locking] is [Idle] when the
    locking filter is on, and whose [updated_at] is before [now - period]
    when a non-zero period is given (for processings also: whose
    submitter is the requested one when a non-empty submitter is given):
    [l ++ rest] is that sorted selection.  With no [bulk_size], or a
    [bulk_size] of 0, all of it is returned; with a non-zero [bulk_size]
    the first [bulk_size] rows of it. *)
Theorem due_work_selection :
  (forall (now : Z) (status0 : list ProcessingStatus.t) (period : option Z)
          (locking0 : bool) (bulk_size : option nat) (submitter0 : option string)
          (to_json : bool) (session : Processings.Table),
     exists l rest : list Processings.Processing,
       Processings.get_processings_by_status now status0 period locking0 bulk_size
         submitter0 to_json session
       = Ok (List.map (Processings.render to_json) l)
       /\ l ++ rest ≡ₚ filter (Processings.selected now status0 period locking0 submitter0)
                              (Processings.rows session)
       /\ StronglySorted Processings.updated_at_asc (l ++ rest)
       /\ (bulk_size = None \/ bulk_size = Some 0%nat -> rest = [])
       /\ (forall n : nat, bulk_size = Some n -> n <> 0%nat ->
           length l = (n `min` length (l ++ rest))%nat))
  /\ (forall (now : Z) (status0 : list TransformStatus.t) (period : option Z)
             (locking0 : bool) (bulk_size : option nat) (to_json : bool)
             (session : list Transforms.Transform),
        exists l rest : list Transforms.Transform,
          Transforms.get_transforms_by_status now status0 period locking0 bulk_size
            to_json session
          = Ok (List.map (Transforms.render to_json) l)
          /\ l ++ rest ≡ₚ filter (Transforms.selected now status0 period locking0) session
          /\ StronglySorted Transforms.updated_at_asc_priority_desc (l ++ rest)
          /\ (bulk_size = None \/ bulk_size = Some 0%nat -> rest = [])
          /\ (forall n : nat, bulk_size = Some n -> n <> 0%nat ->
              length l = (n `min` length (l ++ rest))%nat)).
Proof.
  split.
  - intros now status0 period locking0 bulk_size submitter0 to_json session.
    unfold Processings.get_processings_by_status. cbv zeta.
    pose proof (processings_query now status0 period locking0 submitter0
                  (Processings.rows session)) as Hq.
    cbv zeta in Hq. rewrite Hq. clear Hq.
    set (sorted := merge_sort Processings.updated_at_asc _).
    destruct (limit_cut sorted bulk_size) as (rest & Hcut & Hall & Hlen).
    eexists _, rest. split; [reflexivity|].
    rewrite Hcut. split; [apply merge_sort_Permutation|].
    split; [apply (StronglySorted_merge_sort _)|]. done.
  - intros now status0 period locking0 bulk_size to_json session.
    unfold Transforms.get_transforms_by_status. cbv zeta.
    pose proof (transforms_query now status0 period locking0 session) as Hq.
    cbv zeta in Hq. rewrite Hq. clear Hq.
    set (sorted := merge_sort Transforms.updated_at_asc_priority_desc _).
    destruct (limit_cut sorted bulk_size) as (rest & Hcut & Hall & Hlen).
    eexists _, rest. split; [reflexivity|].
    rewrite Hcut. split; [apply merge_sort_Permutation|].
    split; [apply (StronglySorted_merge_sort _)|]. done.
Qed.

(** C7, as stated, fails for a [bulk_size] of 0: [if bulk_size:] skips
    the limit, and the one due processing is returned where at most 0
    rows are claimed. *)
Lemma bulk_size_zero_is_no_limit :
  Processings.get_processings_by_status 10 [ProcessingStatus.New] None false
    (Some 0%nat) None false Scenario.one_processing
  = Ok [Processings.to_dict Scenario.due_processing]
  /\ ~ (length [Processings.to_dict Scenario.due_processing] <= 0)%nat.
Proof.
  split; [by vm_compute|]. cbn. lia.
Qed.

End due_work_facts.

(** * Properties of the stage-in work *)

Section rule_facts.
Import StageIn.

(** [submit_processing] changes nothing and sends nothing when the
    active processing has the key ['rule_id'], whatever its value. *)
Lemma submit_processing_key_present (self : Work) (rucio : option RucioClient)
    (log : list Call) (active : string) (others : list string) (p : Processing)
    (v : option string) :
  active_processings self = active :: others ->
  processings self !! active = Some p ->
  pm_rule_id (processing_metadata p) = Some v ->
  submit_processing self rucio log = (Ok self, log).
Proof.
  intros Hact Hp Hkey. unfold submit_processing. rewrite Hact.
  unfold mbind, M_bind, lift, dict_getitem. by rewrite Hp, Hkey.
Qed.

(** [create_processing] always writes the key ['rule_id']. *)
Lemma create_processing_has_key (self : Work) (uuid1 : string) (maps : MapTable) :
  processings (create_processing self uuid1 maps) !! uuid1
  = Some {| processing_metadata :=
              {| internal_id := uuid1; pm_src_rse := src_rse self;
                 pm_dest_rse := dest_rse self; pm_life_time := life_time self;
                 pm_rule_id := Some (rule_id self) |};
            processing_id := None |}.
Proof. cbn. apply lookup_insert_eq. Qed.

(** C1.  A work created without a rule id gets a processing from
    [create_processing] whose metadata holds ['rule_id': None];
    [submit_processing] then finds the key present, sends no request to
    the service and leaves the work, with its [None], as it is. *)
Theorem submit_processing_after_create_processing
    (colls : gmap string Collection) (primary : string) (others outs : list string)
    (max_waiting_time0 : Z) (src dest : option string) (base_lifetime : option Z)
    (uuid1 : string) (maps : MapTable) (rucio : option RucioClient) (log : list Call) :
  let self := create_processing
                (init colls primary others outs max_waiting_time0 src dest None
                      base_lifetime)
                uuid1 maps in
  active_processings self = [uuid1]
  /\ (pm_rule_id ∘ processing_metadata) <$> processings self !! uuid1 = Some (Some None)
  /\ submit_processing self rucio log = (Ok self, log).
Proof.
  intros self. split; [done|]. split.
  - subst self. by rewrite create_processing_has_key.
  - subst self.
    eapply submit_processing_key_present;
      [reflexivity | apply create_processing_has_key | reflexivity].
Qed.

(** On scenario S1 the service would have answered [R]; no request is
    sent. *)
Example s1_tick_2 :
  submit_processing (create_processing Scenario.work "p-1" (Scenario.maps ContentStatus.New))
                    (Some Scenario.rucio) []
  = (Ok (create_processing Scenario.work "p-1" (Scenario.maps ContentStatus.New)), []).
Proof.
  eapply submit_processing_key_present;
    [reflexivity | apply create_processing_has_key | reflexivity].
Qed.

(** Without the key, [submit_processing] stores what [create_rule]
    returns. *)
Lemma submit_processing_key_absent (self : Work) (rucio : option RucioClient)
    (log log' : list Call) (active : string) (others : list string) (p : Processing)
    (rule_id0 : option string) :
  active_processings self = active :: others ->
  processings self !! active = Some p ->
  pm_rule_id (processing_metadata p) = None ->
  create_rule self rucio log = (Ok rule_id0, log') ->
  submit_processing self rucio log
  = (Ok (with_processings (<[active := set_rule_id rule_id0 p]> (processings self))
                          (active_processings self) self), log').
Proof.
  intros Hact Hp Hkey Hrule. unfold submit_processing. rewrite Hact.
  unfold mbind, M_bind, lift, dict_getitem. by rewrite Hp, Hkey, Hrule.
Qed.

(** A rule id returned by the service is returned by [create_rule]. *)
Lemma create_rule_created (self : Work) (client : RucioClient) (log : list Call)
    (coll : Collection) (lifetime0 : Z) (id : string) :
  collections self !! primary_input_collection self = Some coll ->
  lifetime self = Some lifetime0 ->
  add_replication_rule client (request_of self (coll_scope coll, coll_name coll) lifetime0) = Ok (OneRuleId id) ->
  create_rule self (Some client) log
  = (Ok (Some id), log ++ [AddReplicationRule (request_of self (coll_scope coll, coll_name coll) lifetime0)]).
Proof.
  intros Hcoll Hlife Hadd.
  unfold create_rule, try_except, get_rucio_client, mbind, M_bind, lift,
    request, dict_getitem.
  cbn. by rewrite Hcoll, Hlife, Hadd.
Qed.

(** On [DuplicateRule] the handler subscripts the internal id and raises
    [TypeError]; the existing rules are never listed. *)
Lemma create_rule_duplicate (self : Work) (client : RucioClient) (log : list Call)
    (coll : Collection) (lifetime0 : Z) :
  collections self !! primary_input_collection self = Some coll ->
  lifetime self = Some lifetime0 ->
  add_replication_rule client (request_of self (coll_scope coll, coll_name coll) lifetime0) = Raise RucioDuplicateRule ->
  create_rule self (Some client) log
  = (Raise TypeError, log ++ [AddReplicationRule (request_of self (coll_scope coll, coll_name coll) lifetime0)]).
Proof.
  intros Hcoll Hlife Hadd.
  unfold create_rule, try_except, get_rucio_client, mbind, M_bind, lift,
    request, dict_getitem.
  cbn. by rewrite Hcoll, Hlife, Hadd.
Qed.

(** Any other failure of the request gives [None]. *)
Lemma create_rule_other_error (self : Work) (client : RucioClient) (log : list Call)
    (coll : Collection) (lifetime0 : Z) (e : exn) :
  collections self !! primary_input_collection self = Some coll ->
  lifetime self = Some lifetime0 ->
  add_replication_rule client (request_of self (coll_scope coll, coll_name coll) lifetime0) = Raise e ->
  e <> RucioDuplicateRule ->
  create_rule self (Some client) log
  = (Ok None, log ++ [AddReplicationRule (request_of self (coll_scope coll, coll_name coll) lifetime0)]).
Proof.
  intros Hcoll Hlife Hadd He.
  unfold create_rule, try_except, get_rucio_client, mbind, M_bind, lift,
    request, dict_getitem.
  cbn. rewrite Hcoll, Hlife, Hadd.
  by destruct e.
Qed.

(** When the work has no attribute [lifetime], reading it raises inside
    the [try]: nothing is sent and [None] is returned. *)
Lemma create_rule_no_lifetime (self : Work) (client : RucioClient) (log : list Call) :
  lifetime self = None ->
  create_rule self (Some client) log = (Ok None, log).
Proof.
  intros Hlife.
  unfold create_rule, try_except, get_rucio_client, mbind, M_bind, lift,
    request, dict_getitem.
  cbn. rewrite Hlife. by destruct (collections self !! primary_input_collection self).
Qed.

(** C6.  A work as [__init__] builds it has [life_time] but no
    attribute [lifetime]: [create_rule] reads [self.lifetime] inside the
    [try], so for every service it sends nothing and returns [None].  On
    scenario S2, where [add_replication_rule] would raise
    [DuplicateRule] and the account's rule [R0] on [DST] exists, it
    therefore returns [None] and not [R0], which is what the loop over
    the existing rules would pick.  For every work, with the attribute
    or without it, the only request ever sent is the one
    [add_replication_rule]; [list_did_rules] is never sent.  When that
    request was sent, the result follows the answer: a [DuplicateRule]
    leaves [create_rule] as a [TypeError], any other error gives [None],
    and an answer gives its id, the first one of a list, or [None] for
    an empty list. *)
Theorem create_rule_on_duplicate_rule :
  (forall (colls : gmap string Collection) (primary : string) (others outs : list string)
          (max_waiting_time0 : Z) (src dest rule : option string)
          (rucio : option RucioClient) (log : list Call),
     create_rule (init colls primary others outs max_waiting_time0 src dest rule None)
       rucio log
     = (Ok None, log))
  /\ create_rule Scenario.work (Some Scenario.rucio_duplicate) [] = (Ok None, [])
  /\ first_own_rule Scenario.rucio_duplicate Scenario.work
       [{| rule_id_ := "R0"; rule_account := "carrier"; rule_rse_expression := "DST" |}]
     = Some "R0"%string
  /\ (forall (self : Work) (rucio : option RucioClient) (log : list Call),
       exists r calls,
         create_rule self rucio log = (r, log ++ calls)
         /\ Forall (fun c => exists req, c = AddReplicationRule req) calls
         /\ forall client req,
              rucio = Some client ->
              calls = [AddReplicationRule req] ->
              match add_replication_rule client req with
              | Raise RucioDuplicateRule => r = Raise TypeError
              | Raise _ => r = Ok None
              | Ok (OneRuleId id) => r = Ok (Some id)
              | Ok (RuleIdList ids) => r = Ok (head ids)
              end).
Proof.
  split_and!.
  - intros colls primary others outs max_waiting_time0 src dest rule rucio log.
    unfold create_rule, try_except, get_rucio_client, mbind, M_bind, lift,
      request, dict_getitem.
    destruct rucio as [client|]; cbn; [|done].
    by destruct (colls !! primary).
  - by vm_compute.
  - by vm_compute.
  - intros self rucio log.
    unfold create_rule, try_except, get_rucio_client, mbind, M_bind, lift,
      request, dict_getitem, mret, M_ret.
    destruct rucio as [client|]; cbn.
    2:{ exists (Ok None), []. rewrite app_nil_r. by split_and!. }
    destruct (collections self !! primary_input_collection self) as [coll|]; cbn.
    2:{ exists (Ok None), []. rewrite app_nil_r. by split_and!. }
    destruct (lifetime self) as [lifetime0|]; cbn.
    2:{ exists (Ok None), []. rewrite app_nil_r. by split_and!. }
    set (req := request_of self _ lifetime0).
    destruct (add_replication_rule client req) as [[id|[|id ids]]|e] eqn:Hadd; cbn.
    + exists (Ok (Some id)), [AddReplicationRule req].
      split_and!; [done|repeat constructor; eauto|].
      intros client' req' [= <-] [= <-]. by rewrite Hadd.
    + exists (Ok None), [AddReplicationRule req].
      split_and!; [done|repeat constructor; eauto|].
      intros client' req' [= <-] [= <-]. by rewrite Hadd.
    + exists (Ok (Some id)), [AddReplicationRule req].
      split_and!; [done|repeat constructor; eauto|].
      intros client' req' [= <-] [= <-]. by rewrite Hadd.
    + destruct (decide (e = RucioDuplicateRule)) as [->|He].
      * exists (Raise TypeError), [AddReplicationRule req].
        split_and!; [done|repeat constructor; eauto|].
        intros client' req' [= <-] [= <-]. by rewrite Hadd.
      * exists (Ok None), [AddReplicationRule req].
        split_and!; [by destruct e|repeat constructor; eauto|].
        intros client' req' [= <-] [= <-]. rewrite Hadd. by destruct e.
Qed.

(** Were the attribute [lifetime] provided, the request would be sent on
    S2 and the handler of [DuplicateRule] would raise [TypeError]. *)
Example create_rule_with_lifetime :
  create_rule Scenario.work_with_lifetime (Some Scenario.rucio_duplicate) []
  = (Raise TypeError, [AddReplicationRule Scenario.rule_request])
  /\ create_rule Scenario.work_with_lifetime
       (Some (Scenario.rucio_with [] (Raise RucioException) [])) []
     = (Ok None, [AddReplicationRule Scenario.rule_request]).
Proof.
  split.
  - by apply (create_rule_duplicate Scenario.work_with_lifetime Scenario.rucio_duplicate []
                Scenario.ds1 604800).
  - by apply (create_rule_other_error Scenario.work_with_lifetime _ [] Scenario.ds1 604800
                RucioException).
Qed.

End rule_facts.

Section rollup_facts.
Import StageIn.

(** A table keyed by integers has no entry under a string. *)
Lemma int_dict_getitem_str {A} (d : list (Z * A)) (s : string) :
  int_dict_getitem d (StrKey s) = Raise KeyError.
Proof. done. Qed.

(** With at least one registered map the statistics loop raises in its
    first round. *)
Lemma get_status_statistics_nonempty (self : Work) (map_id : Z) (m : IOMap)
    (rest : MapTable) :
  get_status_statistics self ((map_id, m) :: rest) = Raise KeyError.
Proof. done. Qed.

(** With no registered map there is no status name at all, and the
    rollup of an idle work takes the [else] of [len(keys) == 1]. *)
Lemma syn_work_status_no_maps (self : Work) :
  active_processings self = [] ->
  has_new_inputs self = false ->
  syn_work_status self []
  = Ok (set_status WorkStatus.SubFinished (set_status_statistics ∅ self)).
Proof.
  intros Hact Hnew. unfold syn_work_status. cbn.
  unfold has_new_inputs in *. cbn. by rewrite Hact, Hnew.
Qed.

(** What the rollup does once the statistics are there: the branches of
    [syn_work_status] on a count of status names. *)
Lemma count_statuses_all_available :
  count_statuses (outputs (Scenario.map_of 1 "f1" ContentStatus.Available).2) ∅
  = Ok {[ "Available"%string := 1 ]}.
Proof. by vm_compute. Qed.

(** C2.  For every work and every non-empty table of registered maps,
    [syn_work_status] raises [KeyError]: [get_status_statistics]
    subscripts the table with the string ['map_id'].  No status is set,
    whatever the contents' statuses are. *)
Theorem syn_work_status_registered_maps (self : Work) (map_id : Z) (m : IOMap)
    (rest : MapTable) :
  syn_work_status self ((map_id, m) :: rest) = Raise KeyError.
Proof.
  unfold syn_work_status. by rewrite get_status_statistics_nonempty.
Qed.

(** Scenario S1 after tick 5: every output is Available, no processing is
    active, no input is pending. *)
Example s1_rollup :
  syn_work_status (set_has_new_inputs false Scenario.work)
                  (Scenario.maps ContentStatus.Available)
  = Raise KeyError.
Proof. by vm_compute. Qed.

End rollup_facts.

Section poll_facts.
Import StageIn.

(** Every value [poll_rule] stores is the bare member
    [ContentStatus.Available]. *)
Lemma replicas_status_values (locks : list ReplicaLock) (key : string) (v : PyValue) :
  replicas_status locks !! key = Some v -> v = PyStatus ContentStatus.Available.
Proof.
  unfold replicas_status.
  assert (forall acc : gmap string PyValue,
            (forall k w, acc !! k = Some w -> w = PyStatus ContentStatus.Available) ->
            forall k w,
              foldl (fun replicases_status lock =>
                       let key := scope_name (lock_scope lock) (lock_name lock) in
                       if bool_decide (lock_state lock = "OK"%string)
                       then <[key := PyStatus ContentStatus.Available]> replicases_status
                       else replicases_status) acc locks !! k = Some w ->
              w = PyStatus ContentStatus.Available) as Hgen.
  { induction locks as [|lock locks IH]; intros acc Hacc k w; cbn; [by apply Hacc|].
    apply IH. intros k' w'. case_bool_decide; [|by apply Hacc].
    destruct (decide (scope_name (lock_scope lock) (lock_name lock) = k')) as [->|Hne].
    - rewrite lookup_insert_eq. congruence.
    - rewrite lookup_insert_ne by done. apply Hacc. }
  apply Hgen. intros k w. by rewrite lookup_empty.
Qed.

(** An output whose key [poll_rule] reported cannot be compared: the
    member is subscripted with ['substatus']. *)
Lemma poll_content_reported (locks : list ReplicaLock) (content : Content)
    (st : PollState) (current : ContentStatus.t) :
  is_Some (replicas_status locks !! scope_name (scope content) (name content)) ->
  substatus content = Some current ->
  poll_content (replicas_status locks) content st = Raise TypeError.
Proof.
  intros [v Hv] Hcur. unfold poll_content.
  rewrite Hv, (replicas_status_values _ _ _ Hv), Hcur. done.
Qed.

(** An output whose key was not reported is counted by its current
    substatus and yields no delta. *)
Lemma poll_content_not_reported (rep_status : gmap string PyValue) (content : Content)
    (st : PollState) (current : ContentStatus.t) :
  rep_status !! scope_name (scope content) (name content) = None ->
  substatus content = Some current ->
  poll_content rep_status content st
  = Ok (content,
        if decide (current = ContentStatus.Available)
        then {| updated_contents := updated_contents st;
                finished := finished st + 1; unfinished := unfinished st |}
        else {| updated_contents := updated_contents st;
                finished := finished st; unfinished := unfinished st + 1 |}).
Proof.
  intros Hkey Hcur. unfold poll_content. rewrite Hkey. cbn. rewrite Hcur. cbn.
  case_bool_decide; by case_decide.
Qed.

(** C3.  Scenario S1 at tick 5: the rule [R] is in state [OK] and the
    three locks are [OK], the three outputs are still [New].
    [poll_processing_updates] reads the rule and its locks and then
    raises [TypeError] at the first output: no delta
    [{content_id, substatus}] and no [{processing_id, status: Finished}]
    is returned. *)
Theorem poll_processing_updates_locks_ok :
  poll_processing_updates
    (create_processing (Scenario.work_on Scenario.ds1 (Some "R"%string)) "p-1"
                       (Scenario.maps ContentStatus.New))
    (Some Scenario.rucio) (Scenario.maps ContentStatus.New) []
  = (Raise TypeError,
     [GetReplicationRule (Some "R"%string); ListReplicaLocks (Some "R"%string)]).
Proof. by vm_compute. Qed.

End poll_facts.

Section mapping_facts.
Import StageIn.

(** [get_input_contents] reads the log only to extend it. *)
Lemma get_input_contents_log (self : Work) (rucio : option RucioClient) (log : list Call) :
  get_input_contents self rucio log
  = ((get_input_contents self rucio []).1, log ++ (get_input_contents self rucio []).2).
Proof.
  unfold get_input_contents, try_except, get_rucio_client, mbind, M_bind, lift,
    request, dict_getitem, mret, M_ret.
  destruct rucio as [client|]; cbn; [|by rewrite app_nil_r].
  destruct (collections self !! primary_input_collection self) as [coll|]; cbn;
    [|by rewrite app_nil_r].
  by destruct (list_files client (coll_scope coll) (coll_name coll)).
Qed.

(** It depends on the work through its collections only. *)
Lemma get_input_contents_flag (self : Work) (b : bool) (rucio : option RucioClient)
    (log : list Call) :
  get_input_contents (set_has_new_inputs b self) rucio log
  = get_input_contents self rucio log.
Proof. done. Qed.

(** A table whose maps all have an input has its primary inputs. *)
Lemma get_mapped_inputs_total (table : MapTable) :
  Forall (fun e => inputs e.2 <> []) table ->
  exists mapped, get_mapped_inputs table = Ok mapped.
Proof.
  induction 1 as [|[map_id m] table Hm _ [mapped IH]]; [by exists []|].
  cbn in *. destruct (inputs m) as [|ip ips] eqn:Hin; [done|].
  cbn. rewrite IH. cbn. eauto.
Qed.

Lemma foldl_max_ge (ks : list Z) (k : Z) :
  k <= foldl Z.max k ks /\ Forall (fun k' => k' <= foldl Z.max k ks) ks
  /\ foldl Z.max k ks ∈ k :: ks.
Proof.
  revert k. induction ks as [|k' ks IH]; intros k; cbn.
  - split; [lia|]. split; [constructor|]. apply list_elem_of_here.
  - destruct (IH (Z.max k k')) as (Hge & Hall & Hin).
    split; [lia|]. split; [constructor; [lia|done]|].
    apply elem_of_cons in Hin as [Heq|Hin].
    + rewrite Heq. destruct (Z.max_spec k k') as [[_ ->]|[_ ->]].
      * apply list_elem_of_further, list_elem_of_here.
      * apply list_elem_of_here.
    + by do 2 apply list_elem_of_further.
Qed.

(** [next_map_key] is 1 on the empty table, and otherwise one more than
    the largest key. *)
Lemma next_map_key_spec (table : MapTable) :
  (table = [] -> next_map_key table = 1)
  /\ (table <> [] ->
      next_map_key table - 1 ∈ table.*1
      /\ forall k, k ∈ table.*1 -> k < next_map_key table).
Proof.
  split; [by intros ->|]. intros Hne.
  destruct table as [|[k m] table]; [done|]. unfold next_map_key. cbn.
  destruct (foldl_max_ge (table.*1) k) as (Hge & Hall & Hin).
  split.
  - by replace (foldl Z.max k table.*1 + 1 - 1) with (foldl Z.max k table.*1) by lia.
  - intros k' [->|Hk']%elem_of_cons; [lia|].
    rewrite Forall_forall in Hall. specialize (Hall k' Hk'). lia.
Qed.

(** The new maps: one per new input, on consecutive keys. *)
Lemma new_maps_spec (self : Work) (out_id : string) (out_coll : Collection)
    (new_inputs : list Content) (next_key : Z) :
  output_collections self !! 0%nat = Some out_id ->
  collections self !! out_id = Some out_coll ->
  exists delta,
    new_maps self next_key new_inputs = Ok delta
    /\ delta.*1 = seqZ next_key (Z.of_nat (length new_inputs))
    /\ delta.*2 = (fun ip => {| inputs := [ip];
                                outputs := [set_coll_id (coll_coll_id out_coll) ip] |})
                  <$> new_inputs.
Proof.
  intros Hout Hcoll. revert next_key.
  induction new_inputs as [|ip new_inputs IH]; intros next_key.
  - exists []. by cbn.
  - destruct (IH (next_key + 1)) as (delta & Hdelta & Hkeys & Hmaps).
    eexists. cbn [new_maps]. unfold list_getitem, dict_getitem.
    rewrite Hout. cbn. rewrite Hcoll. cbn. rewrite Hdelta. cbn.
    split; [reflexivity|]. cbn. rewrite Hkeys, Hmaps. split; [|done].
    rewrite (seqZ_cons next_key) by (cbn [length]; lia).
    f_equal. f_equal; cbn [length]; lia.
Qed.

Lemma new_maps_nil (self : Work) (next_key : Z) : new_maps self next_key [] = Ok [].
Proof. done. Qed.

Lemma filter_negb_bool_decide {A} (P : A -> Prop) `{!forall x, Decision (P x)}
    (l : list A) :
  List.filter (fun x => negb (bool_decide (P x))) l = filter (fun x => ~ P x) l.
Proof.
  induction l as [|x l IH]; [done|].
  cbn [List.filter]. rewrite filter_cons, IH.
  case_bool_decide; case_decide; done.
Qed.

(** The discovered files no existing map has as its primary input. *)
Lemma new_inputs_unmapped (inputs0 mapped : list Content) :
  List.filter
    (fun ip => negb (bool_decide
                       (scope_name (scope ip) (name ip)
                        ∈ List.map (fun ip => scope_name (scope ip) (name ip)) mapped)))
    inputs0
  = filter (fun ip => scope_name (scope ip) (name ip)
                      ∉ (fun m => scope_name (scope m) (name m)) <$> mapped)
           inputs0.
Proof. apply (filter_negb_bool_decide _). Qed.

(** The last input flagged ['primary'], or the start value. *)
Lemma primary_of_spec (first : Content) (inputs0 : list Content) :
  (Forall (fun c => primary (content_metadata c) <> Some true) inputs0
   /\ primary_of first inputs0 = first)
  \/ (exists l1 l2,
        inputs0 = l1 ++ primary_of first inputs0 :: l2
        /\ primary (content_metadata (primary_of first inputs0)) = Some true
        /\ Forall (fun c => primary (content_metadata c) <> Some true) l2).
Proof.
  unfold primary_of.
  induction inputs0 as [|ip inputs0 IH] using rev_ind; [left; by split|].
  rewrite foldl_app. cbn [foldl].
  destruct (primary (content_metadata ip)) as [[|]|] eqn:Hflag.
  - right. exists inputs0, []. by split_and!.
  - destruct IH as [[Hnone Heq]|(l1 & l2 & Heq & Hflag' & Hnone)].
    + left. split; [|done]. apply Forall_app. split; [done|].
      constructor; [congruence|constructor].
    + right. exists l1, (l2 ++ [ip]). split_and!; [|done|].
      * rewrite Heq at 1. by rewrite <- app_assoc.
      * apply Forall_app. split; [done|]. constructor; [congruence|constructor].
  - destruct IH as [[Hnone Heq]|(l1 & l2 & Heq & Hflag' & Hnone)].
    + left. split; [|done]. apply Forall_app. split; [done|].
      constructor; [congruence|constructor].
    + right. exists l1, (l2 ++ [ip]). split_and!; [|done|].
      * rewrite Heq at 1. by rewrite <- app_assoc.
      * apply Forall_app. split; [done|]. constructor; [congruence|constructor].
Qed.

(** What [get_mapped_inputs] returns: one content per map, in the order
    of the table, the last input flagged ['primary'] or else the first
    input. *)
Lemma get_mapped_inputs_each (table : MapTable) (mapped : list Content) :
  get_mapped_inputs table = Ok mapped ->
  Forall2
    (fun e ip =>
       (Forall (fun c => primary (content_metadata c) <> Some true) (inputs e.2)
        /\ head (inputs e.2) = Some ip)
       \/ (exists l1 l2,
             inputs e.2 = l1 ++ ip :: l2
             /\ primary (content_metadata ip) = Some true
             /\ Forall (fun c => primary (content_metadata c) <> Some true) l2))
    table mapped.
Proof.
  revert mapped. induction table as [|[map_id m] table IH]; intros mapped.
  - intros [= <-]. constructor.
  - cbn [get_mapped_inputs]. unfold list_getitem.
    destruct (inputs m) as [|first rest] eqn:Hinputs; [discriminate|].
    cbn [lookup list_lookup mbind result_bind].
    destruct (get_mapped_inputs table) as [more|e]; [|discriminate].
    cbn [mbind result_bind]. intros Heq.
    assert (mapped = primary_of first (first :: rest) :: more) as -> by congruence.
    constructor; [|by apply IH]. cbn [snd]. rewrite Hinputs.
    destruct (primary_of_spec first (first :: rest)) as [[Hnone ->]|Hlast]; [by left|].
    by right.
Qed.

(** C4.  Let the discovery return [inputs0] and let [mapped] be what
    [get_mapped_inputs] returns for the table: one primary input per
    existing map (its last input flagged ['primary'], or else its first
    input).  Let [unmapped] be the discovered files whose "scope:name"
    is the "scope:name" of none of them.  Then
    [get_new_input_output_maps] returns exactly one new map per unmapped
    file, in their order, on the consecutive keys from [first_key], which
    is 1 for an empty table and the largest existing key plus 1
    otherwise; the new map of a file has the file as its only input and,
    as its only output, a content with the [coll_id] of the first output
    collection and every other field equal to the file's.
    [has_new_inputs] is set to [False], and nothing else of the work
    changes, when there is no unmapped file and the primary collection
    is Closed; the work is unchanged otherwise. *)
Theorem get_new_input_output_maps_unmapped
    (self : Work) (rucio : option RucioClient) (table : MapTable)
    (log log' : list Call) (inputs0 mapped : list Content)
    (primary_coll out_coll : Collection) (out_id : string) :
  get_input_contents self rucio log = (Ok inputs0, log') ->
  get_mapped_inputs table = Ok mapped ->
  collections self !! primary_input_collection self = Some primary_coll ->
  output_collections self !! 0%nat = Some out_id ->
  collections self !! out_id = Some out_coll ->
  let key := fun c : Content => scope c +:+ ":" +:+ name c in
  let unmapped := filter (fun ip => key ip ∉ key <$> mapped) inputs0 in
  Forall2
    (fun e ip =>
       (Forall (fun c => primary (content_metadata c) <> Some true) (inputs e.2)
        /\ head (inputs e.2) = Some ip)
       \/ (exists l1 l2,
             inputs e.2 = l1 ++ ip :: l2
             /\ primary (content_metadata ip) = Some true
             /\ Forall (fun c => primary (content_metadata c) <> Some true) l2))
    table mapped
  /\ exists (self' : Work) (delta : MapTable) (first_key : Z),
    get_new_input_output_maps self rucio table log = (Ok (self', delta), log')
    /\ delta.*1 = seqZ first_key (Z.of_nat (length unmapped))
    /\ delta.*2
       = (fun ip =>
            {| inputs := [ip];
               outputs :=
                 [{| coll_id := coll_coll_id out_coll;
                     scope := scope ip; name := name ip; bytes := bytes ip;
                     adler32 := adler32 ip; min_id := min_id ip; max_id := max_id ip;
                     content_type := content_type ip;
                     content_metadata := content_metadata ip;
                     content_id := content_id ip; status := status ip;
                     substatus := substatus ip |}] |})
         <$> unmapped
    /\ (table = [] -> first_key = 1)
    /\ (table <> [] ->
        first_key - 1 ∈ table.*1 /\ forall k, k ∈ table.*1 -> k < first_key)
    /\ (unmapped = [] /\ coll_status primary_coll = CollectionStatus.Closed ->
        self' = set_has_new_inputs false self /\ has_new_inputs self' = false
        /\ self'
           = {| collections := collections self;
                primary_input_collection := primary_input_collection self;
                other_input_collections := other_input_collections self;
                output_collections := output_collections self;
                max_waiting_time := max_waiting_time self;
                src_rse := src_rse self; dest_rse := dest_rse self;
                life_time := life_time self; lifetime := lifetime self;
                rule_id := rule_id self; processings := processings self;
                active_processings := active_processings self;
                new_inputs_flag := false; work_status := work_status self;
                status_statistics := status_statistics self |})
    /\ (~ (unmapped = [] /\ coll_status primary_coll = CollectionStatus.Closed) ->
        self' = self).
Proof.
  intros Hinputs Hmapped Hprimary Hout Hcoll key unmapped.
  split; [by apply get_mapped_inputs_each|].
  destruct (next_map_key_spec table) as [Hempty Hmax].
  destruct (new_maps_spec self out_id out_coll unmapped (next_map_key table) Hout Hcoll)
    as (delta & Hdelta & Hkeys & Hmaps).
  unfold get_new_input_output_maps, mbind, M_bind, lift.
  rewrite Hinputs, Hmapped. cbv zeta. rewrite new_inputs_unmapped.
  change (filter _ inputs0) with unmapped. rewrite Hdelta.
  destruct unmapped as [|ip more] eqn:Hunmapped.
  - unfold dict_getitem. rewrite Hprimary.
    case_bool_decide as Hclosed.
    + apply list_elem_of_singleton in Hclosed.
      exists (set_has_new_inputs false self), [], (next_map_key table).
      split_and!; try done. intros []. by split_and!.
    + rewrite list_elem_of_singleton in Hclosed.
      exists self, delta, (next_map_key table).
      split_and!; try done. by intros [_ ?].
  - exists self, delta, (next_map_key table).
    split_and!; try done. by intros [? _].
Qed.

(** Scenario S4 on the three files of S1: [f1] is mapped under key 1,
    [f2] and [f3] are new and get the keys 2 and 3, each with an output
    in the output collection, whose [coll_id] is 2; the collection is
    Open and the work is unchanged. *)
Lemma get_new_input_output_maps_unmapped_witness :
  exists (self' : Work) (delta : MapTable) (first_key : Z),
    get_new_input_output_maps Scenario.work (Some Scenario.rucio)
      [Scenario.map_of 1 "f1" ContentStatus.New] []
    = (Ok (self', delta), [ListFiles "u" "ds1"])
    /\ delta.*1 = seqZ first_key 2
    /\ delta.*2 = [ {| inputs := [Scenario.discovered "f2"];
                       outputs := [Scenario.staged "f2"] |};
                    {| inputs := [Scenario.discovered "f3"];
                       outputs := [Scenario.staged "f3"] |} ]
    /\ coll_id <$> [Scenario.staged "f2"; Scenario.staged "f3"] = [2; 2]
    /\ first_key - 1 ∈ [1]
    /\ self' = Scenario.work.
Proof.
  destruct (get_new_input_output_maps_unmapped Scenario.work (Some Scenario.rucio)
              [Scenario.map_of 1 "f1" ContentStatus.New] [] [ListFiles "u" "ds1"]
              [Scenario.discovered "f1"; Scenario.discovered "f2"; Scenario.discovered "f3"]
              [Scenario.content 1 1 "f1" ContentStatus.New]
              Scenario.ds1 Scenario.ds1_out "c-out")
    as (_ & self' & delta & first_key & Hrun & Hkeys & Hmaps & _ & Hfirst & _ & Hsame).
  - vm_compute. reflexivity.
  - vm_compute. reflexivity.
  - vm_compute. reflexivity.
  - vm_compute. reflexivity.
  - vm_compute. reflexivity.
  - exists self', delta, first_key.
    split; [exact Hrun|]. split; [exact Hkeys|]. split; [exact Hmaps|].
    split; [reflexivity|].
    split; [apply Hfirst; discriminate|].
    apply Hsame. intros [Hnone _]. vm_compute in Hnone. discriminate Hnone.
Defined.

Lemma get_input_contents_primary (self : Work) (rucio : option RucioClient)
    (log log' : list Call) (inputs0 : list Content) :
  get_input_contents self rucio log = (Ok inputs0, log') ->
  is_Some (collections self !! primary_input_collection self).
Proof.
  unfold get_input_contents, try_except, get_rucio_client, mbind, M_bind, lift,
    request, dict_getitem.
  destruct rucio as [client|]; cbn; [|discriminate].
  destruct (collections self !! primary_input_collection self); cbn; [eauto|discriminate].
Qed.

(** One call on a table that covers every discovered file. *)
Lemma get_new_input_output_maps_covered (self : Work) (rucio : option RucioClient)
    (table : MapTable) (log log' : list Call) (inputs0 mapped : list Content)
    (primary_coll : Collection) :
  get_input_contents self rucio log = (Ok inputs0, log') ->
  get_mapped_inputs table = Ok mapped ->
  collections self !! primary_input_collection self = Some primary_coll ->
  (forall ip, ip ∈ inputs0 ->
              scope_name (scope ip) (name ip)
              ∈ (fun m => scope_name (scope m) (name m)) <$> mapped) ->
  get_new_input_output_maps self rucio table log
  = (Ok (if decide (coll_status primary_coll = CollectionStatus.Closed)
         then set_has_new_inputs false self else self, []), log').
Proof.
  intros Hinputs Hmapped Hprimary Hcovered.
  unfold get_new_input_output_maps, mbind, M_bind, lift.
  rewrite Hinputs, Hmapped. cbv zeta. rewrite new_inputs_unmapped.
  rewrite filter_none by (apply Forall_forall; intros ip Hip; by auto).
  unfold dict_getitem. rewrite Hprimary, new_maps_nil.
  case_bool_decide as Hclosed; rewrite list_elem_of_singleton in Hclosed;
    by case_decide.
Qed.

(** C5.  When every discovered file is the primary input of an existing
    map, [get_new_input_output_maps] returns the empty delta, and called
    again, on the work it left and the table extended by that delta, it
    returns the same empty delta and leaves the work as it is. *)
Theorem get_new_input_output_maps_idempotent
    (self : Work) (rucio : option RucioClient) (table : MapTable)
    (log log' : list Call) (inputs0 mapped : list Content) :
  get_input_contents self rucio log = (Ok inputs0, log') ->
  get_mapped_inputs table = Ok mapped ->
  (forall ip, ip ∈ inputs0 ->
              scope_name (scope ip) (name ip)
              ∈ (fun m => scope_name (scope m) (name m)) <$> mapped) ->
  exists (self' : Work) (delta : MapTable) (log'' : list Call),
    get_new_input_output_maps self rucio table log = (Ok (self', delta), log')
    /\ delta = []
    /\ get_new_input_output_maps self' rucio (table ++ delta) log'
       = (Ok (self', delta), log'').
Proof.
  intros Hinputs Hmapped Hcovered.
  destruct (get_input_contents_primary _ _ _ _ _ Hinputs) as [primary_coll Hprimary].
  pose proof (get_input_contents_log self rucio log) as Hlog.
  rewrite Hinputs in Hlog. injection Hlog as Hres Hlog'.
  eexists _, [], (log' ++ (get_input_contents self rucio []).2).
  split; [by eapply get_new_input_output_maps_covered|]. split; [done|].
  rewrite app_nil_r.
  destruct (decide (coll_status primary_coll = CollectionStatus.Closed)) as [Hc|Hc].
  - erewrite (get_new_input_output_maps_covered (set_has_new_inputs false self)
                rucio table log' _ inputs0 mapped primary_coll); try done.
    + by rewrite decide_True.
    + by rewrite get_input_contents_flag, get_input_contents_log, <- Hres.
  - erewrite (get_new_input_output_maps_covered self
                rucio table log' _ inputs0 mapped primary_coll); try done.
    + by rewrite decide_False.
    + by rewrite get_input_contents_log, <- Hres.
Qed.

(** Scenario S1 after tick 1: the three files are mapped. *)
Lemma get_new_input_output_maps_idempotent_witness :
  exists (self' : Work) (delta : MapTable) (log'' : list Call),
    get_new_input_output_maps Scenario.work (Some Scenario.rucio)
      (Scenario.maps ContentStatus.New) []
    = (Ok (self', delta), [ListFiles "u" "ds1"])
    /\ delta = []
    /\ get_new_input_output_maps self' (Some Scenario.rucio)
         (Scenario.maps ContentStatus.New ++ delta) [ListFiles "u" "ds1"]
       = (Ok (self', delta), log'').
Proof.
  apply (get_new_input_output_maps_idempotent Scenario.work (Some Scenario.rucio)
           (Scenario.maps ContentStatus.New) [] [ListFiles "u" "ds1"]
           [Scenario.discovered "f1"; Scenario.discovered "f2"; Scenario.discovered "f3"]
           [Scenario.content 1 1 "f1" ContentStatus.New;
            Scenario.content 1 2 "f2" ContentStatus.New;
            Scenario.content 1 3 "f3" ContentStatus.New]).
  - vm_compute. reflexivity.
  - vm_compute. reflexivity.
  - intros ip Hip. apply list_elem_of_In in Hip. simpl in Hip.
    apply list_elem_of_In. simpl.
    decompose [or] Hip; subst; simpl; auto; contradiction.
Defined.

End mapping_facts.


(** * Further properties of the repositories *)

Section table_facts.

(** The first row a filter finds satisfies it. *)
Lemma head_filter_holds {A} (P : A -> Prop) `{!forall x, Decision (P x)}
    (l : list A) (x : A) :
  head (filter P l) = Some x -> P x /\ x ∈ l.
Proof. intros Hhead. by apply head_Some_elem_of, list_elem_of_filter in Hhead. Qed.

(** A row-wise update that keeps what a filter looks at commutes with
    the filter. *)
Lemma filter_fmap_preserved {A} (P : A -> Prop) `{!forall x, Decision (P x)}
    (f : A -> A) (l : list A) :
  (forall x, P (f x) <-> P x) ->
  filter P (f <$> l) = f <$> filter P l.
Proof.
  intros Hf. induction l as [|x l IH]; [done|].
  rewrite fmap_cons, !filter_cons, IH.
  destruct (decide (P x)) as [HP|HP].
  - by rewrite decide_True by by apply Hf.
  - by rewrite decide_False by by rewrite Hf.
Qed.

Lemma fmap_filter_id {A} (P : A -> Prop) `{!forall x, Decision (P x)}
    (f : A -> A) (l : list A) :
  (forall x, P x -> f x = x) ->
  f <$> filter P l = filter P l.
Proof.
  intros Hf. induction l as [|x l IH]; [done|].
  rewrite filter_cons. case_decide; [|done].
  by rewrite fmap_cons, IH, Hf.
Qed.

Lemma head_fmap {A B} (f : A -> B) (l : list A) : head (f <$> l) = f <$> head l.
Proof. by destruct l. Qed.

Lemma filter_iff_elem_of {A} (P Q : A -> Prop) `{!forall x, Decision (P x)}
    `{!forall x, Decision (Q x)} (l : list A) :
  (forall x, x ∈ l -> (P x <-> Q x)) ->
  filter P l = filter Q l.
Proof.
  induction l as [|x l IH]; intros Hiff; [done|].
  rewrite !filter_cons, IH by (intros y Hy; apply Hiff; by right).
  apply decide_ext, Hiff. by left.
Qed.

Lemma filter_all {A} (P : A -> Prop) `{!forall x, Decision (P x)} (l : list A) :
  Forall P l -> filter P l = l.
Proof.
  induction 1 as [|x l Hx _ IH]; [done|].
  by rewrite filter_cons_True, IH.
Qed.

Lemma fmap_fixed {A} (f : A -> A) (l : list A) :
  Forall (fun x => f x = x) l -> f <$> l = l.
Proof.
  induction 1 as [|x l Hx _ IH]; [done|].
  by rewrite fmap_cons, Hx, IH.
Qed.

Lemma andb_false_intro1_or (a b : bool) : a = false \/ b = false -> a && b = false.
Proof. intros [-> | ->]; [done|by destruct a]. Qed.

End table_facts.

Section processings_more.
Import Processings.

(** The row update of [update_processing] keeps the key. *)
Lemma assign_processing_id (p : Parameters) (r : Processing) :
  processing_id (assign p r) = processing_id r.
Proof. done. Qed.

Lemma update_processing_rows (now id : Z) (p : Parameters) (session : Table) :
  update_processing now id p session
  = Ok {| rows := (fun r => if bool_decide (processing_id r = id)
                            then assign (stamped now p) r else r) <$> rows session;
          next_id := next_id session |}.
Proof. done. Qed.

(** X1.  On a table whose keys were drawn from its sequence,
    [add_processing] succeeds with an id no stored row has, keeps the
    table well formed, and leaves what [get_processing] returns for every
    other id unchanged. *)
Theorem add_processing_fresh (now transform_id0 : Z)
    (status0 : ProcessingStatus.t) (locking0 : ProcessingLocking.t)
    (submitter0 : option string) (granularity0 : option Z)
    (granularity_type0 : GranularityType.t) (expired_at0 : option Z)
    (processing_metadata0 output_metadata0 : option string) (session : Table) :
  table_wf session ->
  exists (id : Z) (session' : Table),
    add_processing now transform_id0 status0 locking0 submitter0 granularity0
      granularity_type0 expired_at0 processing_metadata0 output_metadata0 session
    = Ok (id, session')
    /\ (id ∉ processing_id <$> rows session)
    /\ table_wf session'
    /\ forall (id' : Z) (to_json : bool),
         id' <> id ->
         get_processing id' to_json session' = get_processing id' to_json session.
Proof.
  intros Hwf. unfold add_processing.
  set (p := create_processing _ _ _ _ _ _ _ _ _ _).
  destruct (save_fresh now p session Hwf) as (row & Hsave & Hid).
  exists (next_id session),
    {| rows := rows session ++ [row]; next_id := next_id session + 1 |}.
  split; [by rewrite Hsave; cbn; rewrite Hid|].
  split.
  { intros (r & Hr & Hin)%list_elem_of_fmap.
    unfold table_wf in Hwf. rewrite Forall_forall in Hwf.
    specialize (Hwf r Hin). lia. }
  split; [by eapply save_wf|].
  intros id' to_json Hne. rewrite !get_processing_first. cbn [rows].
  rewrite filter_app, (filter_cons_False _ row) by (rewrite Hid; congruence).
  by rewrite filter_nil, app_nil_r.
Qed.

Lemma add_processing_fresh_witness :
  exists (id : Z) (session' : Table),
    add_processing 100 7 ProcessingStatus.New ProcessingLocking.Idle None None
      GranularityType.File None None None Scenario.one_processing
    = Ok (id, session')
    /\ (id ∉ processing_id <$> rows Scenario.one_processing)
    /\ table_wf session'
    /\ forall (id' : Z) (to_json : bool),
         id' <> id ->
         get_processing id' to_json session'
         = get_processing id' to_json Scenario.one_processing.
Proof.
  apply (add_processing_fresh 100 7 ProcessingStatus.New ProcessingLocking.Idle None None
           GranularityType.File None None None Scenario.one_processing).
  unfold table_wf. simpl. constructor; [reflexivity | constructor].
Defined.

(** X2.  Reading back after [update_processing]: the lookup of any other
    id is unchanged; the lookup of the updated id finds a row exactly when
    it did before, and that row has [updated_at = now] and carries, for
    status, locking and next_poll_at, the value the parameters name, or
    the old one when they name none.  No key of the table changes. *)
Theorem update_processing_get_processing (now id : Z) (p : Parameters)
    (to_json : bool) (session : Table) :
  exists session',
    update_processing now id p session = Ok session'
    /\ processing_id <$> rows session' = processing_id <$> rows session
    /\ (forall id', id' <> id ->
        get_processing id' to_json session' = get_processing id' to_json session)
    /\ (get_processing id to_json session = Ok None ->
        get_processing id to_json session' = Ok None)
    /\ (forall r, get_processing id to_json session = Ok (Some (render to_json r)) ->
        exists r',
          get_processing id to_json session' = Ok (Some (render to_json r'))
          /\ processing_id r' = id
          /\ updated_at r' = now
          /\ status r' = default (status r) (status_of <$> p_status p)
          /\ locking r' = default (locking r) (p_locking p)
          /\ next_poll_at r' = default (next_poll_at r) (p_next_poll_at p)).
Proof.
  eexists. split; [apply update_processing_rows|]. cbn [rows].
  set (f := fun r => if bool_decide (processing_id r = id)
                     then assign (stamped now p) r else r).
  assert (Hkey : forall r, processing_id (f r) = processing_id r).
  { intros r. unfold f. by case_bool_decide. }
  split.
  { rewrite <- list_fmap_compose. apply list_fmap_ext. intros _ r _. apply Hkey. }
  assert (Hfilter : forall id', filter (fun r => processing_id r = id') (f <$> rows session)
                                = f <$> filter (fun r => processing_id r = id') (rows session)).
  { intros id'. apply (filter_fmap_preserved _). intros r. by rewrite Hkey. }
  split.
  { intros id' Hne. rewrite !get_processing_first. cbn [rows]. rewrite Hfilter.
    rewrite (fmap_filter_id _); [done|].
    intros r Hr. unfold f. rewrite bool_decide_eq_false_2; [done|congruence]. }
  rewrite !get_processing_first. cbn [rows]. rewrite Hfilter, head_fmap.
  split.
  { intros Hnone. by destruct (head _). }
  intros r Hsome.
  destruct (head (filter _ (rows session))) as [r0|] eqn:Hhead; [|done].
  assert (r0 = r) as ->.
  { unfold render in Hsome. destruct to_json; cbn in Hsome; congruence. }
  apply head_Some_elem_of, list_elem_of_filter in Hhead as [Hid _].
  exists (f r). split; [done|].
  unfold f. rewrite bool_decide_eq_true_2 by done.
  split; [done|]. unfold stamped. rewrite processing_carries_terminal_status.
  by destruct (bool_decide _).
Qed.

(** X3.  [delete_processing] then [get_processing]: the deleted id is
    found no more, every other id is found as before, the sequence is not
    wound back (so a later [add_processing] cannot reuse the key) and a
    well-formed table stays well formed; deleting [None] deletes
    nothing. *)
Theorem delete_processing_get_processing (id : Z) (to_json : bool) (session : Table) :
  exists session',
    delete_processing (Some id) session = Ok session'
    /\ get_processing id to_json session' = Ok None
    /\ (forall id', id' <> id ->
        get_processing id' to_json session' = get_processing id' to_json session)
    /\ next_id session' = next_id session
    /\ (table_wf session -> table_wf session')
    /\ delete_processing None session = Ok session.
Proof.
  eexists. split; [reflexivity|]. cbn [rows next_id].
  rewrite (filter_negb_bool_decide (fun r => Some (processing_id r) = Some id)).
  split.
  { apply get_processing_no_row. cbn [rows].
    intros (r & Hr & [Hne _]%list_elem_of_filter)%list_elem_of_fmap. congruence. }
  split.
  { intros id' Hne. rewrite !get_processing_first. cbn [rows].
    rewrite list_filter_filter_l; [done|]. intros r Hr. congruence. }
  split; [done|]. split.
  { unfold table_wf. cbn [rows next_id]. rewrite !Forall_forall.
    intros Hwf r [_ Hr]%list_elem_of_filter. by apply Hwf. }
  unfold delete_processing. cbn.
  rewrite (filter_negb_bool_decide (fun r => Some (processing_id r) = None)).
  rewrite filter_all by (by apply Forall_forall).
  by destruct session.
Qed.

#[local] Instance processing_id_asc_total : Total processing_id_asc.
Proof. intros r1 r2. unfold processing_id_asc. lia. Qed.

#[local] Instance processing_id_asc_trans : Transitive processing_id_asc.
Proof. intros r1 r2 r3. unfold processing_id_asc. lia. Qed.

(** X4.  [get_processings_by_transform_id] returns exactly the rows of
    the transform, each as often as the table has it, in ascending order
    of [processing_id]; without a transform id it returns the empty
    list. *)
Theorem get_processings_by_transform_id_sorted (transform_id0 : Z) (to_json : bool)
    (session : Table) :
  (exists l,
     get_processings_by_transform_id (Some transform_id0) to_json session
     = Ok (List.map (render to_json) l)
     /\ l ≡ₚ filter (fun r => transform_id r = transform_id0) (rows session)
     /\ StronglySorted processing_id_asc l)
  /\ get_processings_by_transform_id None to_json session = Ok [].
Proof.
  split.
  - exists (merge_sort processing_id_asc
              (filter (fun r => transform_id r = transform_id0) (rows session))).
    split; [|split].
    + unfold get_processings_by_transform_id. cbv zeta.
      rewrite (filter_bool_decide (fun r => Some (transform_id r) = Some transform_id0)).
      rewrite (list_filter_iff _ (fun r => transform_id r = transform_id0))
        by (intros r; split; congruence).
      cbn. by destruct (merge_sort _ _).
    + apply merge_sort_Permutation.
    + apply (StronglySorted_merge_sort _).
  - unfold get_processings_by_transform_id. cbv zeta.
    rewrite (filter_bool_decide (fun r => Some (transform_id r) = None)).
    rewrite filter_none by (by apply Forall_forall).
    done.
Qed.

End processings_more.

Section polling_facts.

(** Every row a due-work query returns is a stored row that the call
    selects. *)
Lemma get_processings_by_status_selected (now : Z) (status0 : list ProcessingStatus.t)
    (period : option Z) (locking0 : bool) (bulk_size : option nat)
    (submitter0 : option string) (to_json : bool) (session : Processings.Table) :
  exists l,
    Processings.get_processings_by_status now status0 period locking0 bulk_size
      submitter0 to_json session
    = Ok (List.map (Processings.render to_json) l)
    /\ (forall r, r ∈ l ->
        r ∈ Processings.rows session
        /\ Processings.selected now status0 period locking0 submitter0 r)
    /\ (bulk_size = None ->
        l ≡ₚ filter (Processings.selected now status0 period locking0 submitter0)
               (Processings.rows session)).
Proof.
  unfold Processings.get_processings_by_status. cbv zeta.
  pose proof (processings_query now status0 period locking0 submitter0
                (Processings.rows session)) as Hq.
  cbv zeta in Hq. rewrite Hq. clear Hq.
  set (sorted := merge_sort Processings.updated_at_asc _).
  destruct (limit_cut sorted bulk_size) as (rest & Hcut & Hall & _).
  eexists. split; [reflexivity|]. split.
  - intros r Hr.
    assert (r ∈ sorted) as Hin by (rewrite <- Hcut; apply elem_of_app; by left).
    unfold sorted in Hin. rewrite merge_sort_Permutation in Hin.
    apply list_elem_of_filter in Hin. tauto.
  - intros ->. cbn. apply merge_sort_Permutation.
Qed.

Lemma get_transforms_by_status_selected (now : Z) (status0 : list TransformStatus.t)
    (period : option Z) (locking0 : bool) (bulk_size : option nat)
    (to_json : bool) (session : list Transforms.Transform) :
  exists l,
    Transforms.get_transforms_by_status now status0 period locking0 bulk_size
      to_json session
    = Ok (List.map (Transforms.render to_json) l)
    /\ (forall r, r ∈ l ->
        r ∈ session /\ Transforms.selected now status0 period locking0 r)
    /\ (bulk_size = None ->
        l ≡ₚ filter (Transforms.selected now status0 period locking0) session).
Proof.
  unfold Transforms.get_transforms_by_status. cbv zeta.
  pose proof (transforms_query now status0 period locking0 session) as Hq.
  cbv zeta in Hq. rewrite Hq. clear Hq.
  set (sorted := merge_sort Transforms.updated_at_asc_priority_desc _).
  destruct (limit_cut sorted bulk_size) as (rest & Hcut & Hall & _).
  eexists. split; [reflexivity|]. split.
  - intros r Hr.
    assert (r ∈ sorted) as Hin by (rewrite <- Hcut; apply elem_of_app; by left).
    unfold sorted in Hin. rewrite merge_sort_Permutation in Hin.
    apply list_elem_of_filter in Hin. tauto.
  - intros ->. cbn. apply merge_sort_Permutation.
Qed.

(** X5.  Claim, then work: once [update_processing] (or
    [update_transform]) has set the [locking] of a row to [Locking], no
    due-work query with the locking filter on returns a row of that id,
    whatever the other arguments are. *)
Theorem locked_row_is_not_selected :
  (forall (now now' id : Z) (status0 : list ProcessingStatus.t) (period : option Z)
          (bulk_size : option nat) (submitter0 : option string) (to_json : bool)
          (session : Processings.Table),
     exists session' l,
       Processings.update_processing now id
         (Processings.locking_parameters ProcessingLocking.Locking) session
       = Ok session'
       /\ Processings.get_processings_by_status now' status0 period true bulk_size
            submitter0 to_json session'
          = Ok (List.map (Processings.render to_json) l)
       /\ Forall (fun r => Processings.processing_id r <> id) l)
  /\ (forall (now now' id : Z) (status0 : list TransformStatus.t) (period : option Z)
             (bulk_size : option nat) (to_json : bool)
             (session : list Transforms.Transform),
        exists session' l,
          Transforms.update_transform now id
            (Transforms.locking_parameters TransformLocking.Locking) session
          = Ok session'
          /\ Transforms.get_transforms_by_status now' status0 period true bulk_size
               to_json session'
             = Ok (List.map (Transforms.render to_json) l)
          /\ Forall (fun r => Transforms.transform_id r <> id) l).
Proof.
  split.
  - intros now now' id status0 period bulk_size submitter0 to_json session.
    eexists.
    destruct (get_processings_by_status_selected now' status0 period true bulk_size
                submitter0 to_json
                {| Processings.rows :=
                     (fun r => if bool_decide (Processings.processing_id r = id)
                               then Processings.assign
                                      (Processings.stamped now
                                         (Processings.locking_parameters
                                            ProcessingLocking.Locking)) r
                               else r) <$> Processings.rows session;
                   Processings.next_id := Processings.next_id session |})
      as (l & Hl & Hsel & _).
    exists l. split; [reflexivity|]. split; [exact Hl|].
    apply Forall_forall. intros r Hr Hid.
    destruct (Hsel r Hr) as [Hin (_ & _ & Hidle & _)]. cbn [Processings.rows] in Hin.
    apply list_elem_of_fmap in Hin as (r0 & -> & _).
    case_bool_decide; [discriminate Hidle|done].
  - intros now now' id status0 period bulk_size to_json session.
    eexists.
    destruct (get_transforms_by_status_selected now' status0 period true bulk_size
                to_json
                ((fun r => if bool_decide (Transforms.transform_id r = id)
                           then Transforms.assign
                                  (Transforms.stamped now
                                     (Transforms.locking_parameters
                                        TransformLocking.Locking)) r
                           else r) <$> session))
      as (l & Hl & Hsel & _).
    exists l. split; [reflexivity|]. split; [exact Hl|].
    apply Forall_forall. intros r Hr Hid.
    destruct (Hsel r Hr) as [Hin (_ & _ & Hidle & _)].
    apply list_elem_of_fmap in Hin as (r0 & -> & _).
    case_bool_decide; [discriminate Hidle|done].
Qed.

(** X6.  The reaper [clean_locking] acts only on rows that are [Locking]
    with [updated_at] before [now - time_period]: such a row becomes
    [Idle], with its key, status and [next_poll_at] unchanged; every other
    row is left as it is.  Afterwards no stale lock remains, and a second
    run at the same time changes nothing. *)
Theorem clean_locking_releases_stale_locks :
  (forall (now time_period : Z) (session : Processings.Table),
     exists session',
       Processings.clean_locking now time_period session = Ok session'
       /\ Processings.next_id session' = Processings.next_id session
       /\ (forall (i : nat) (r : Processings.Processing),
             Processings.rows session !! i = Some r ->
             exists r',
               Processings.rows session' !! i = Some r'
               /\ Processings.locking r'
                  = (if decide (Processings.locking r = ProcessingLocking.Locking
                                /\ Processings.updated_at r < now - time_period)
                     then ProcessingLocking.Idle else Processings.locking r)
               /\ Processings.processing_id r' = Processings.processing_id r
               /\ Processings.status r' = Processings.status r
               /\ Processings.next_poll_at r' = Processings.next_poll_at r
               /\ (Processings.locking r' = Processings.locking r -> r' = r))
       /\ Forall (fun r' => ~ (Processings.locking r' = ProcessingLocking.Locking
                               /\ Processings.updated_at r' < now - time_period))
                 (Processings.rows session')
       /\ Processings.clean_locking now time_period session' = Ok session')
  /\ (forall (now time_period : Z) (session : list Transforms.Transform),
        exists session',
          Transforms.clean_locking now time_period session = Ok session'
          /\ (forall (i : nat) (r : Transforms.Transform),
                session !! i = Some r ->
                exists r',
                  session' !! i = Some r'
                  /\ Transforms.locking r'
                     = (if decide (Transforms.locking r = TransformLocking.Locking
                                   /\ Transforms.updated_at r < now - time_period)
                        then TransformLocking.Idle else Transforms.locking r)
                  /\ Transforms.transform_id r' = Transforms.transform_id r
                  /\ Transforms.status r' = Transforms.status r
                  /\ Transforms.next_poll_at r' = Transforms.next_poll_at r
                  /\ (Transforms.locking r' = Transforms.locking r -> r' = r))
          /\ Forall (fun r' => ~ (Transforms.locking r' = TransformLocking.Locking
                                  /\ Transforms.updated_at r' < now - time_period))
                    session'
          /\ Transforms.clean_locking now time_period session' = Ok session').
Proof.
  split.
  - intros now time_period session.
    eexists. split; [reflexivity|]. cbn [Processings.rows Processings.next_id].
    split; [done|].
    set (f := fun r : Processings.Processing => _).
    assert (Hf : forall r,
               Processings.locking (f r)
               = (if decide (Processings.locking r = ProcessingLocking.Locking
                             /\ Processings.updated_at r < now - time_period)
                  then ProcessingLocking.Idle else Processings.locking r)
               /\ Processings.processing_id (f r) = Processings.processing_id r
               /\ Processings.status (f r) = Processings.status r
               /\ Processings.updated_at (f r) = Processings.updated_at r
               /\ Processings.next_poll_at (f r) = Processings.next_poll_at r
               /\ (Processings.locking (f r) = Processings.locking r -> f r = r)).
    { intros r. unfold f.
      destruct (decide _) as [[Hl Hu]|Hn].
      - rewrite !bool_decide_eq_true_2 by done. cbn.
        split_and!; try done. rewrite Hl. discriminate.
      - rewrite andb_false_intro1_or; [done|].
        apply not_and_l in Hn as [Hn|Hn]; [left|right]; by apply bool_decide_eq_false_2. }
    split.
    { intros i r Hr. exists (f r). split; [by rewrite list_lookup_fmap, Hr|].
      destruct (Hf r) as (? & ? & ? & _ & ? & ?). by split_and!. }
    assert (Hclean : Forall (fun r' => ~ (Processings.locking r' = ProcessingLocking.Locking
                                          /\ Processings.updated_at r' < now - time_period))
                            (f <$> Processings.rows session)).
    { apply Forall_fmap, Forall_forall. intros r _. cbn.
      destruct (Hf r) as (Hl & _ & _ & Hu & _). rewrite Hl, Hu.
      case_decide; [by intros [? _]|done]. }
    split; [exact Hclean|].
    change (Ok {| Processings.rows := f <$> (f <$> Processings.rows session);
                  Processings.next_id := Processings.next_id session |}
            = Ok {| Processings.rows := f <$> Processings.rows session;
                    Processings.next_id := Processings.next_id session |}).
    rewrite (fmap_fixed f (f <$> Processings.rows session)); [done|].
    eapply Forall_impl; [exact Hclean|].
    intros r Hr. cbn. unfold f.
    rewrite andb_false_intro1_or; [done|].
    apply not_and_l in Hr as [Hn|Hn]; [left|right]; by apply bool_decide_eq_false_2.
  - intros now time_period session.
    eexists. split; [reflexivity|].
    set (f := fun r : Transforms.Transform => _).
    assert (Hf : forall r,
               Transforms.locking (f r)
               = (if decide (Transforms.locking r = TransformLocking.Locking
                             /\ Transforms.updated_at r < now - time_period)
                  then TransformLocking.Idle else Transforms.locking r)
               /\ Transforms.transform_id (f r) = Transforms.transform_id r
               /\ Transforms.status (f r) = Transforms.status r
               /\ Transforms.updated_at (f r) = Transforms.updated_at r
               /\ Transforms.next_poll_at (f r) = Transforms.next_poll_at r
               /\ (Transforms.locking (f r) = Transforms.locking r -> f r = r)).
    { intros r. unfold f.
      destruct (decide _) as [[Hl Hu]|Hn].
      - rewrite !bool_decide_eq_true_2 by done. cbn.
        split_and!; try done. rewrite Hl. discriminate.
      - rewrite andb_false_intro1_or; [done|].
        apply not_and_l in Hn as [Hn|Hn]; [left|right]; by apply bool_decide_eq_false_2. }
    split.
    { intros i r Hr. exists (f r). split; [by rewrite list_lookup_fmap, Hr|].
      destruct (Hf r) as (? & ? & ? & _ & ? & ?). by split_and!. }
    assert (Hclean : Forall (fun r' => ~ (Transforms.locking r' = TransformLocking.Locking
                                          /\ Transforms.updated_at r' < now - time_period))
                            (f <$> session)).
    { apply Forall_fmap, Forall_forall. intros r _. cbn.
      destruct (Hf r) as (Hl & _ & _ & Hu & _). rewrite Hl, Hu.
      case_decide; [by intros [? _]|done]. }
    split; [exact Hclean|].
    change (Ok (f <$> (f <$> session)) = Ok (f <$> session)).
    rewrite (fmap_fixed f (f <$> session)); [done|].
    eapply Forall_impl; [exact Hclean|].
    intros r Hr. cbn. unfold f.
    rewrite andb_false_intro1_or; [done|].
    apply not_and_l in Hr as [Hn|Hn]; [left|right]; by apply bool_decide_eq_false_2.
Qed.

(** X7.  Forcing a re-poll: after [clean_next_poll_at] at time [now] the
    statuses of the rows are what they were, and a due-work query for the
    same statuses at any later time [now'], without period, locking
    filter, submitter or bulk size, returns every row in one of these
    statuses. *)
Theorem clean_next_poll_at_makes_due (now now' : Z) :
  now < now' ->
  (forall (status0 : list ProcessingStatus.t) (to_json : bool)
          (session : Processings.Table),
     exists session' l,
       Processings.clean_next_poll_at now status0 session = Ok session'
       /\ Processings.status <$> Processings.rows session'
          = Processings.status <$> Processings.rows session
       /\ Processings.get_processings_by_status now' status0 None false None None
            to_json session'
          = Ok (List.map (Processings.render to_json) l)
       /\ l ≡ₚ filter (fun r => Processings.status r ∈ status0)
                      (Processings.rows session'))
  /\ (forall (status0 : list TransformStatus.t) (to_json : bool)
             (session : list Transforms.Transform),
        exists session' l,
          Transforms.clean_next_poll_at now status0 session = Ok session'
          /\ Transforms.status <$> session' = Transforms.status <$> session
          /\ Transforms.get_transforms_by_status now' status0 None false None
               to_json session'
             = Ok (List.map (Transforms.render to_json) l)
          /\ l ≡ₚ filter (fun r => Transforms.status r ∈ status0) session').
Proof.
  intros Hlater. split.
  - intros status0 to_json session.
    eexists.
    set (f := fun r : Processings.Processing =>
                if bool_decide (Processings.status r
                                ∈ match status0 with
                                  | [s] => [s; s]
                                  | _ => status0
                                  end)
                then Processings.assign (Processings.next_poll_at_parameters now) r
                else r).
    destruct (get_processings_by_status_selected now' status0 None false None None to_json
                {| Processings.rows := f <$> Processings.rows session;
                   Processings.next_id := Processings.next_id session |})
      as (l & Hl & _ & Hperm).
    exists l. split; [reflexivity|]. cbn [Processings.rows] in *.
    split.
    { rewrite <- list_fmap_compose. apply list_fmap_ext. intros _ r _. cbn.
      unfold f. by case_bool_decide. }
    split; [exact Hl|].
    rewrite (Hperm eq_refl).
    erewrite filter_iff_elem_of; [reflexivity|].
    intros r' (r & -> & _)%list_elem_of_fmap. unfold Processings.selected.
    unfold f. case_bool_decide as Hin; rewrite elem_of_doubled_singleton in Hin; cbn.
    + intuition lia.
    + tauto.
  - intros status0 to_json session.
    eexists.
    set (f := fun r : Transforms.Transform =>
                if bool_decide (Transforms.status r
                                ∈ match status0 with
                                  | [s] => [s; s]
                                  | _ => status0
                                  end)
                then Transforms.assign (Transforms.next_poll_at_parameters now) r
                else r).
    destruct (get_transforms_by_status_selected now' status0 None false None to_json
                (f <$> session))
      as (l & Hl & _ & Hperm).
    exists l. split; [reflexivity|].
    split.
    { rewrite <- list_fmap_compose. apply list_fmap_ext. intros _ r _. cbn.
      unfold f. by case_bool_decide. }
    split; [exact Hl|].
    rewrite (Hperm eq_refl).
    erewrite filter_iff_elem_of; [reflexivity|].
    intros r' (r & -> & _)%list_elem_of_fmap. unfold Transforms.selected.
    unfold f. case_bool_decide as Hin; rewrite elem_of_doubled_singleton in Hin; cbn.
    + intuition lia.
    + tauto.
Qed.

Lemma clean_next_poll_at_makes_due_witness :
  exists session' l,
    Processings.clean_next_poll_at 10 [ProcessingStatus.New] Scenario.one_processing
    = Ok session'
    /\ Processings.status <$> Processings.rows session'
       = Processings.status <$> Processings.rows Scenario.one_processing
    /\ Processings.get_processings_by_status 11 [ProcessingStatus.New] None false None None
         false session'
       = Ok (List.map (Processings.render false) l)
    /\ l ≡ₚ filter (fun r => Processings.status r ∈ [ProcessingStatus.New])
                   (Processings.rows session').
Proof.
  assert (10 < 11) as Hlater by reflexivity.
  exact (proj1 (clean_next_poll_at_makes_due 10 11 Hlater)
               [ProcessingStatus.New] false Scenario.one_processing).
Defined.

End polling_facts.

Section transforms_more.
Import Transforms.

Lemma save_transform_fresh (substatus_default : TransformStatus.t) (now : Z)
    (n : NewTransform) (session : Session) :
  session_wf session ->
  exists row,
    save_transform substatus_default now n session
    = Ok (row, {| transforms := transforms session ++ [row];
                  transform_id_seq := transform_id_seq session + 1;
                  req2transforms := req2transforms session;
                  wp2transforms := wp2transforms session;
                  requests := requests session |})
    /\ row = {| transform_id := transform_id_seq session;
                transform_type := n_transform_type n; transform_tag := n_transform_tag n;
                priority := n_priority n; status := n_status n;
                substatus := substatus_default; locking := n_locking n;
                retries := n_retries n; expired_at := n_expired_at n;
                updated_at := now; next_poll_at := now; finished_at := None;
                transform_metadata := n_transform_metadata n |}.
Proof.
  intros (Hwf & _ & _). unfold save_transform.
  rewrite bool_decide_eq_false_2; [eauto|].
  intros (r & Hr & Hin)%list_elem_of_fmap.
  rewrite Forall_forall in Hwf. specialize (Hwf r Hin). lia.
Qed.

(** X8.  Round trip for transforms: in a session whose keys were drawn
    from its sequence, [add_transform] returns an id under which
    [get_transform] finds the values that were added, with the default
    [substatus] and no [finished_at].  A workprogress id other than 0
    adds exactly the junction row (workprogress, transform); [None] or 0
    adds none.  The junction rows to requests are untouched and the
    session stays well formed. *)
Theorem add_transform_get_transform (substatus_default : TransformStatus.t) (now : Z)
    (transform_type0 : TransformType.t) (transform_tag0 : option string) (priority0 : Z)
    (status0 : TransformStatus.t) (locking0 : TransformLocking.t) (retries0 : Z)
    (expired_at0 : option Z) (transform_metadata0 : option string)
    (workprogress_id : option Z) (session : Session) :
  session_wf session ->
  exists (id : Z) (session' : Session) (r : Transform),
    add_transform substatus_default now transform_type0 transform_tag0 priority0 status0
      locking0 retries0 expired_at0 transform_metadata0 workprogress_id session
    = Ok (id, session')
    /\ get_transform id false (transforms session') = Ok (Some (to_dict r))
    /\ r = {| transform_id := id;
              transform_type := transform_type0; transform_tag := transform_tag0;
              priority := priority0; status := status0;
              substatus := substatus_default; locking := locking0;
              retries := retries0; expired_at := expired_at0;
              updated_at := now; next_poll_at := now; finished_at := None;
              transform_metadata := transform_metadata0 |}
    /\ wp2transforms session'
       = wp2transforms session
         ++ match workprogress_id with
            | Some wp => if decide (wp = 0) then []
                         else [{| wp2t_workprogress_id := wp; wp2t_transform_id := id |}]
            | None => []
            end
    /\ req2transforms session' = req2transforms session
    /\ session_wf session'.
Proof.
  intros Hwf. unfold add_transform.
  set (n := create_transform _ _ _ _ _ _ _ _).
  destruct (save_transform_fresh substatus_default now n session Hwf) as (row & Hsave & Hrow).
  rewrite Hsave. cbn [mbind result_bind].
  assert (Hid : transform_id row = transform_id_seq session) by by rewrite Hrow.
  destruct Hwf as (Hwf1 & Hwf2 & Hwf3).
  assert (Hget : forall rest,
             get_transform (transform_id_seq session) false
               (transforms session ++ [row] ++ rest) = Ok (Some (to_dict row))).
  { intros rest. rewrite get_transform_first, filter_app, filter_none.
    - cbn [app]. by rewrite filter_cons_True.
    - eapply Forall_impl; [exact Hwf1|]. cbn. intros; lia. }
  assert (Hwf' : forall links,
             Forall (fun l => wp2t_transform_id l < transform_id_seq session + 1) links ->
             session_wf {| transforms := transforms session ++ [row];
                           transform_id_seq := transform_id_seq session + 1;
                           req2transforms := req2transforms session;
                           wp2transforms := links;
                           requests := requests session |}).
  { intros links Hlinks. unfold session_wf. cbn. split_and!.
    - apply Forall_app. split; [|constructor; [lia|constructor]].
      eapply Forall_impl; [exact Hwf1|]. cbn. intros; lia.
    - eapply Forall_impl; [exact Hwf2|]. cbn. intros; lia.
    - done. }
  assert (Hwf3' : Forall (fun l => wp2t_transform_id l < transform_id_seq session + 1)
                         (wp2transforms session)).
  { eapply Forall_impl; [exact Hwf3|]. cbn. intros; lia. }
  destruct workprogress_id as [wp|]; [destruct (decide (wp = 0)) as [->|Hwp]|].
  - cbn. rewrite Hid, app_nil_r. eexists _, _, row. split; [reflexivity|]. cbn.
    split; [apply (Hget [])|]. split; [by rewrite Hrow|].
    split; [done|]. split; [done|]. by apply Hwf'.
  - rewrite truthy_Z_Some, bool_decide_eq_true_2 by done.
    unfold save_wp2transform. cbn [wp2transforms default].
    rewrite bool_decide_eq_false_2.
    + cbn. rewrite Hid. eexists _, _, row. split; [reflexivity|]. cbn.
      split; [apply (Hget [])|]. split; [by rewrite Hrow|].
      split; [done|]. split; [done|]. apply Hwf'.
      apply Forall_app. split; [done|]. constructor; [cbn; lia|constructor].
    + intros Hin. rewrite Forall_forall in Hwf3. specialize (Hwf3 _ Hin).
      cbn in Hwf3. lia.
  - cbn. rewrite Hid, app_nil_r. eexists _, _, row. split; [reflexivity|]. cbn.
    split; [apply (Hget [])|]. split; [by rewrite Hrow|].
    split; [done|]. split; [done|]. by apply Hwf'.
Qed.

Lemma add_transform_get_transform_witness :
  exists (id : Z) (session' : Session) (r : Transform),
    add_transform TransformStatus.New 100 TransformType.StageIn None 0
      TransformStatus.New TransformLocking.Idle 0 None None (Some 4) empty
    = Ok (id, session')
    /\ get_transform id false (transforms session') = Ok (Some (to_dict r))
    /\ r = {| transform_id := id;
              transform_type := TransformType.StageIn; transform_tag := None;
              priority := 0; status := TransformStatus.New;
              substatus := TransformStatus.New; locking := TransformLocking.Idle;
              retries := 0; expired_at := None;
              updated_at := 100; next_poll_at := 100; finished_at := None;
              transform_metadata := None |}
    /\ wp2transforms session'
       = wp2transforms empty
         ++ (if decide (4 = 0) then []
             else [{| wp2t_workprogress_id := 4; wp2t_transform_id := id |}])
    /\ req2transforms session' = req2transforms empty
    /\ session_wf session'.
Proof.
  apply (add_transform_get_transform TransformStatus.New 100 TransformType.StageIn None 0
           TransformStatus.New TransformLocking.Idle 0 None None (Some 4) empty).
  unfold session_wf. simpl. repeat split; constructor.
Defined.

(** X9.  Linking a transform to a request.  When the table admits the
    row, [add_req2transform] succeeds and leaves the transforms
    untouched; [get_transform_ids] without filters then lists the ids it
    listed before and the transform id once more, in some order, and a
    query for the request (an id other than 0) lists the transform id.
    When the table does not admit the row, [add_req2transform] raises
    [DuplicatedObject].  The argument [workprogress_id] of
    [get_transform_ids] has no effect. *)
Theorem add_req2transform_get_transform_ids
    (accepts : Req2transform -> list Req2transform -> bool)
    (request_id0 transform_id0 : Z) (workprogress_id : option Z) (session : Session) :
  (if accepts {| r2t_request_id := request_id0; r2t_transform_id := transform_id0 |}
              (req2transforms session)
   then
     exists session' ids ids',
       add_req2transform accepts request_id0 transform_id0 session = Ok session'
       /\ transforms session' = transforms session
       /\ get_transform_ids workprogress_id None None None session = Ok ids
       /\ get_transform_ids workprogress_id None None None session' = Ok ids'
       /\ ids' ≡ₚ transform_id0 :: ids
       /\ (request_id0 <> 0 ->
           exists l,
             get_transform_ids workprogress_id (Some request_id0) None None session' = Ok l
             /\ transform_id0 ∈ l)
   else add_req2transform accepts request_id0 transform_id0 session = Raise DuplicatedObject)
  /\ get_transform_ids workprogress_id None None None session
     = get_transform_ids None None None None session.
Proof.
  split; [|done].
  unfold add_req2transform, save_req2transform.
  destruct (accepts _ _); [|done]. cbn.
  eexists _, _, _. split; [reflexivity|]. split; [done|].
  split; [reflexivity|]. split; [reflexivity|].
  split.
  { cbn. rewrite map_app. cbn. by rewrite <- Permutation_cons_append. }
  intros Hreq. eexists. split; [reflexivity|].
  unfold linked. cbn [req2transforms].
  change (truthy_Z None) with false. cbv iota.
  change (negb (request_id0 =? 0)) with (truthy_Z (Some request_id0)).
  rewrite truthy_Z_Some, bool_decide_eq_true_2 by done.
  rewrite (filter_bool_decide (fun l => Some (r2t_request_id l) = Some request_id0)).
  apply list_elem_of_In, in_map_iff.
  exists {| r2t_request_id := request_id0; r2t_transform_id := transform_id0 |}.
  split; [done|]. apply list_elem_of_In, list_elem_of_filter.
  split; [done|]. apply elem_of_app. right. by left.
Qed.

(** Every row the filters select is a stored junction row. *)
Lemma linked_stored (request_id0 workload_id0 transform_id0 : option Z)
    (session : Session) (l : Req2transform) :
  In l (linked request_id0 workload_id0 transform_id0 session) ->
  In l (req2transforms session).
Proof.
  unfold linked.
  destruct (truthy_Z workload_id0), (truthy_Z request_id0), (truthy_Z transform_id0);
    intros Hin;
    repeat (apply filter_In in Hin as [Hin _]);
    try (apply in_flat_map in Hin as (x & Hx & Hin);
         apply in_map_iff in Hin as (_ & <- & _));
    done.
Qed.

(** X10.  [delete_transform] removes the transform and its junction rows
    to requests: afterwards [get_transform] finds nothing under the id
    and [get_transform_ids] does not list it, while every other transform
    is found as before.  The junction rows to workprogresses are not
    removed. *)
Theorem delete_transform_removes_links (id : Z) (to_json : bool)
    (workprogress_id request_id0 workload_id0 transform_id0 : option Z)
    (session : Session) :
  exists session' ids,
    delete_transform (Some id) session = Ok session'
    /\ get_transform id to_json (transforms session') = Ok None
    /\ (forall id', id' <> id ->
        get_transform id' to_json (transforms session')
        = get_transform id' to_json (transforms session))
    /\ get_transform_ids workprogress_id request_id0 workload_id0 transform_id0 session'
       = Ok ids
    /\ (id ∉ ids)
    /\ wp2transforms session' = wp2transforms session.
Proof.
  eexists _, _. split; [reflexivity|]. cbn [transforms wp2transforms].
  rewrite (filter_negb_bool_decide (fun r => Some (transform_id r) = Some id)).
  split.
  { apply get_transform_no_row.
    intros (r & Hr & [Hne _]%list_elem_of_filter)%list_elem_of_fmap. congruence. }
  split.
  { intros id' Hne. rewrite !get_transform_first.
    rewrite list_filter_filter_l; [done|]. intros r Hr. congruence. }
  split; [reflexivity|]. split; [|done].
  intros Hin. apply list_elem_of_In, in_map_iff in Hin as (l & Hl & Hin).
  apply linked_stored in Hin. cbn [req2transforms] in Hin.
  apply filter_In in Hin as [_ Hne]. apply negb_true_iff, bool_decide_eq_false in Hne.
  congruence.
Qed.

(** X11.  [get_transforms] returns exactly the stored transforms that a
    junction row selected by the filters names: a rendered row is in the
    result if and only if its transform is stored and its id is among
    those [get_transform_ids] lists for the same filters. *)
Theorem get_transforms_linked (request_id0 workload_id0 transform_id0 : option Z)
    (workprogress_id : option Z) (to_json : bool) (session : Session) :
  exists l ids,
    get_transforms request_id0 workload_id0 transform_id0 to_json session
    = Ok (List.map (render to_json) l)
    /\ get_transform_ids workprogress_id request_id0 workload_id0 transform_id0 session
       = Ok ids
    /\ forall r, r ∈ l <-> r ∈ transforms session /\ transform_id r ∈ ids.
Proof.
  eexists _, _. split; [reflexivity|]. split; [reflexivity|].
  intros r. rewrite !list_elem_of_In, in_flat_map, in_map_iff. split.
  - intros (t & Ht & Hin). apply in_map_iff in Hin as (l & -> & Hl).
    apply filter_In in Hl as [Hl Hid]. apply bool_decide_eq_true in Hid.
    split; [done|]. eauto.
  - intros (Hr & l & Hid & Hl). exists r. split; [done|].
    apply in_map_iff. exists l. split; [done|].
    apply filter_In. split; [done|]. by apply bool_decide_eq_true.
Qed.

End transforms_more.

(** * Further properties of the stage-in work *)

Section processing_facts.
Import StageIn.

(** X12.  On a work without active processing, [create_processing] makes
    the new processing the active one: [get_processing] returns it, with
    the work's [src_rse], [dest_rse], [life_time] and [rule_id] in its
    metadata and no [processing_id]; the processings stored under other
    internal ids are kept. *)
Theorem create_processing_get_processing (self : Work) (uuid1 : string)
    (maps maps' : MapTable) :
  active_processings self = [] ->
  get_processing (create_processing self uuid1 maps) maps'
  = Ok (Some {| processing_metadata :=
                  {| internal_id := uuid1; pm_src_rse := src_rse self;
                     pm_dest_rse := dest_rse self; pm_life_time := life_time self;
                     pm_rule_id := Some (rule_id self) |};
                processing_id := None |})
  /\ forall other, other <> uuid1 ->
       processings (create_processing self uuid1 maps) !! other = processings self !! other.
Proof.
  intros Hact. split.
  - unfold get_processing. cbn [create_processing active_processings with_processings
                                 add_processing_to_processings processing_metadata internal_id].
    rewrite Hact. cbn [app]. unfold dict_getitem.
    by rewrite create_processing_has_key.
  - intros other Hne. cbn. by rewrite lookup_insert_ne.
Qed.

Lemma create_processing_get_processing_witness :
  get_processing (create_processing Scenario.work "p-1" []) []
  = Ok (Some {| processing_metadata :=
                  {| internal_id := "p-1"; pm_src_rse := src_rse Scenario.work;
                     pm_dest_rse := dest_rse Scenario.work;
                     pm_life_time := life_time Scenario.work;
                     pm_rule_id := Some (rule_id Scenario.work) |};
                processing_id := None |})
  /\ forall other, other <> "p-1"%string ->
       processings (create_processing Scenario.work "p-1" []) !! other
       = processings Scenario.work !! other.
Proof.
  apply (create_processing_get_processing Scenario.work "p-1" [] []).
  reflexivity.
Defined.

(** X13.  A processing whose metadata lacks the key ['rule_id'] is
    submitted once: [submit_processing] stores what [create_rule]
    returned, an id or [None], under the key, and a second call finds the
    key, sends nothing more and changes nothing.  In particular a failed
    rule creation is not tried again. *)
Theorem submit_processing_once (self : Work) (rucio : option RucioClient)
    (log log' : list Call) (active : string) (others : list string) (p : Processing)
    (rule_id0 : option string) :
  active_processings self = active :: others ->
  processings self !! active = Some p ->
  pm_rule_id (processing_metadata p) = None ->
  create_rule self rucio log = (Ok rule_id0, log') ->
  exists self',
    submit_processing self rucio log = (Ok self', log')
    /\ (pm_rule_id ∘ processing_metadata) <$> processings self' !! active
       = Some (Some rule_id0)
    /\ active_processings self' = active_processings self
    /\ submit_processing self' rucio log' = (Ok self', log').
Proof.
  intros Hact Hp Hkey Hrule. eexists.
  split; [by eapply submit_processing_key_absent|].
  cbn [processings active_processings with_processings].
  split; [by rewrite lookup_insert_eq|]. split; [done|].
  eapply submit_processing_key_present.
  - cbn [active_processings with_processings]. exact Hact.
  - cbn [processings with_processings]. apply lookup_insert_eq.
  - reflexivity.
Qed.

Lemma submit_processing_once_witness :
  exists self',
    submit_processing Scenario.work_unsubmitted (Some Scenario.rucio) []
    = (Ok self', [])
    /\ (pm_rule_id ∘ processing_metadata) <$> processings self' !! "p-0"%string
       = Some (Some None)
    /\ active_processings self' = active_processings Scenario.work_unsubmitted
    /\ submit_processing self' (Some Scenario.rucio) [] = (Ok self', []).
Proof.
  apply (submit_processing_once Scenario.work_unsubmitted (Some Scenario.rucio) []
           [] "p-0" [] Scenario.unsubmitted None).
  - reflexivity.
  - vm_compute. reflexivity.
  - reflexivity.
  - vm_compute. reflexivity.
Defined.

(** X14.  [create_rule] sends at most one request, always an
    [add_replication_rule], and never [list_did_rules].  It returns, with
    an id or with [None], in every case but one: it raises, and then a
    [TypeError], only when the service answered the request with
    [DuplicateRule]. *)
Theorem create_rule_requests (self : Work) (rucio : option RucioClient) (log : list Call) :
  exists r calls,
    create_rule self rucio log = (r, log ++ calls)
    /\ (calls = [] \/ exists req, calls = [AddReplicationRule req])
    /\ match r with
       | Ok _ => True
       | Raise e =>
           e = TypeError
           /\ exists client req,
                rucio = Some client
                /\ calls = [AddReplicationRule req]
                /\ add_replication_rule client req = Raise RucioDuplicateRule
       end.
Proof.
  unfold create_rule, try_except, get_rucio_client, mbind, M_bind, lift,
    request, dict_getitem, mret, M_ret.
  destruct rucio as [client|]; cbn.
  2:{ exists (Ok None), []. rewrite app_nil_r. auto. }
  destruct (collections self !! primary_input_collection self) as [coll|]; cbn.
  2:{ exists (Ok None), []. rewrite app_nil_r. auto. }
  destruct (lifetime self) as [lifetime0|]; cbn.
  2:{ exists (Ok None), []. rewrite app_nil_r. auto. }
  set (req := request_of self _ lifetime0).
  destruct (add_replication_rule client req) as [[id|[|id ids]]|e] eqn:Hadd; cbn.
  - exists (Ok (Some id)), [AddReplicationRule req]. eauto.
  - exists (Ok None), [AddReplicationRule req]. eauto.
  - exists (Ok (Some id)), [AddReplicationRule req]. eauto.
  - destruct (decide (e = RucioDuplicateRule)) as [->|He].
    + exists (Raise TypeError), [AddReplicationRule req]. cbn. eauto 10.
    + exists (Ok None), [AddReplicationRule req]. split; [by destruct e|]. eauto.
Qed.

End processing_facts.

Section polling_work_facts.
Import StageIn.

Lemma replicas_status_foldl (locks : list ReplicaLock) (acc : gmap string PyValue)
    (key : string) :
  foldl (fun replicases_status lock =>
           let key := scope_name (lock_scope lock) (lock_name lock) in
           if bool_decide (lock_state lock = "OK"%string)
           then <[key := PyStatus ContentStatus.Available]> replicases_status
           else replicases_status) acc locks !! key
  = if decide (Exists (fun lock => lock_state lock = "OK"%string
                                   /\ scope_name (lock_scope lock) (lock_name lock) = key)
                      locks)
    then Some (PyStatus ContentStatus.Available)
    else acc !! key.
Proof.
  revert acc. induction locks as [|lock locks IH]; intros acc; cbn [foldl].
  - rewrite decide_False; [done|]. by intros ?%Exists_nil.
  - rewrite IH. cbv zeta.
    destruct (decide (Exists _ locks)) as [Hex|Hex].
    + rewrite decide_True; [done|]. by apply Exists_cons_tl.
    + case_bool_decide as Hok.
      * destruct (decide (scope_name (lock_scope lock) (lock_name lock) = key)) as [Hk|Hk].
        -- rewrite decide_True by (by apply Exists_cons_hd).
           by rewrite Hk, lookup_insert_eq.
        -- rewrite decide_False by (intros [[_ ?]|?]%Exists_cons; done).
           by rewrite lookup_insert_ne.
      * rewrite decide_False; [done|]. intros [[? _]|?]%Exists_cons; done.
Qed.

(** X15.  The replica-status map [poll_rule] builds from the locks has
    an entry for a key exactly when some lock in state ['OK'] has that
    "scope:name", and the entry is [ContentStatus.Available]; locks in any
    other state contribute nothing. *)
Theorem replicas_status_lookup (locks : list ReplicaLock) (key : string) :
  replicas_status locks !! key
  = if decide (Exists (fun lock => lock_state lock = "OK"%string
                                   /\ scope_name (lock_scope lock) (lock_name lock) = key)
                      locks)
    then Some (PyStatus ContentStatus.Available)
    else None.
Proof.
  unfold replicas_status. rewrite replicas_status_foldl.
  by rewrite lookup_empty.
Qed.

(** X16.  [poll_rule] on a work whose active processing carries the key
    ['rule_id'] with value [v].  It reads the rule; [RuleNotFound] becomes
    [ProcessNotFound], any other error of the service is passed on.  The
    locks are listed only if [locks_ok_cnt > 0]; otherwise the status map
    is empty and one request was sent. *)
Theorem poll_rule_outcome (self : Work) (client : RucioClient) (log : list Call)
    (active : string) (others : list string) (p : Processing) (v : option string) :
  active_processings self = active :: others ->
  processings self !! active = Some p ->
  pm_rule_id (processing_metadata p) = Some v ->
  poll_rule self (Some client) log
  = match get_replication_rule client v with
    | Raise e =>
        (Raise (if decide (e = RucioRuleNotFound) then ProcessNotFound else e),
         log ++ [GetReplicationRule v])
    | Ok rule =>
        if decide (locks_ok_cnt rule > 0)
        then match list_replica_locks client v with
             | Ok locks =>
                 (Ok (p, rule_state rule, replicas_status locks),
                  log ++ [GetReplicationRule v; ListReplicaLocks v])
             | Raise e =>
                 (Raise (if decide (e = RucioRuleNotFound) then ProcessNotFound else e),
                  log ++ [GetReplicationRule v; ListReplicaLocks v])
             end
        else (Ok (p, rule_state rule, ∅), log ++ [GetReplicationRule v])
    end.
Proof.
  intros Hact Hp Hkey.
  unfold poll_rule, try_except, get_rucio_client, mbind, M_bind, lift, request,
    list_getitem, dict_getitem, content_getitem, mret, M_ret.
  rewrite Hact. cbn. rewrite Hp. cbn. rewrite Hkey. cbn.
  destruct (get_replication_rule client v) as [rule|e]; cbn.
  - case_bool_decide; case_decide; try done; cbn.
    rewrite <- app_assoc. cbn.
    destruct (list_replica_locks client v) as [locks|e]; cbn; [done|].
    by destruct e.
  - by destruct e.
Qed.

Lemma poll_rule_outcome_witness :
  poll_rule Scenario.work_submitted (Some Scenario.rucio) []
  = match get_replication_rule Scenario.rucio (Some "R"%string) with
    | Raise e =>
        (Raise (if decide (e = RucioRuleNotFound) then ProcessNotFound else e),
         [] ++ [GetReplicationRule (Some "R"%string)])
    | Ok rule =>
        if decide (locks_ok_cnt rule > 0)
        then match list_replica_locks Scenario.rucio (Some "R"%string) with
             | Ok locks =>
                 (Ok (set_rule_id (Some "R"%string) Scenario.unsubmitted,
                      rule_state rule, replicas_status locks),
                  [] ++ [GetReplicationRule (Some "R"%string);
                         ListReplicaLocks (Some "R"%string)])
             | Raise e =>
                 (Raise (if decide (e = RucioRuleNotFound) then ProcessNotFound else e),
                  [] ++ [GetReplicationRule (Some "R"%string);
                         ListReplicaLocks (Some "R"%string)])
             end
        else (Ok (set_rule_id (Some "R"%string) Scenario.unsubmitted, rule_state rule, ∅),
              [] ++ [GetReplicationRule (Some "R"%string)])
    end.
Proof.
  apply (poll_rule_outcome Scenario.work_submitted Scenario.rucio [] "p-0" []
           (set_rule_id (Some "R"%string) Scenario.unsubmitted) (Some "R"%string)).
  - reflexivity.
  - vm_compute. reflexivity.
  - reflexivity.
Defined.

Lemma counted_nil (st : PollState) : counted [] st = st.
Proof. destruct st. unfold counted. cbn. f_equal; lia. Qed.

Lemma counted_app (outs1 outs2 : list Content) (st : PollState) :
  counted (outs1 ++ outs2) st = counted outs2 (counted outs1 st).
Proof.
  unfold counted. cbn. rewrite !filter_app, !length_app. f_equal; lia.
Qed.

Lemma poll_outputs_unreported (rep_status : gmap string PyValue) (outs : list Content)
    (st : PollState) :
  Forall (fun c => rep_status !! scope_name (scope c) (name c) = None
                   /\ is_Some (substatus c)) outs ->
  poll_outputs rep_status outs st = Ok (outs, counted outs st).
Proof.
  intros Houts. revert st.
  induction Houts as [|c outs [Hkey [cur Hcur]] _ IH]; intros st.
  - by rewrite counted_nil.
  - cbn [poll_outputs]. rewrite (poll_content_not_reported _ _ _ cur Hkey Hcur).
    cbn. rewrite IH. cbn. do 2 f_equal.
    change (c :: outs) with ([c] ++ outs). rewrite counted_app. f_equal.
    unfold counted. cbn [app]. rewrite !filter_cons, !filter_nil.
    case_decide as Hav.
    + rewrite decide_True, decide_False by congruence. cbn. f_equal; lia.
    + rewrite decide_False, decide_True by congruence. cbn. f_equal; lia.
Qed.

Lemma poll_maps_unreported (rep_status : gmap string PyValue) (maps : MapTable)
    (st : PollState) :
  Forall (fun c => rep_status !! scope_name (scope c) (name c) = None
                   /\ is_Some (substatus c))
         (concat (List.map (fun e => outputs e.2) maps)) ->
  poll_maps rep_status maps st
  = Ok (maps, counted (concat (List.map (fun e => outputs e.2) maps)) st).
Proof.
  revert st. induction maps as [|[map_id m] maps IH]; intros st Houts.
  - cbn. by rewrite counted_nil.
  - cbn in Houts. apply Forall_app in Houts as [Hm Hrest].
    cbn [poll_maps]. rewrite (poll_outputs_unreported _ _ _ Hm). cbn.
    rewrite (IH _ Hrest). cbn. rewrite counted_app. by destruct m.
Qed.

Lemma none_unfinished (outs : list Content) :
  length (filter (fun c => substatus c <> Some ContentStatus.Available) outs) = 0%nat
  <-> Forall (fun c => substatus c = Some ContentStatus.Available) outs.
Proof.
  induction outs as [|c outs IH]; [by split; [constructor|]|].
  rewrite filter_cons, Forall_cons.
  destruct (decide (substatus c = Some ContentStatus.Available)) as [Hav|Hav].
  - rewrite decide_False by tauto. tauto.
  - rewrite decide_True by done. cbn [length]. split; [lia|tauto].
Qed.

Lemma counted_finished (outs : list Content) :
  finished (counted outs {| updated_contents := []; finished := 0; unfinished := 0 |}) > 0
  /\ unfinished (counted outs {| updated_contents := []; finished := 0; unfinished := 0 |})
     = 0
  <-> outs <> [] /\ Forall (fun c => substatus c = Some ContentStatus.Available) outs.
Proof.
  unfold counted. cbn [finished unfinished].
  pose proof (none_unfinished outs) as Hnone.
  split.
  - intros [Hfin Hun]. assert (Hall : Forall (fun c => substatus c
                                              = Some ContentStatus.Available) outs)
      by (apply Hnone; lia).
    split; [|done]. intros ->. cbn in Hfin. lia.
  - intros [Hne Hall]. rewrite (filter_all _ _ Hall).
    apply Hnone in Hall. rewrite Hall.
    destruct outs; [done|]. cbn [length]. lia.
Qed.

(** X17.  A poll that reports none of the outputs (no lock [OK] for any
    output key), on outputs that all have a substatus: no content delta
    is emitted and the maps are returned as they were;
    [{processing_id, status: Finished}] is emitted exactly when the rule
    state is ['OK'], there is at least one output and every output is
    already [Available]. *)
Theorem poll_processing_updates_unreported (self : Work) (rucio : option RucioClient)
    (maps : MapTable) (log log' : list Call) (p : Processing) (state : string)
    (rep_status : gmap string PyValue) (pid : Z) :
  poll_rule self rucio log = (Ok (p, state, rep_status), log') ->
  processing_id p = Some pid ->
  Forall (fun c => rep_status !! scope_name (scope c) (name c) = None
                   /\ is_Some (substatus c))
         (concat (List.map (fun e => outputs e.2) maps)) ->
  poll_processing_updates self rucio maps log
  = (Ok (if decide (state = "OK"%string
                    /\ concat (List.map (fun e => outputs e.2) maps) <> []
                    /\ Forall (fun c => substatus c = Some ContentStatus.Available)
                              (concat (List.map (fun e => outputs e.2) maps)))
         then Some {| up_processing_id := pid; up_status := ProcessingStatus.Finished |}
         else None,
         [], maps),
     log').
Proof.
  intros Hpoll Hpid Houts.
  unfold poll_processing_updates, poll_processing, mbind, M_bind, lift.
  rewrite Hpoll. cbn. rewrite (poll_maps_unreported _ _ _ Houts). cbn.
  set (outs := concat _) in *.
  pose proof (counted_finished outs) as Hcount.
  set (st := counted outs _) in *.
  destruct (decide (state = "OK"%string /\ outs <> [] /\ Forall _ outs))
    as [(Hstate & Hall)|Hnot].
  - apply Hcount in Hall as [Hfin Hun].
    rewrite !bool_decide_eq_true_2 by done. cbn.
    unfold content_getitem. by rewrite Hpid.
  - replace (bool_decide (state = "OK"%string) && bool_decide (finished st > 0)
             && bool_decide (unfinished st = 0)) with false; [done|].
    symmetry. apply not_true_is_false. intros Htrue.
    apply andb_prop in Htrue as [Htrue Hun]. apply andb_prop in Htrue as [Hstate Hfin].
    apply bool_decide_eq_true in Hstate, Hfin, Hun.
    apply Hnot. split; [done|]. by apply Hcount.
Qed.

Lemma poll_processing_updates_unreported_witness :
  poll_processing_updates Scenario.work_submitted (Some Scenario.rucio_replicating)
    (Scenario.maps ContentStatus.New) []
  = (Ok (if decide ("REPLICATING"%string = "OK"%string
                    /\ concat (List.map (fun e => outputs e.2)
                                        (Scenario.maps ContentStatus.New)) <> []
                    /\ Forall (fun c => substatus c = Some ContentStatus.Available)
                              (concat (List.map (fun e => outputs e.2)
                                                (Scenario.maps ContentStatus.New))))
         then Some {| up_processing_id := 9; up_status := ProcessingStatus.Finished |}
         else None,
         [], Scenario.maps ContentStatus.New),
     [GetReplicationRule (Some "R"%string)]).
Proof.
  apply (poll_processing_updates_unreported Scenario.work_submitted
           (Some Scenario.rucio_replicating) (Scenario.maps ContentStatus.New) []
           [GetReplicationRule (Some "R"%string)]
           (set_rule_id (Some "R"%string) Scenario.unsubmitted) "REPLICATING" ∅ 9).
  - vm_compute. reflexivity.
  - reflexivity.
  - simpl. repeat constructor; eauto.
Defined.

End polling_work_facts.

Section mapping_more.
Import StageIn.

(** X18.  [get_input_contents] either raises [IDDSException], whatever
    went wrong (no credentials, unknown primary collection, a failing
    [list_files]), or returns after exactly one [list_files] request on
    the primary collection's DID: one content per listed file, in order,
    with the file's scope and name, the primary collection's [coll_id],
    [min_id = 0], [max_id] the file's events, and no [content_id],
    [status] or [substatus] yet. *)
Theorem get_input_contents_outcome (self : Work) (rucio : option RucioClient)
    (log : list Call) :
  match get_input_contents self rucio log with
  | (Ok contents, log') =>
      exists client coll files,
        rucio = Some client
        /\ collections self !! primary_input_collection self = Some coll
        /\ list_files client (coll_scope coll) (coll_name coll) = Ok files
        /\ log' = log ++ [ListFiles (coll_scope coll) (coll_name coll)]
        /\ Forall2 (fun file c =>
                      scope c = file_scope file /\ name c = file_name file
                      /\ coll_id c = coll_coll_id coll
                      /\ min_id c = 0 /\ max_id c = file_events file
                      /\ content_id c = None /\ status c = None /\ substatus c = None)
                   files contents
  | (Raise e, log') => e = IDDSException
  end.
Proof.
  unfold get_input_contents, try_except, get_rucio_client, mbind, M_bind, lift,
    request, dict_getitem, mret, M_ret.
  destruct rucio as [client|]; cbn; [|done].
  destruct (collections self !! primary_input_collection self) as [coll|] eqn:Hcoll;
    cbn; [|done].
  destruct (list_files client (coll_scope coll) (coll_name coll)) as [files|e] eqn:Hfiles;
    cbn; [|done].
  exists client, coll, files. split_and!; try done.
  clear Hfiles. induction files as [|file files IH]; cbn; constructor; [|done].
  by cbn.
Qed.

(** X19.  [get_mapped_inputs] raises [IndexError] exactly when some map
    has no input.  Otherwise it returns one content per map, in the order
    of the table: the last input of the map flagged ['primary'], or the
    first input when none is flagged. *)
Theorem get_mapped_inputs_primary (table : MapTable) :
  if decide (Exists (fun e => inputs e.2 = []) table)
  then get_mapped_inputs table = Raise IndexError
  else
    exists mapped,
      get_mapped_inputs table = Ok mapped
      /\ Forall2
           (fun e ip =>
              (Forall (fun c => primary (content_metadata c) <> Some true) (inputs e.2)
               /\ head (inputs e.2) = Some ip)
              \/ (exists l1 l2,
                    inputs e.2 = l1 ++ ip :: l2
                    /\ primary (content_metadata ip) = Some true
                    /\ Forall (fun c => primary (content_metadata c) <> Some true) l2))
           table mapped.
Proof.
  induction table as [|[map_id m] table IH].
  - rewrite decide_False by (by intros ?%Exists_nil). exists []. by split; [|constructor].
  - cbn [get_mapped_inputs]. unfold list_getitem.
    destruct (inputs m) as [|first rest] eqn:Hinputs.
    + rewrite decide_True; [done|]. by apply Exists_cons_hd.
    + cbn [lookup list_lookup mbind result_bind].
      destruct (decide (Exists _ table)) as [Hex|Hex].
      * rewrite decide_True by (by apply Exists_cons_tl). by rewrite IH.
      * rewrite decide_False by (intros [Hm|?]%Exists_cons; [cbn in Hm; congruence|done]).
        destruct IH as (mapped & -> & Hall). cbn [mbind result_bind].
        eexists. split; [reflexivity|]. constructor; [|done]. cbn [snd]. rewrite Hinputs.
        destruct (primary_of_spec first (first :: rest)) as [[Hnone ->]|Hlast]; [by left|].
        by right.
Qed.

(** What a successful run of [get_new_input_output_maps] went through. *)
Lemma get_new_input_output_maps_inv (self self' : Work) (rucio : option RucioClient)
    (table delta : MapTable) (log log' : list Call) :
  get_new_input_output_maps self rucio table log = (Ok (self', delta), log') ->
  exists inputs0 mapped,
    get_input_contents self rucio log = (Ok inputs0, log')
    /\ get_mapped_inputs table = Ok mapped
    /\ new_maps self (next_map_key table)
         (filter (fun ip => scope_name (scope ip) (name ip)
                            ∉ (fun m => scope_name (scope m) (name m)) <$> mapped)
                 inputs0)
       = Ok delta
    /\ (self' = self \/ self' = set_has_new_inputs false self).
Proof.
  unfold get_new_input_output_maps, mbind, M_bind, lift.
  destruct (get_input_contents self rucio log) as [[inputs0|e] log0]; [|discriminate].
  destruct (get_mapped_inputs table) as [mapped|e]; [|discriminate].
  cbv zeta. rewrite new_inputs_unmapped.
  intros Hrun. exists inputs0, mapped.
  remember (filter _ inputs0) as new eqn:Hnew.
  destruct new as [|ip more].
  - destruct (dict_getitem (collections self) (primary_input_collection self))
      as [coll|e]; [|discriminate].
    case_bool_decide.
    + injection Hrun as <- <- <-. split_and!; auto.
    + destruct (new_maps self (next_map_key table) []) as [d|e] eqn:Hd; [|discriminate].
      injection Hrun as <- <- <-. split_and!; auto.
  - destruct (new_maps self (next_map_key table) (ip :: more)) as [d|e] eqn:Hd;
      [|discriminate].
    injection Hrun as <- <- <-. split_and!; auto.
Qed.

(** The maps [new_maps] returns, read back: consecutive keys, and each
    new input the primary input of its map. *)
Lemma new_maps_inv (self : Work) (new_inputs : list Content) (next_key : Z)
    (delta : MapTable) :
  new_maps self next_key new_inputs = Ok delta ->
  delta.*1 = seqZ next_key (Z.of_nat (length new_inputs))
  /\ get_mapped_inputs delta = Ok new_inputs.
Proof.
  revert next_key delta. induction new_inputs as [|ip new_inputs IH]; intros next_key delta.
  - intros [= <-]. by split.
  - cbn [new_maps]. destruct (list_getitem _ _) as [out_id|]; [|discriminate].
    cbn [mbind result_bind].
    destruct (dict_getitem _ _) as [out_coll|]; [|discriminate].
    cbn [mbind result_bind].
    destruct (new_maps self (next_key + 1) new_inputs) as [more|] eqn:Hmore; [|discriminate].
    intros [= <-]. destruct (IH _ _ Hmore) as [Hkeys Hmapped]. split.
    + cbn. rewrite Hkeys, (seqZ_cons next_key) by (cbn [length]; lia).
      f_equal. f_equal; cbn [length]; lia.
    + cbn. rewrite Hmapped. cbn. unfold primary_of. cbn.
      by destruct (primary (content_metadata ip)) as [[|]|].
Qed.

Lemma get_mapped_inputs_app (table1 table2 : MapTable) (mapped1 mapped2 : list Content) :
  get_mapped_inputs table1 = Ok mapped1 ->
  get_mapped_inputs table2 = Ok mapped2 ->
  get_mapped_inputs (table1 ++ table2) = Ok (mapped1 ++ mapped2).
Proof.
  revert mapped1. induction table1 as [|[map_id m] table1 IH]; intros mapped1.
  - by intros [= <-].
  - cbn [get_mapped_inputs app].
    destruct (list_getitem (inputs m) 0) as [first|]; [|discriminate].
    cbn [mbind result_bind].
    destruct (get_mapped_inputs table1) as [mapped|] eqn:Hmapped; [|discriminate].
    intros [= <-] H2. by rewrite (IH mapped eq_refl H2).
Qed.

(** X20.  Map keys stay unique: if the keys of the existing table are
    pairwise distinct, so are the keys of the table extended by the maps
    [get_new_input_output_maps] returns, and each new key is larger than
    every existing key. *)
Theorem get_new_input_output_maps_fresh_keys (self self' : Work)
    (rucio : option RucioClient) (table delta : MapTable) (log log' : list Call) :
  get_new_input_output_maps self rucio table log = (Ok (self', delta), log') ->
  NoDup table.*1 ->
  NoDup (table ++ delta).*1
  /\ Forall (fun k => Forall (fun k' => k' < k) table.*1) delta.*1.
Proof.
  intros Hrun Hnodup.
  destruct (get_new_input_output_maps_inv _ _ _ _ _ _ _ Hrun)
    as (inputs0 & mapped & _ & _ & Hnew & _).
  apply new_maps_inv in Hnew as [Hkeys _].
  assert (Hlow : Forall (fun k' => k' < next_map_key table) table.*1).
  { destruct (next_map_key_spec table) as [_ Hmax].
    destruct table as [|e table]; [constructor|].
    destruct (Hmax ltac:(done)) as [_ Hlt]. by apply Forall_forall. }
  assert (Hnew : Forall (fun k => Forall (fun k' => k' < k) table.*1) delta.*1).
  { rewrite Hkeys. apply Forall_forall. intros k [Hk _]%elem_of_seqZ.
    eapply Forall_impl; [exact Hlow|]. cbn. intros; lia. }
  split; [|done].
  rewrite fmap_app. apply NoDup_app. split_and!; [done| |].
  - intros k Hk Hk'. rewrite Forall_forall in Hnew. specialize (Hnew k Hk').
    rewrite Forall_forall in Hnew. specialize (Hnew k Hk). lia.
  - rewrite Hkeys. apply NoDup_seqZ.
Qed.

Lemma get_new_input_output_maps_fresh_keys_witness :
  NoDup ([Scenario.map_of 1 "f1" ContentStatus.New]
         ++ [(2, {| inputs := [Scenario.discovered "f2"];
                    outputs := [set_coll_id 2 (Scenario.discovered "f2")] |});
             (3, {| inputs := [Scenario.discovered "f3"];
                    outputs := [set_coll_id 2 (Scenario.discovered "f3")] |})]).*1
  /\ Forall (fun k => Forall (fun k' => k' < k)
                             [Scenario.map_of 1 "f1" ContentStatus.New].*1)
            [(2, {| inputs := [Scenario.discovered "f2"];
                    outputs := [set_coll_id 2 (Scenario.discovered "f2")] |});
             (3, {| inputs := [Scenario.discovered "f3"];
                    outputs := [set_coll_id 2 (Scenario.discovered "f3")] |})].*1.
Proof.
  apply (get_new_input_output_maps_fresh_keys Scenario.work Scenario.work
           (Some Scenario.rucio) [Scenario.map_of 1 "f1" ContentStatus.New] _
           [] [ListFiles "u" "ds1"]).
  - vm_compute. reflexivity.
  - simpl. apply NoDup_singleton.
Defined.

(** X21.  The mapping converges: once the maps a call returned are added
    to the table, the next call, with the same files discovered, returns
    no new map; it changes nothing in the work but, possibly, clearing
    [has_new_inputs]. *)
Theorem get_new_input_output_maps_converges (self self' : Work)
    (rucio : option RucioClient) (table delta : MapTable) (log log' : list Call) :
  get_new_input_output_maps self rucio table log = (Ok (self', delta), log') ->
  exists self'' log'',
    get_new_input_output_maps self' rucio (table ++ delta) log'
    = (Ok (self'', []), log'')
    /\ (self'' = self' \/ self'' = set_has_new_inputs false self').
Proof.
  intros Hrun.
  destruct (get_new_input_output_maps_inv _ _ _ _ _ _ _ Hrun)
    as (inputs0 & mapped & Hinputs & Hmapped & Hnew & Hself).
  apply new_maps_inv in Hnew as [_ Hdelta].
  destruct (get_input_contents_primary _ _ _ _ _ Hinputs) as [primary_coll Hprimary].
  pose proof (get_input_contents_log self rucio log) as Hlog.
  rewrite Hinputs in Hlog. injection Hlog as Hres _.
  assert (Hinputs' : get_input_contents self' rucio log'
                     = (Ok inputs0, log' ++ (get_input_contents self rucio []).2)).
  { destruct Hself as [-> | ->];
      by rewrite ?get_input_contents_flag, get_input_contents_log, <- Hres. }
  assert (Hprimary' : collections self' !! primary_input_collection self'
                      = Some primary_coll).
  { by destruct Hself as [-> | ->]. }
  eexists _, _. split.
  - eapply get_new_input_output_maps_covered;
      [exact Hinputs' | by apply get_mapped_inputs_app | exact Hprimary' |].
    intros ip Hip. rewrite fmap_app, elem_of_app.
    destruct (decide (scope_name (scope ip) (name ip)
                      ∈ (fun m => scope_name (scope m) (name m)) <$> mapped)) as [Hin|Hout];
      [by left|right].
    apply list_elem_of_fmap. exists ip. split; [done|].
    by apply list_elem_of_filter.
  - case_decide; auto.
Qed.

Lemma get_new_input_output_maps_converges_witness :
  exists self'' log'',
    get_new_input_output_maps Scenario.work (Some Scenario.rucio)
      ([Scenario.map_of 1 "f1" ContentStatus.New]
       ++ [(2, {| inputs := [Scenario.discovered "f2"];
                  outputs := [set_coll_id 2 (Scenario.discovered "f2")] |});
           (3, {| inputs := [Scenario.discovered "f3"];
                  outputs := [set_coll_id 2 (Scenario.discovered "f3")] |})])
      [ListFiles "u" "ds1"]
    = (Ok (self'', []), log'')
    /\ (self'' = Scenario.work \/ self'' = set_has_new_inputs false Scenario.work).
Proof.
  apply (get_new_input_output_maps_converges Scenario.work Scenario.work
           (Some Scenario.rucio) [Scenario.map_of 1 "f1" ContentStatus.New] _
           [] [ListFiles "u" "ds1"]).
  vm_compute. reflexivity.
Defined.

End mapping_more.

Section rollup_more.
Import StageIn.

(** X22.  What [syn_work_status] can do to a work.  It returns only for
    an empty table of registered maps and raises [KeyError] for every
    other one.  When it returns, the statistics of the work are empty
    and its status is [SubFinished] if the work has no active processing
    and no pending inputs, and the status it had otherwise; nothing else
    of the work changes.  So no call sets [Finished] or [Failed]. *)
Theorem syn_work_status_outcome (self : Work) (table : MapTable) :
  match syn_work_status self table with
  | Ok self' =>
      table = []
      /\ work_status self'
         = (if decide (active_processings self = [] /\ new_inputs_flag self = false)
            then WorkStatus.SubFinished else work_status self)
      /\ status_statistics self' = ∅
      /\ self'
         = {| collections := collections self;
              primary_input_collection := primary_input_collection self;
              other_input_collections := other_input_collections self;
              output_collections := output_collections self;
              max_waiting_time := max_waiting_time self;
              src_rse := src_rse self; dest_rse := dest_rse self;
              life_time := life_time self; lifetime := lifetime self;
              rule_id := rule_id self; processings := processings self;
              active_processings := active_processings self;
              new_inputs_flag := new_inputs_flag self;
              work_status := work_status self';
              status_statistics := status_statistics self' |}
  | Raise e => e = KeyError /\ table <> []
  end.
Proof.
  destruct table as [|[map_id m] rest].
  - destruct (decide (active_processings self = [] /\ new_inputs_flag self = false))
      as [[Hact Hflag]|Hno].
    + rewrite syn_work_status_no_maps by done. by split_and!.
    + assert (syn_work_status self [] = Ok (set_status_statistics ∅ self)) as ->.
      { unfold syn_work_status. cbn. unfold has_new_inputs. cbn.
        destruct (active_processings self) as [|a others] eqn:Hact; [|done].
        destruct (new_inputs_flag self) eqn:Hflag; [done|].
        by destruct Hno. }
      by split_and!.
  - unfold syn_work_status. by rewrite get_status_statistics_nonempty.
Qed.

End rollup_more.
